(** * World-Development-Indicators: the Selection Model and the choropleth map

    A shallow embedding of [src/js/selected.js] (class [Selected]) and of the
    data stages of [src/js/visualizations/geoMap.js] (class [GeoMap]), with the
    properties of the design document stated over it.

    Conventions of the embedding:
    - a JavaScript string is a [string]; an argument that may be [undefined]
      is an [option]; "truthy" is written out ([truthy_str], [truthy_year],
      [truthy_num]);
    - a JavaScript number that carries data is a binary64 [float] (Rocq's
      primitive floats), a year is an integer [Z];
    - an array is a [list]; [Array.prototype.includes], [indexOf] and
      [splice(index, 1)] are written out, negative index included;
    - a method of [Selected] is a function from the object's state to its new
      state; the one observable effect, [dispatcher.call], is returned as a
      list of [Call]s;
    - the classes that are not part of these two files ([InputSanitizer],
      [RegionMapper], [Countries], [Indicators]) and the number formatting of
      d3 and of JavaScript are parameters of the sections that use them;
      [d3.mean] and [d3.rollup] are written out as d3-array documents them. *)

From Stdlib Require Import ZArith List String Ascii Bool Lia.
From Stdlib Require Import Floats Uint63.
From Stdlib Require Import DecimalString DecimalZ DecimalN.
Import ListNotations.

#[local] Set Warnings "-inexact-float".

Local Open Scope string_scope.
Local Open Scope list_scope.

(** ** JavaScript array primitives on arrays of strings *)

(** [arr.includes(x)] *)
Fixpoint includes (arr : list string) (x : string) : bool :=
  match arr with
  | [] => false
  | y :: rest => if String.eqb y x then true else includes rest x
  end.

(** [arr.indexOf(x)], counted from [from]; [-1] when [x] is absent. *)
Fixpoint indexOf_from (from : Z) (arr : list string) (x : string) : Z :=
  match arr with
  | [] => (-1)%Z
  | y :: rest => if String.eqb y x then from else indexOf_from (from + 1) rest x
  end.

Definition indexOf (arr : list string) (x : string) : Z := indexOf_from 0 arr x.

(** [arr.splice(index, 1)]: a negative [index] counts from the end of the
    array (clamped at 0), an index past the end removes nothing. *)
Definition splice1 (index : Z) (arr : list string) : list string :=
  let len := Z.of_nat (List.length arr) in
  let start := if (index <? 0)%Z then Z.max (len + index) 0 else Z.min index len in
  firstn (Z.to_nat start) arr ++ skipn (S (Z.to_nat start)) arr.

(** Truthiness of a possibly undefined string: [undefined] and [''] are falsy. *)
Definition truthy_str (v : option string) : bool :=
  match v with
  | Some s => negb (String.eqb s "")
  | None => false
  end.

(** Truthiness of a possibly undefined year: [undefined] and [0] are falsy. *)
Definition truthy_year (v : option Z) : bool :=
  match v with
  | Some z => negb (z =? 0)%Z
  | None => false
  end.

(** ** The state of a [Selected] object *)

Record Area := mkArea { region : string; country : string }.

Record TimeInterval := mkTimeInterval { min : Z; max : Z }.

(** A d3 dispatcher is an object; only its identity matters here. *)
Record Dispatcher := mkDispatcher { dispatcher_id : nat }.

(** The table of event names handed to [setDispatcher]. *)
Record DispatcherEvents := mkDispatcherEvents {
  ERROR_TOO_MANY_COMPARISONS : string;
  MAP_ITEM_HOVER : string;
  MAP_ITEM_UNHOVER : string
}.

(** One [dispatcher.call(type, this)]. *)
Record Call := mkCall { call_on : Dispatcher; call_type : string }.

Record Selected := mkSelected {
  area : Area;
  comparisonAreas : list string;
  indicator : string;
  timeInterval : option TimeInterval;     (* [{}] is [None] *)
  allSelectedAreas : list string;
  dispatcher : option Dispatcher;
  dispatcherEvents : option DispatcherEvents
}.

Definition with_area (a : Area) (s : Selected) : Selected :=
  mkSelected a (comparisonAreas s) (indicator s) (timeInterval s)
             (allSelectedAreas s) (dispatcher s) (dispatcherEvents s).

Definition with_comparisonAreas (l : list string) (s : Selected) : Selected :=
  mkSelected (area s) l (indicator s) (timeInterval s)
             (allSelectedAreas s) (dispatcher s) (dispatcherEvents s).

Definition with_allSelectedAreas (l : list string) (s : Selected) : Selected :=
  mkSelected (area s) (comparisonAreas s) (indicator s) (timeInterval s)
             l (dispatcher s) (dispatcherEvents s).

(** ** The methods of [Selected] *)

Section SelectedMethods.

(** [InputSanitizer.formatCountryOrRegionNames] *)
Variable formatCountryOrRegionNames : string -> string.
(** [RegionMapper.getCountriesOfRegion] *)
Variable getCountriesOfRegion : string -> list string.
(** [Countries.isSameCountryName] *)
Variable isSameCountryName : string -> string -> bool.
(** [Indicators.POPULATION_TOTAL] *)
Variable POPULATION_TOTAL : string.

(** selected.js 173-180 *)
Definition updateAllSelectedAreas (a : Area) (comparison : list string)
           (s : Selected) : Selected :=
  let region' := formatCountryOrRegionNames (region a) in
  let country' := formatCountryOrRegionNames (country a) in
  with_allSelectedAreas
    (if negb (String.eqb country' "") then country' :: comparison
     else region' :: comparison) s.

(** selected.js 15-30. An absent argument is [None]; an empty indicator
    string is falsy as well. *)
Definition constructor (selectedArea : option Area)
           (selectedComparisonAreas : option (list string))
           (selectedIndicator : option string)
           (selectedTimeInterval : option TimeInterval)
           (dispatcher0 : option Dispatcher) : Selected :=
  let area0 := match selectedArea with
               | Some a => a
               | None => mkArea "World" ""
               end in
  let comparison0 := match selectedComparisonAreas with
                     | Some l => l
                     | None => []
                     end in
  let indicator0 := match selectedIndicator with
                    | Some i => if truthy_str (Some i) then i else POPULATION_TOTAL
                    | None => POPULATION_TOTAL
                    end in
  let s := mkSelected area0 comparison0 indicator0 selectedTimeInterval
                      [] None None in
  let s := updateAllSelectedAreas (area s) (comparisonAreas s) s in
  mkSelected (area s) (comparisonAreas s) (indicator s) (timeInterval s)
             (allSelectedAreas s) dispatcher0 (dispatcherEvents s).

(** selected.js 37-55 *)
Definition addComparisonArea (countryOrRegion : string) (s : Selected)
  : Selected * list Call :=
  let countryOrRegion := formatCountryOrRegionNames countryOrRegion in
  let isFocusArea := String.eqb (region (area s)) countryOrRegion
                     || String.eqb (country (area s)) countryOrRegion in
  let isComparisonListFull := (4 <=? List.length (comparisonAreas s))%nat in
  let isAlreadyInList := includes (comparisonAreas s) countryOrRegion in
  let '(s, calls) :=
    if negb isFocusArea && negb isComparisonListFull && negb isAlreadyInList
    then (with_comparisonAreas (comparisonAreas s ++ [countryOrRegion]) s, [])
    else if isComparisonListFull
    then match dispatcher s, dispatcherEvents s with
         | Some d, Some ev => (s, [mkCall d (ERROR_TOO_MANY_COMPARISONS ev)])
         | _, _ => (s, [])
         end
    else (s, []) in
  (updateAllSelectedAreas (area s) (comparisonAreas s) s, calls).

(** selected.js 61-71 *)
Definition removeComparisonArea (countryOrRegion : string) (s : Selected)
  : Selected :=
  let index := indexOf (comparisonAreas s) countryOrRegion in
  if (-1 <? index)%Z
  then let s := with_comparisonAreas (splice1 index (comparisonAreas s)) s in
       updateAllSelectedAreas (area s) (comparisonAreas s) s
  else s.

(** selected.js 92-101 *)
Definition isFocusCountryInList (focusedCountry : option string)
           (s : Selected) : bool :=
  match focusedCountry with
  | Some c =>
      if truthy_str focusedCountry
      then existsb (fun comparisonArea => isSameCountryName comparisonArea c)
                   (comparisonAreas s)
      else false
  | None => false
  end.

(** selected.js 77-90. [focusedArea] is the object literal [{region, country}]
    built by [setArea] from its own arguments, either of which may be
    [undefined]; an array of strings never includes [undefined]. *)
Definition updateComparisonArea (focusedRegion focusedCountry : option string)
           (s : Selected) : Selected :=
  let isFocusCountryInList := isFocusCountryInList focusedCountry s in
  let isFocusRegionInList := match focusedRegion with
                             | Some r => includes (comparisonAreas s) r
                             | None => false
                             end in
  if isFocusCountryInList
  then match focusedCountry with
       | Some c =>
           let index := indexOf (comparisonAreas s) c in
           with_comparisonAreas (splice1 index (comparisonAreas s)) s
       | None => s
       end
  else if isFocusRegionInList
  then match focusedRegion with
       | Some r =>
           let index := indexOf (comparisonAreas s) r in
           with_comparisonAreas (splice1 index (comparisonAreas s)) s
       | None => s
       end
  else s.

(** selected.js 124-132 *)
Definition setCountry (newCountry : option string) (s : Selected) : Selected :=
  match newCountry with
  | Some c =>
      if truthy_str newCountry
      then let countriesInSelectedRegion :=
             getCountriesOfRegion (region (area s)) in
           if includes countriesInSelectedRegion c
           then with_area (mkArea (region (area s)) c) s
           else s
      else s
  | None => s
  end.

(** selected.js 109-118 *)
Definition setArea (newRegion newCountry : option string) (s : Selected)
  : Selected :=
  let region' := match newRegion with
                 | Some r => if truthy_str newRegion
                             then formatCountryOrRegionNames r
                             else region (area s)
                 | None => region (area s)
                 end in
  let s := with_area (mkArea region' (country (area s))) s in
  let s := setCountry newCountry s in
  let s := updateComparisonArea newRegion newCountry s in
  updateAllSelectedAreas (area s) (comparisonAreas s) s.

(** selected.js 138-142 *)
Definition setIndicator (newIndicator : option string) (s : Selected)
  : Selected :=
  match newIndicator with
  | Some i =>
      if truthy_str newIndicator
      then mkSelected (area s) (comparisonAreas s) i (timeInterval s)
                      (allSelectedAreas s) (dispatcher s) (dispatcherEvents s)
      else s
  | None => s
  end.

(** selected.js 149-153 *)
Definition setTimeInterval (newMin newMax : option Z) (s : Selected)
  : Selected :=
  match newMin, newMax with
  | Some lo, Some hi =>
      if truthy_year newMin && truthy_year newMax
      then mkSelected (area s) (comparisonAreas s) (indicator s)
                      (Some (mkTimeInterval lo hi))
                      (allSelectedAreas s) (dispatcher s) (dispatcherEvents s)
      else s
  | _, _ => s
  end.

(** selected.js 162-166; [area] is destructured by [setArea]. *)
Definition setItems (newRegion newCountry : option string)
           (newIndicator : option string) (minYear maxYear : option Z)
           (s : Selected) : Selected :=
  let s := setArea newRegion newCountry s in
  let s := setIndicator newIndicator s in
  setTimeInterval minYear maxYear s.

(** selected.js 182-185 *)
Definition setDispatcher (d : option Dispatcher)
           (events : option DispatcherEvents) (s : Selected) : Selected :=
  mkSelected (area s) (comparisonAreas s) (indicator s) (timeInterval s)
             (allSelectedAreas s) d events.

(** *** Sequences of method calls *)

Inductive Op :=
| AddComparisonArea (countryOrRegion : string)
| RemoveComparisonArea (countryOrRegion : string)
| SetArea (newRegion newCountry : option string)
| SetIndicator (newIndicator : option string)
| SetTimeInterval (newMin newMax : option Z)
| SetItems (newRegion newCountry newIndicator : option string)
           (minYear maxYear : option Z)
| SetDispatcher (d : option Dispatcher) (events : option DispatcherEvents).

Definition step (op : Op) (s : Selected) : Selected * list Call :=
  match op with
  | AddComparisonArea n => addComparisonArea n s
  | RemoveComparisonArea n => (removeComparisonArea n s, [])
  | SetArea r c => (setArea r c s, [])
  | SetIndicator i => (setIndicator i s, [])
  | SetTimeInterval lo hi => (setTimeInterval lo hi s, [])
  | SetItems r c i lo hi => (setItems r c i lo hi s, [])
  | SetDispatcher d ev => (setDispatcher d ev s, [])
  end.

(** Runs the calls in order and collects the dispatcher calls they make. *)
Fixpoint run (ops : list Op) (s : Selected) : Selected * list Call :=
  match ops with
  | [] => (s, [])
  | op :: rest =>
      let '(s1, calls1) := step op s in
      let '(s2, calls2) := run rest s1 in
      (s2, calls1 ++ calls2)
  end.

(** The states an application can bring a [Selected] object into: built by
    the constructor, then any calls of its methods. *)
Inductive reachable : Selected -> Prop :=
| reachable_new a l i t d : reachable (constructor a l i t d)
| reachable_step op s : reachable s -> reachable (fst (step op s)).

(** *** Notions the properties are stated with *)

(** The name [updateAllSelectedAreas] puts in front: the sanitized country
    unless that is empty, else the sanitized region. *)
Definition focusName (a : Area) : string :=
  if negb (String.eqb (formatCountryOrRegionNames (country a)) "")
  then formatCountryOrRegionNames (country a)
  else formatCountryOrRegionNames (region a).

(** [allSelectedAreas] is up to date. *)
Definition allSelected_current (s : Selected) : Prop :=
  allSelectedAreas s = focusName (area s) :: comparisonAreas s.

(** The region [setArea] makes the active one before it calls the
    country-setter. *)
Definition activeRegion (newRegion : option string) (s : Selected) : string :=
  match newRegion with
  | Some r => if truthy_str newRegion then formatCountryOrRegionNames r
              else region (area s)
  | None => region (area s)
  end.

(** The focus as the design document names it: the country when there is
    one, else the region, as stored. *)
Definition storedFocus (a : Area) : string :=
  if negb (String.eqb (country a) "") then country a else region a.

(** The three conditions the design document puts on the comparison list. *)
Definition comparison_ok (s : Selected) : Prop :=
  List.length (comparisonAreas s) <= 4 /\
  NoDup (comparisonAreas s) /\
  ~ In (country (area s)) (comparisonAreas s) /\
  ~ In (region (area s)) (comparisonAreas s).

(** Both halves of the guard of [dispatcher.call] hold. *)
Definition registered (s : Selected) : bool :=
  match dispatcher s, dispatcherEvents s with
  | Some _, Some _ => true
  | _, _ => false
  end.

(** What an overflow of the comparison list makes the object emit. *)
Definition overflow_calls (s : Selected) : list Call :=
  match dispatcher s, dispatcherEvents s with
  | Some d, Some ev => [mkCall d (ERROR_TOO_MANY_COMPARISONS ev)]
  | _, _ => []
  end.

(** A call of [setDispatcher] that registers both a dispatcher and a table
    of events. *)
Definition registers_both (op : Op) : bool :=
  match op with
  | SetDispatcher (Some _) (Some _) => true
  | _ => false
  end.

End SelectedMethods.

(** ** The data stages of [GeoMap] *)

(** One record of the input dataset. *)
Record Observation := mkObservation {
  CountryCode : string;
  IndicatorName : string;
  Year : Z;
  Value : float
}.

(** What a [Map] lookup or [d3.mean] can return: a number, or [undefined]
    ([None]). *)
Definition JsNumber := option float.

(** Truthiness of such a value: [undefined], [0], [-0] and [NaN] are falsy. *)
Definition truthy_num (v : JsNumber) : bool :=
  match v with
  | Some f => negb (f =? 0)%float && negb (is_nan f)
  | None => false
  end.

(** [ToNumber]: [undefined] becomes [NaN]. *)
Definition ToNumber (v : JsNumber) : float :=
  match v with
  | Some f => f
  | None => nan
  end.

(** [years.includes(y)] on an array of years. *)
Definition includes_year (years : list Z) (y : Z) : bool :=
  existsb (fun y' => (y' =? y)%Z) years.

(** *** d3-array: [mean] and [rollup] *)

(** The count that [d3.mean] keeps is a whole number below 2^32, the bound on
    the length of an array, and such a number is exact in binary64; it is kept
    as a [nat] here and made a float where it is divided by. *)
Definition float_of_nat (n : nat) : float :=
  PrimFloat.of_uint63 (Uint63.of_Z (Z.of_nat n)).

(** One turn of the loop of [d3.mean]: a value that is not [>=] itself (NaN)
    is skipped, any other is counted and summed. *)
Definition mean_step (acc : nat * float) (value : float) : nat * float :=
  let '(count, sum) := acc in
  if (value <=? value)%float then (S count, (sum + value)%float)
  else (count, sum).

(** [d3.mean(values)]: [sum / count] over the numbers of [values];
    [undefined] when there is none. *)
Definition d3_mean (values : list float) : JsNumber :=
  let '(count, sum) := fold_left mean_step values (0, 0%float) in
  match count with
  | 0 => None
  | S _ => Some (sum / float_of_nat count)%float
  end.

(** A JavaScript [Map] with string keys, in insertion order. *)
Definition JsMap (V : Type) := list (string * V).

Fixpoint Map_has {V} (m : JsMap V) (k : string) : bool :=
  match m with
  | [] => false
  | (k', _) :: rest => if String.eqb k' k then true else Map_has rest k
  end.

Fixpoint Map_lookup {V} (m : JsMap V) (k : string) : option V :=
  match m with
  | [] => None
  | (k', v) :: rest => if String.eqb k' k then Some v else Map_lookup rest k
  end.

(** [map.get(k)] on a map of numbers: [undefined] for an absent key, and for
    a key whose value is [undefined]. [get(undefined)] finds nothing in a map
    keyed by strings. *)
Definition Map_get (m : JsMap JsNumber) (k : option string) : JsNumber :=
  match k with
  | Some k => match Map_lookup m k with
              | Some v => v
              | None => None
              end
  | None => None
  end.

Definition Map_keys {V} (m : JsMap V) : list string := map fst m.

Definition Map_delete {V} (m : JsMap V) (k : string) : JsMap V :=
  filter (fun kv => negb (String.eqb (fst kv) k)) m.

(** The grouping loop of [d3.rollup]: the element joins the group of its key,
    a new key opens a group at the end. *)
Fixpoint group_insert {A} (k : string) (x : A) (groups : JsMap (list A))
  : JsMap (list A) :=
  match groups with
  | [] => [(k, [x])]
  | (k', xs) :: rest =>
      if String.eqb k' k then (k', xs ++ [x]) :: rest
      else (k', xs) :: group_insert k x rest
  end.

Definition d3_group {A} (values : list A) (key : A -> string) : JsMap (list A) :=
  fold_left (fun groups x => group_insert (key x) x groups) values [].

(** [d3.rollup(values, reduce, key)] *)
Definition d3_rollup {A V} (values : list A) (reduce : list A -> V)
           (key : A -> string) : JsMap V :=
  map (fun kv => (fst kv, reduce (snd kv))) (d3_group values key).

(** *** geoMap.js 261-284: the aggregation of [updateData]

    [selectedYears] and [indicator] are read from the [Selected] object;
    the result is [vis.groupedData]. *)
Definition filteredData (data : list Observation) (selectedYears : list Z)
           (indicator0 : string) : list Observation :=
  filter (fun d => includes_year selectedYears (Year d)
                   && String.eqb (IndicatorName d) indicator0) data.

Definition updateData (data : list Observation) (selectedYears : list Z)
           (indicator0 : string) : JsMap JsNumber :=
  let groupedData :=
    d3_rollup (filteredData data selectedYears indicator0)
              (fun v => d3_mean (map Value v)) CountryCode in
  fold_left (fun grouped countryCode =>
               if String.eqb countryCode "WLD"
               then Map_delete grouped countryCode
               else grouped)
            (Map_keys groupedData) groupedData.

(** *** The aggregation as the design document words it

    Filter to the records whose year is in the active year set and whose
    indicator is the active one; group by country code; reduce each group to
    the mean of its values; a country without a record has no entry; the world
    aggregate ["WLD"] is excluded. *)
Definition matching (selectedYears : list Z) (indicator0 : string)
           (d : Observation) : Prop :=
  In (Year d) selectedYears /\ IndicatorName d = indicator0.

Definition aggregate_spec (data : list Observation) (selectedYears : list Z)
           (indicator0 : string) (countryCode : string) : option JsNumber :=
  if String.eqb countryCode "WLD" then None
  else match filter (fun d => String.eqb (CountryCode d) countryCode)
                    (filteredData data selectedYears indicator0) with
       | [] => None
       | group => Some (d3_mean (map Value group))
       end.

(** The arithmetic mean in binary64 arithmetic: the sum from the left over
    the count. *)
Definition float_sum (values : list float) : float :=
  fold_left (fun sum value => (sum + value)%float) values 0%float.

Definition arithmetic_mean (values : list float) : float :=
  (float_sum values / float_of_nat (List.length values))%float.

(** *** geoMap.js 383-390 *)
Definition getTileColor (d : JsNumber) : string :=
  if (0.8 <? ToNumber d)%float then "#08519c"
  else if (0.6 <? ToNumber d)%float then "#3182bd"
  else if (0.4 <? ToNumber d)%float then "#6baed6"
  else if (0.2 <? ToNumber d)%float then "#bdd7e7"
  else if is_nan (ToNumber d) then "#808080"
  else "#eff3ff".

(** *** geoMap.js 527-549: the tooltip *)

(** A feature of the geoJson: numeric [id] and [properties.name]. *)
Record Feature := mkFeature { id : Z; name : string }.

(** What [vis.format] returns: a string, or the number [Math.round] gave. *)
Inductive Formatted :=
| FStr (s : string)
| FNum (f : float).

(** The tooltip that [showTooltip] puts on the page: its position and the
    values interpolated into its html, in the order of the template. *)
Record Tooltip := mkTooltip {
  tooltip_top : Z;
  tooltip_left : Z;
  tooltip_name : string;
  tooltip_interval : option TimeInterval;
  tooltip_indicator : string;
  tooltip_average : string
}.

Section Tooltips.

(** [Math.round] *)
Variable Math_round : float -> float.
(** [Number.prototype.toFixed(2)] *)
Variable toFixed2 : float -> string.
(** [d3.format(',')] *)
Variable d3_format_comma : Formatted -> string.
(** The string of a number inside a concatenation. *)
Variable Number_toString : float -> string.

(** geoMap.js 225-226 *)
Definition round (val : float) : Formatted :=
  if (100 <? val)%float then FNum (Math_round val) else FStr (toFixed2 val).

Definition format (val : float) : Formatted :=
  if (0 <=? val)%float then FStr (d3_format_comma (round val)) else round val.

Definition Formatted_toString (v : Formatted) : string :=
  match v with
  | FStr s => s
  | FNum f => Number_toString f
  end.

(** geoMap.js 532-533: the text shown as the average. *)
Definition tooltipAverage (groupedData : JsMap JsNumber)
           (alpha_3 : option string) : string :=
  let average := Map_get groupedData alpha_3 in
  if truthy_num average
  then Formatted_toString (format (ToNumber average))
  else "N/A".

(** geoMap.js 527-549; [None] when no tooltip is shown. [clientX] and
    [clientY] are the coordinates of the event [e]. *)
Definition showTooltip (selected : Selected) (features : list Feature)
           (groupedData : JsMap JsNumber) (clientX clientY : Z)
           (countryCode : Z) (alpha_3 countryName : option string)
  : option Tooltip :=
  let average := tooltipAverage groupedData alpha_3 in
  let countryNameFromGeoJson :=
    match filter (fun d => (id d =? countryCode)%Z) features with
    | d :: _ => Some (name d)
    | [] => None
    end in
  if truthy_str countryName || truthy_str countryNameFromGeoJson
  then Some (mkTooltip clientY clientX
               (match countryName with
                | Some n => if truthy_str countryName then n
                            else match countryNameFromGeoJson with
                                 | Some g => g
                                 | None => ""
                                 end
                | None => match countryNameFromGeoJson with
                          | Some g => g
                          | None => ""
                          end
                end)
               (timeInterval selected)
               ("Average " ++ indicator selected ++ ":")
               ("   " ++ average))
  else None.

End Tooltips.

(** ** Sample collaborators

    Closed examples need concrete collaborators. These stand for the classes
    outside the two files; each is the simplest instance of the interface the
    methods call. *)
Module Sample.

(** A sanitizer in the sense of the design document (case canonicalization):
    the first letter of a name is made upper case. Names that already start
    with a capital, and the empty name, are left as they are. *)
Definition upper (c : ascii) : ascii :=
  let n := nat_of_ascii c in
  if ((97 <=? n) && (n <=? 122))%nat then ascii_of_nat (n - 32) else c.

Definition formatCountryOrRegionNames (s : string) : string :=
  match s with
  | EmptyString => EmptyString
  | String c rest => String (upper c) rest
  end.

(** A region directory with two regions besides the world. *)
Definition getCountriesOfRegion (r : string) : list string :=
  if String.eqb r "Europe" then ["France"; "Germany"]
  else if String.eqb r "Asia" then ["Japan"; "China"]
  else if String.eqb r "World" then ["France"; "Germany"; "Japan"; "China"]
  else [].

(** Two names are the same country when they are equal, or are the two
    spellings of one country listed here. *)
Definition isSameCountryName (a b : string) : bool :=
  String.eqb a b
  || (String.eqb a "USA" && String.eqb b "United States")
  || (String.eqb a "United States" && String.eqb b "USA").

Definition POPULATION_TOTAL : string := "Population, total".

Definition events : DispatcherEvents :=
  mkDispatcherEvents "error_too_many_comparisons" "map_item_hover"
                     "map_item_unhover".

Definition d0 : Dispatcher := mkDispatcher 0.

(** The two records of the aggregation example of the design document. *)
Definition observations : list Observation :=
  [mkObservation "USA" "X" 2010 10; mkObservation "USA" "X" 2011 20].

(** A country whose only record has the value 0, next to one without a
    record for the selected year. *)
Definition zero_observations : list Observation :=
  [mkObservation "USA" "X" 2010 0; mkObservation "FRA" "X" 1999 7].

Definition new := constructor formatCountryOrRegionNames POPULATION_TOTAL.
Definition add := addComparisonArea formatCountryOrRegionNames.
Definition exec :=
  run formatCountryOrRegionNames getCountriesOfRegion isSameCountryName.
Definition reachable :=
  reachable formatCountryOrRegionNames getCountriesOfRegion isSameCountryName
            POPULATION_TOTAL.

(** A new object with the defaults of the constructor. *)
Definition fresh : Selected := new None None None None None.

(** A new object that is handed four comparison areas. *)
Definition full : Selected :=
  new None (Some ["France"; "Germany"; "Japan"; "China"]) None None None.

End Sample.

(** The elements of a list of keys, each once, in the order of their first
    occurrence. *)
Fixpoint first_occurrences (l : list string) : list string :=
  match l with
  | [] => []
  | x :: rest =>
      x :: filter (fun y => negb (String.eqb y x)) (first_occurrences rest)
  end.

(** ** [GeoMap]: the scale domain, the two layers, the legend and the pointer

    The rest of geoMap.js that computes: [updateDomain], the selection part of
    [updateData], the colours and widths of the two render passes, the legend
    bins, the decoding of a hovered element and what the two pointer handlers
    do. The map, the projection and the geometry are left to Leaflet and d3. *)

(** *** d3-array: [extent]

    The loop of [d3.extent(values)]: [undefined] is skipped; the first value
    that is [>=] itself becomes both bounds; after that a value below the
    minimum, or above the maximum, replaces it. *)
Definition extent_step (acc : JsNumber * JsNumber) (value : JsNumber)
  : JsNumber * JsNumber :=
  match value with
  | None => acc
  | Some v =>
      let '(min, max) := acc in
      match min with
      | None => if (v <=? v)%float then (Some v, Some v) else (min, max)
      | Some mn =>
          (Some (if (v <? mn)%float then v else mn),
           if (ToNumber max <? v)%float then Some v else max)
      end
  end.

Definition d3_extent (values : list JsNumber) : JsNumber * JsNumber :=
  fold_left extent_step values (None, None).

(** [a === b] on values that are numbers or [undefined]. *)
Definition strict_eq (a b : JsNumber) : bool :=
  match a, b with
  | Some x, Some y => (x =? y)%float
  | None, None => true
  | _, _ => false
  end.

(** geoMap.js 232-241: the domain handed to [vis.indicatorScale]. *)
Definition updateDomain (groupedData : JsMap JsNumber) : JsNumber * JsNumber :=
  let '(min, max) := d3_extent (map snd groupedData) in
  let max := if strict_eq max (Some 0%float) && strict_eq max min
             then Some 1%float else max in
  (min, max).

(** *** Identifiers

    What the code compares with a feature's [id]: a number, or one of the
    values that the decoding of a hovered element and the country directory
    can give instead of one. *)
Inductive JsId :=
| IdUndefined
| IdNull
| IdFalse
| IdNaN
| IdNum (z : Z).

(** [a === b] *)
Definition strict_eq_id (a b : JsId) : bool :=
  match a, b with
  | IdUndefined, IdUndefined => true
  | IdNull, IdNull => true
  | IdFalse, IdFalse => true
  | IdNum x, IdNum y => (x =? y)%Z
  | _, _ => false
  end.

(** [codes.includes(x)]: as [===], but NaN is found. *)
Definition includes_id (codes : list JsId) (x : JsId) : bool :=
  existsb (fun y => match y, x with
                    | IdNaN, IdNaN => true
                    | _, _ => strict_eq_id y x
                    end) codes.

(** [isNaN(x)]: [false] and [null] convert to 0, [undefined] to NaN. *)
Definition isNaN_id (x : JsId) : bool :=
  match x with
  | IdUndefined | IdNaN => true
  | IdNull | IdFalse | IdNum _ => false
  end.

(** The string of a whole number in a template literal or a concatenation
    (numbers below 10^21 are written in full). *)
Definition Z_toString (z : Z) : string :=
  DecimalString.NilZero.string_of_int (Z.to_int z).

Definition JsId_toString (x : JsId) : string :=
  match x with
  | IdUndefined => "undefined"
  | IdNull => "null"
  | IdFalse => "false"
  | IdNaN => "NaN"
  | IdNum z => Z_toString z
  end.

(** *** [String.prototype.split] on one character, and [parseInt] *)

Fixpoint split_on (sep : ascii) (s : string) : list string :=
  match s with
  | EmptyString => [EmptyString]
  | String c rest =>
      if Ascii.eqb c sep then EmptyString :: split_on sep rest
      else match split_on sep rest with
           | part :: parts => String c part :: parts
           | [] => [String c EmptyString]
           end
  end.

Definition is_whitespace (c : ascii) : bool :=
  let n := nat_of_ascii c in
  ((n =? 32) || ((9 <=? n) && (n <=? 13)))%nat.

Fixpoint skip_whitespace (s : string) : string :=
  match s with
  | String c rest => if is_whitespace c then skip_whitespace rest else s
  | EmptyString => s
  end.

Definition is_digit (c : ascii) : bool :=
  let n := nat_of_ascii c in ((48 <=? n) && (n <=? 57))%nat.

Fixpoint digits_prefix (s : string) : string :=
  match s with
  | String c rest => if is_digit c then String c (digits_prefix rest) else EmptyString
  | EmptyString => EmptyString
  end.

Definition hex_value (c : ascii) : option Z :=
  let n := nat_of_ascii c in
  if ((48 <=? n) && (n <=? 57))%nat then Some (Z.of_nat (n - 48))
  else if ((97 <=? n) && (n <=? 102))%nat then Some (Z.of_nat (n - 87))
  else if ((65 <=? n) && (n <=? 70))%nat then Some (Z.of_nat (n - 55))
  else None.

(** The value of the longest prefix of hexadecimal digits; [None] when the
    string starts with none. *)
Fixpoint parse_hex (acc : option Z) (s : string) : option Z :=
  match s with
  | String c rest =>
      match hex_value c with
      | Some d => parse_hex (Some (match acc with
                                   | Some a => a * 16 + d
                                   | None => d
                                   end)%Z) rest
      | None => acc
      end
  | EmptyString => acc
  end.

(** The value of the longest prefix of decimal digits. *)
Definition parse_decimal (s : string) : option Z :=
  match digits_prefix s with
  | EmptyString => None
  | digits =>
      option_map (fun u => Z.of_N (N.of_uint u))
                 (DecimalString.NilEmpty.uint_of_string digits)
  end.

(** [parseInt(s)] without a radix: leading white space, a sign, [0x] or [0X]
    for base 16, then the longest prefix of digits; [None] is NaN. The value
    is the exact integer, which is what JavaScript gives up to 2^53. *)
Definition parseInt (input : string) : option Z :=
  let s := skip_whitespace input in
  let '(sign, s) := match s with
                    | String "-" rest => ((-1)%Z, rest)
                    | String "+" rest => (1%Z, rest)
                    | _ => (1%Z, s)
                    end in
  let magnitude := match s with
                   | String "0" (String "x" rest) => parse_hex None rest
                   | String "0" (String "X" rest) => parse_hex None rest
                   | _ => parse_decimal s
                   end in
  option_map (Z.mul sign) magnitude.

(** [parseInt(classes[1].split('-')[2])]; a part that is missing is
    [undefined], which [parseInt] reads as the string ["undefined"]. *)
Definition parse_class (cls : string) : JsId :=
  match parseInt (nth 2 (split_on "-" cls) "undefined") with
  | Some z => IdNum z
  | None => IdNaN
  end.

(** geoMap.js 475-476 and 498-499: the country code read off the class list
    of the element under the pointer. Without a second class, [mouseenter]
    takes [false] and [mouseleave] takes [null]. *)
Definition hoveredCode (noClass : JsId) (classes : list string) : JsId :=
  match nth_error classes 1 with
  | Some cls => if truthy_str (Some cls) then parse_class cls else noClass
  | None => noClass
  end.

(** *** The two layers *)

(** A rendered path: the tokens of its [class] attribute and the attributes
    the code sets ([None]: not set). *)
Record Path := mkPath {
  path_classes : list string;
  path_fill : string;
  path_stroke : string;
  path_stroke_width : option Z
}.

(** geoMap.js 298 and 318: the class of a feature in a layer; an [id] of 0 is
    falsy. *)
Definition layerClasses (layer : string) (d : Feature) : list string :=
  if negb (id d =? 0)%Z then [layer; (layer ++ "-" ++ Z_toString (id d))%string]
  else [layer].

(** The call made on the dispatcher of the map: type and country name. *)
Record MapCall := mkMapCall {
  map_call_on : Dispatcher;
  map_call_type : string;
  map_call_country : string
}.

(** What a pointer handler does when it does not ignore the element: the
    stroke it sets on the elements of a class, the tooltip it shows
    ([mouseenter]) or hides ([mouseleave]), and the calls on the dispatcher. *)
Record PointerEffect := mkPointerEffect {
  effect_class : string;
  effect_stroke : string;
  effect_tooltip : option Tooltip;
  effect_calls : list MapCall
}.

(** [d3.selectAll('.' + cls).attr('stroke', colour)] on the paths. *)
Definition set_stroke (cls colour : string) (paths : list Path) : list Path :=
  map (fun p => if includes (path_classes p) cls
                then mkPath (path_classes p) (path_fill p) colour
                            (path_stroke_width p)
                else p) paths.

Section Layers.

(** [CountryCodeMapper] *)
Variable getCountryNumCode : string -> JsId.
Variable getCountryNumCodes : list string -> list JsId.
Variable convertToAlpha3 : JsId -> option string.
Variable getAllInfoOfCountry : JsId -> option string * option string.
(** [ColourPalette] *)
Variable focusedAreaColour : string.
Variable comparisonAreaColour : string.
(** [vis.indicatorScale], the linear scale of d3 with its current domain. *)
Variable indicatorScale : JsNumber -> JsNumber.
(** The formatting of numbers, as for the tooltip. *)
Variable Math_round : float -> float.
Variable toFixed2 : float -> string.
Variable d3_format_comma : Formatted -> string.
Variable Number_toString : float -> string.
(** [vis.dispatcher], and the global table [dispatcherEvents] that the
    handlers read. *)
Variable mapDispatcher : Dispatcher.
Variable globalEvents : DispatcherEvents.

(** [vis.selected], [vis.countries.features] and [vis.groupedData]. *)
Variable selected : Selected.
Variable features : list Feature.
Variable groupedData : JsMap JsNumber.

(** geoMap.js 264-269: the selection part of [updateData]. *)
Definition countryCodesOfSelected : list JsId :=
  getCountryNumCodes (allSelectedAreas selected).

Definition selectedCountries : list Feature :=
  filter (fun d => includes_id countryCodesOfSelected (IdNum (id d))) features.

(** geoMap.js 333-347; [dataId] is [data.id]. *)
Definition getBorderColour (dataId : JsId) : string :=
  let focusCountryCode := getCountryNumCode (country (area selected)) in
  if strict_eq_id dataId focusCountryCode then focusedAreaColour
  else if includes_id countryCodesOfSelected dataId then comparisonAreaColour
  else "white".

(** geoMap.js 354-361 *)
Definition getFillColour (dataId : JsId) : string :=
  let alpha3 := convertToAlpha3 dataId in
  let num := indicatorScale (Map_get groupedData alpha3) in
  getTileColor num.

(** geoMap.js 368-376 *)
Definition getStrokeWidth (dataId : JsId) : Z :=
  if includes_id countryCodesOfSelected dataId then (1 * 2)%Z else 1%Z.

(** geoMap.js 311-326: the paths of the base layer. *)
Definition renderAllCountriesWithWhiteBorder : list Path :=
  map (fun d => mkPath (layerClasses "map-country" d)
                       (getFillColour (IdNum (id d))) "white" None)
      features.

(** geoMap.js 291-306: the paths of the selected layer. *)
Definition renderSelectedCountries : list Path :=
  map (fun d => mkPath (layerClasses "map-selected-country" d) "none"
                       (getBorderColour (IdNum (id d)))
                       (Some (getStrokeWidth (IdNum (id d)))))
      selectedCountries.

(** Both layers, as [renderVis] leaves them in the chart. *)
Definition renderedPaths : list Path :=
  renderAllCountriesWithWhiteBorder ++ renderSelectedCountries.

(** geoMap.js 556-567: the class whose elements get a stroke, and the stroke;
    [reset] tells whether [vis.getBorderColour] was passed as [fn]. *)
Definition classOfInterest (countryCode : JsId) : string :=
  ((if includes_id countryCodesOfSelected countryCode
    then "map-selected-country-" else "map-country-")
   ++ JsId_toString countryCode)%string.

Definition borderColourOfCountry (countryCode : JsId) (reset : bool) : string :=
  if reset then getBorderColour countryCode else "black".

Definition setBorderColourOfCountry (countryCode : JsId) (reset : bool)
           (paths : list Path) : list Path :=
  set_stroke (classOfInterest countryCode)
             (borderColourOfCountry countryCode reset) paths.

(** geoMap.js 106-115 and 121-130 *)
Definition emphasizeCountry (countryName : string) (paths : list Path)
  : list Path :=
  let countryCode := getCountryNumCode countryName in
  set_stroke ("map-selected-country-" ++ JsId_toString countryCode)%string
             "black" paths.

Definition deEmphasizeCountry (countryName : string) (paths : list Path)
  : list Path :=
  let countryCode := getCountryNumCode countryName in
  set_stroke ("map-selected-country-" ++ JsId_toString countryCode)%string
             (getBorderColour countryCode) paths.

(** [showTooltip] for a decoded code; no feature has an [id] that is not a
    number, so for such a code the filter on the features finds nothing. *)
Definition showTooltipFor (clientX clientY : Z) (countryCode : JsId)
           (alpha_3 countryName : option string) : option Tooltip :=
  match countryCode with
  | IdNum z =>
      showTooltip Math_round toFixed2 d3_format_comma Number_toString
                  selected features groupedData clientX clientY z
                  alpha_3 countryName
  | _ =>
      showTooltip Math_round toFixed2 d3_format_comma Number_toString
                  selected [] groupedData clientX clientY 0
                  alpha_3 countryName
  end.

(** The notification of a handler: sent when the directory has a name for the
    code and that name is one of [allSelectedAreas]. *)
Definition pointerCalls (type : string) (countryName : option string)
  : list MapCall :=
  match countryName with
  | Some n => if truthy_str countryName && includes (allSelectedAreas selected) n
              then [mkMapCall mapDispatcher type n] else []
  | None => []
  end.

(** geoMap.js 472-489; [None] when the element is ignored. *)
Definition handleMouseEnter (classes : list string) (clientX clientY : Z)
  : option PointerEffect :=
  let countryCode := hoveredCode IdFalse classes in
  if negb (isNaN_id countryCode)
  then let '(alpha_3, countryName) := getAllInfoOfCountry countryCode in
       Some (mkPointerEffect
               (classOfInterest countryCode)
               (borderColourOfCountry countryCode false)
               (showTooltipFor clientX clientY countryCode alpha_3 countryName)
               (pointerCalls (MAP_ITEM_HOVER globalEvents) countryName))
  else None.

(** geoMap.js 495-518 *)
Definition handleMouseLeave (classes : list string) : option PointerEffect :=
  let countryCode := hoveredCode IdNull classes in
  if negb (isNaN_id countryCode)
  then let '(_, countryName) := getAllInfoOfCountry countryCode in
       Some (mkPointerEffect
               (classOfInterest countryCode)
               (borderColourOfCountry countryCode true)
               None
               (pointerCalls (MAP_ITEM_UNHOVER globalEvents) countryName))
  else None.

End Layers.

(** *** geoMap.js 395-448: the legend *)

Definition legendBins : list float :=
  [1; 0.8; 0.6; 0.4; 0.2; nan]%float.

(** A colour box of the legend: its bin, its place and its fill. *)
Record LegendBox := mkLegendBox {
  box_bin : float;
  box_x : Z;
  box_y : Z;
  box_size : Z;
  box_fill : string
}.

(** [.attr('y', (d, i) => i * boxLength + 20)] and so on, over the bins from
    index [i] on. *)
Fixpoint legendBoxes_from (i : Z) (bins : list float) (boxLength leftMargin : Z)
  : list LegendBox :=
  match bins with
  | [] => []
  | d :: rest =>
      mkLegendBox d leftMargin (i * boxLength + 20) boxLength
                  (getTileColor (Some d))
      :: legendBoxes_from (i + 1) rest boxLength leftMargin
  end.

Definition renderLegendColourBoxes (bins : list float) (boxLength leftMargin : Z)
  : list LegendBox :=
  legendBoxes_from 0 bins boxLength leftMargin.

(** The boxes [renderLegend] draws. *)
Definition legendColourBoxes : list LegendBox :=
  renderLegendColourBoxes legendBins 12 10.

(** ** Sample collaborators of the map

    A small country directory, palette and scale for the closed examples of
    the map, on three countries and one feature the directory does not know. *)
Module SampleMap.

Definition getCountryNumCode (countryName : string) : JsId :=
  if String.eqb countryName "United States" then IdNum 840
  else if String.eqb countryName "France" then IdNum 250
  else if String.eqb countryName "Japan" then IdNum 392
  else IdUndefined.

Definition getCountryNumCodes (names : list string) : list JsId :=
  map getCountryNumCode names.

Definition convertToAlpha3 (code : JsId) : option string :=
  match code with
  | IdNum 840 => Some "USA"
  | IdNum 250 => Some "FRA"
  | IdNum 392 => Some "JPN"
  | _ => None
  end.

Definition countryNameOf (code : JsId) : option string :=
  match code with
  | IdNum 840 => Some "United States"
  | IdNum 250 => Some "France"
  | IdNum 392 => Some "Japan"
  | _ => None
  end.

Definition getAllInfoOfCountry (code : JsId) : option string * option string :=
  (convertToAlpha3 code, countryNameOf code).

Definition focusedAreaColour : string := "#d95f02".
Definition comparisonAreaColour : string := "#7570b3".

(** A linear scale on the domain from 0 to 100; no number, no result. *)
Definition indicatorScale (v : JsNumber) : JsNumber :=
  match v with
  | Some x => if is_nan x then None else Some (x / 100)%float
  | None => None
  end.

(** Stand-ins for the formatting of numbers. *)
Definition Math_round (x : float) : float := x.
Definition toFixed2 (x : float) : string := "0.00".
Definition d3_format_comma (v : Formatted) : string :=
  match v with
  | FStr s => s
  | FNum _ => "0"
  end.
Definition Number_toString (x : float) : string := "0".

Definition features : list Feature :=
  [mkFeature 840 "United States of America"; mkFeature 250 "France";
   mkFeature 392 "Japan"; mkFeature 10 "Antarctica"; mkFeature 0 "Nowhere"].

(** France is the focus, Japan a comparison area. *)
Definition selected : Selected :=
  fst (Sample.exec [SetArea (Some "Europe") (Some "France");
                    AddComparisonArea "Japan"] Sample.fresh).

Definition data : list Observation :=
  [mkObservation "USA" "X" 2010 10; mkObservation "FRA" "X" 2010 0;
   mkObservation "USA" "X" 2011 20; mkObservation "WLD" "X" 2010 50;
   mkObservation "JPN" "Y" 2010 5; mkObservation "FRA" "X" 2011 0].

Definition groupedData : JsMap JsNumber := updateData data [2010; 2011]%Z "X".

Definition paths : list Path :=
  renderedPaths getCountryNumCode getCountryNumCodes convertToAlpha3
                focusedAreaColour comparisonAreaColour indicatorScale
                selected features groupedData.

Definition enter :=
  handleMouseEnter getCountryNumCode getCountryNumCodes getAllInfoOfCountry
                   focusedAreaColour comparisonAreaColour Math_round toFixed2
                   d3_format_comma Number_toString Sample.d0 Sample.events
                   selected features groupedData.

Definition leave :=
  handleMouseLeave getCountryNumCode getCountryNumCodes getAllInfoOfCountry
                   focusedAreaColour comparisonAreaColour Sample.d0
                   Sample.events selected.

End SampleMap.

(** * Properties *)

(** ** Arrays *)

Lemma includes_In (arr : list string) (x : string) :
  includes arr x = true <-> In x arr.
Proof.
  induction arr as [|y rest IH]; simpl.
  - split; [discriminate | tauto].
  - destruct (String.eqb_spec y x) as [->|Hne].
    + split; auto.
    + rewrite IH. split; [auto | intros [E|H]; [contradiction | exact H]].
Qed.

Lemma includes_false (arr : list string) (x : string) :
  includes arr x = false <-> ~ In x arr.
Proof.
  rewrite <- includes_In. destruct (includes arr x); split; congruence.
Qed.

Lemma includes_spec (arr : list string) (x : string) :
  reflect (In x arr) (includes arr x).
Proof.
  destruct (includes arr x) eqn:E; constructor.
  - now apply includes_In.
  - now apply includes_false.
Qed.

Lemma indexOf_from_absent (arr : list string) (x : string) (from : Z) :
  ~ In x arr -> indexOf_from from arr x = (-1)%Z.
Proof.
  revert from. induction arr as [|y rest IH]; simpl; intros from H; [reflexivity|].
  destruct (String.eqb_spec y x) as [->|Hne]; [tauto|].
  apply IH. tauto.
Qed.

Lemma indexOf_from_present (arr : list string) (x : string) (from : Z) :
  In x arr ->
  exists pre post,
    arr = pre ++ x :: post /\ ~ In x pre /\
    indexOf_from from arr x = (from + Z.of_nat (List.length pre))%Z.
Proof.
  revert from. induction arr as [|y rest IH]; simpl; intros from H; [tauto|].
  destruct (String.eqb_spec y x) as [->|Hne].
  - exists [], rest. simpl. repeat split; [tauto | lia].
  - destruct H as [E|H]; [contradiction|].
    destruct (IH (from + 1)%Z H) as (pre & post & -> & Hpre & Hidx).
    exists (y :: pre), post. simpl. repeat split.
    + intros [E|E]; [contradiction | tauto].
    + rewrite Hidx. lia.
Qed.

(** [splice(i, 1)] at the index of an element removes that element. *)
Lemma splice1_at (pre post : list string) (x : string) :
  splice1 (Z.of_nat (List.length pre)) (pre ++ x :: post) = pre ++ post.
Proof.
  unfold splice1.
  assert (H : (Z.of_nat (List.length pre) <? 0)%Z = false) by (apply Z.ltb_ge; lia).
  rewrite H, length_app. simpl List.length.
  rewrite Z.min_l by lia. rewrite Nat2Z.id.
  rewrite firstn_app, firstn_all, Nat.sub_diag. simpl firstn. rewrite app_nil_r.
  f_equal.
  change (S (List.length pre)) with (1 + List.length pre)%nat.
  rewrite <- skipn_skipn.
  rewrite skipn_app, skipn_all, Nat.sub_diag. reflexivity.
Qed.

(** [splice(-1, 1)] removes the last element. *)
Lemma splice1_minus_one (arr : list string) (x : string) :
  splice1 (-1) (arr ++ [x]) = arr.
Proof.
  unfold splice1. change (-1 <? 0)%Z with true. cbv iota.
  rewrite length_app. simpl List.length.
  rewrite Z.max_l by lia.
  replace (Z.to_nat (Z.of_nat (List.length arr + 1) + -1)) with (List.length arr) by lia.
  rewrite firstn_app, firstn_all, Nat.sub_diag. simpl firstn. rewrite app_nil_r.
  rewrite skipn_all2; [apply app_nil_r | rewrite length_app; simpl; lia].
Qed.

(** Removing the first occurrence, as [indexOf] followed by [splice] does. *)
Lemma splice1_indexOf (arr : list string) (x : string) :
  In x arr ->
  exists pre post,
    arr = pre ++ x :: post /\ ~ In x pre /\
    splice1 (indexOf arr x) arr = pre ++ post.
Proof.
  intros H. destruct (indexOf_from_present arr x 0 H) as (pre & post & E & Hpre & Hidx).
  exists pre, post. repeat split; auto.
  unfold indexOf. rewrite Hidx, E. simpl. apply splice1_at.
Qed.

(** ** [Selected]: what each method does to each field *)

Section SelectedFacts.

Local Set Default Proof Using "Type".

Variable formatCountryOrRegionNames : string -> string.
Variable getCountriesOfRegion : string -> list string.
Variable isSameCountryName : string -> string -> bool.
Variable POPULATION_TOTAL : string.

Abbreviation fmt := formatCountryOrRegionNames.
Abbreviation updateAll := (updateAllSelectedAreas formatCountryOrRegionNames).
Abbreviation add := (addComparisonArea formatCountryOrRegionNames).
Abbreviation new := (constructor formatCountryOrRegionNames POPULATION_TOTAL).
Abbreviation setCountry' := (setCountry getCountriesOfRegion).
Abbreviation updateComparison := (updateComparisonArea isSameCountryName).
Abbreviation setArea' :=
  (setArea formatCountryOrRegionNames getCountriesOfRegion isSameCountryName).
Abbreviation setItems' :=
  (setItems formatCountryOrRegionNames getCountriesOfRegion isSameCountryName).
Abbreviation step' :=
  (step formatCountryOrRegionNames getCountriesOfRegion isSameCountryName).
Abbreviation run' :=
  (run formatCountryOrRegionNames getCountriesOfRegion isSameCountryName).
Abbreviation focus := (focusName formatCountryOrRegionNames).
Abbreviation active := (activeRegion formatCountryOrRegionNames).
Abbreviation current := (allSelected_current formatCountryOrRegionNames).

Lemma updateAll_fields a l s :
  area (updateAll a l s) = area s /\
  comparisonAreas (updateAll a l s) = comparisonAreas s /\
  dispatcher (updateAll a l s) = dispatcher s /\
  dispatcherEvents (updateAll a l s) = dispatcherEvents s /\
  allSelectedAreas (updateAll a l s) = focus a :: l.
Proof.
  unfold updateAllSelectedAreas, focusName. simpl.
  repeat split. destruct (negb _); reflexivity.
Qed.

Lemma updateAll_current s :
  current (updateAll (area s) (comparisonAreas s) s).
Proof.
  unfold allSelected_current.
  destruct (updateAll_fields (area s) (comparisonAreas s) s) as (-> & -> & _ & _ & ->).
  reflexivity.
Qed.

(** The three outcomes of [addComparisonArea], on the sanitized name. *)
Lemma add_cases (n : string) (s : Selected) :
  let n' := fmt n in
  let s' := fst (add n s) in
  area s' = area s /\ dispatcher s' = dispatcher s /\
  dispatcherEvents s' = dispatcherEvents s /\ current s' /\
  ((region (area s) <> n' /\ country (area s) <> n' /\
    List.length (comparisonAreas s) < 4 /\ ~ In n' (comparisonAreas s) /\
    comparisonAreas s' = comparisonAreas s ++ [n'] /\ snd (add n s) = [])
   \/
   ((region (area s) = n' \/ country (area s) = n' \/ In n' (comparisonAreas s)) /\
    List.length (comparisonAreas s) < 4 /\
    comparisonAreas s' = comparisonAreas s /\ snd (add n s) = [])
   \/
   (4 <= List.length (comparisonAreas s) /\
    comparisonAreas s' = comparisonAreas s /\
    snd (add n s) = overflow_calls s)).
Proof.
  intros n' s'. subst n' s'.
  destruct s as [[r c] l i t al d ev]. unfold addComparisonArea.
  cbn [area comparisonAreas dispatcher dispatcherEvents region country].
  destruct (String.eqb_spec r (fmt n)) as [Er|Er];
    destruct (String.eqb_spec c (fmt n)) as [Ec|Ec];
    destruct (Nat.leb_spec 4 (List.length l)) as [Hl|Hl];
    destruct (includes_spec l (fmt n)) as [Hin|Hin];
    cbn [negb andb orb];
    try (destruct d as [d|]; [destruct ev as [ev|]|]);
    cbn [fst snd area comparisonAreas dispatcher dispatcherEvents region country
         updateAllSelectedAreas with_allSelectedAreas with_comparisonAreas
         allSelectedAreas];
    (split; [reflexivity|]); (split; [reflexivity|]); (split; [reflexivity|]);
    (split; [unfold allSelected_current, focusName; simpl;
             destruct (negb _); reflexivity|]);
    try (right; right; repeat split; auto; fail);
    try (right; left; repeat split; auto; fail);
    try (left; repeat split; auto; fail).
Qed.

Lemma remove_fields n s :
  let s' := removeComparisonArea fmt n s in
  area s' = area s /\ dispatcher s' = dispatcher s /\
  dispatcherEvents s' = dispatcherEvents s /\
  (current s -> current s').
Proof.
  unfold removeComparisonArea. destruct (_ <? _)%Z.
  - cbn zeta. repeat split. intros _.
    unfold allSelected_current, updateAllSelectedAreas, focusName; simpl.
    destruct (negb _); reflexivity.
  - cbn zeta. repeat split. auto.
Qed.

Lemma setCountry_fields c s :
  let s' := setCountry' c s in
  region (area s') = region (area s) /\
  comparisonAreas s' = comparisonAreas s /\
  dispatcher s' = dispatcher s /\ dispatcherEvents s' = dispatcherEvents s.
Proof.
  unfold setCountry. destruct c as [c|]; [|cbn zeta; repeat split].
  destruct (truthy_str _); [|cbn zeta; repeat split].
  destruct (includes _ _); cbn zeta; repeat split.
Qed.

Lemma updateComparison_fields r c s :
  let s' := updateComparison r c s in
  area s' = area s /\
  dispatcher s' = dispatcher s /\ dispatcherEvents s' = dispatcherEvents s.
Proof.
  unfold updateComparisonArea.
  destruct (isFocusCountryInList _ _ _); [destruct c; cbn zeta; repeat split|].
  destruct r as [r|]; [|cbn zeta; repeat split].
  destruct (includes _ _); cbn zeta; repeat split.
Qed.

Lemma setArea_fields r c s :
  let s' := setArea' r c s in
  dispatcher s' = dispatcher s /\ dispatcherEvents s' = dispatcherEvents s /\
  current s'.
Proof.
  unfold setArea. cbn zeta.
  match goal with
  | |- context [updateComparison r c ?x] =>
      destruct (updateComparison_fields r c x) as (_ & Hd & He);
      set (s2 := updateComparison r c x) in *
  end.
  match type of Hd with
  | _ = dispatcher (setCountry' c ?x) =>
      destruct (setCountry_fields c x) as (_ & _ & Hd' & He')
  end.
  cbn zeta in Hd', He'. rewrite Hd' in Hd. rewrite He' in He. simpl in Hd, He.
  destruct (updateAll_fields (area s2) (comparisonAreas s2) s2)
    as (_ & _ & Hd2 & He2 & _).
  repeat split; [congruence | congruence | apply updateAll_current].
Qed.

Lemma setIndicator_fields i s :
  let s' := setIndicator i s in
  area s' = area s /\ comparisonAreas s' = comparisonAreas s /\
  allSelectedAreas s' = allSelectedAreas s /\
  dispatcher s' = dispatcher s /\ dispatcherEvents s' = dispatcherEvents s.
Proof.
  unfold setIndicator. destruct i as [i|]; [|cbn zeta; repeat split].
  destruct (truthy_str _); cbn zeta; repeat split.
Qed.

Lemma setTimeInterval_fields lo hi s :
  let s' := setTimeInterval lo hi s in
  area s' = area s /\ comparisonAreas s' = comparisonAreas s /\
  allSelectedAreas s' = allSelectedAreas s /\
  dispatcher s' = dispatcher s /\ dispatcherEvents s' = dispatcherEvents s.
Proof.
  unfold setTimeInterval.
  destruct lo as [lo|], hi as [hi|]; try (cbn zeta; repeat split; fail).
  destruct (_ && _); cbn zeta; repeat split.
Qed.

Lemma setItems_fields r c i lo hi s :
  let s' := setItems' r c i lo hi s in
  dispatcher s' = dispatcher s /\ dispatcherEvents s' = dispatcherEvents s /\
  current s'.
Proof.
  unfold setItems. cbn zeta.
  destruct (setArea_fields r c s) as (Hd & He & Hc). cbn zeta in Hd, He, Hc.
  set (s1 := setArea' r c s) in *.
  destruct (setIndicator_fields i s1) as (Ha1 & Hl1 & Hal1 & Hd1 & He1).
  cbn zeta in Ha1, Hl1, Hal1, Hd1, He1. set (s2 := setIndicator i s1) in *.
  destruct (setTimeInterval_fields lo hi s2) as (Ha2 & Hl2 & Hal2 & Hd2 & He2).
  cbn zeta in Ha2, Hl2, Hal2, Hd2, He2.
  repeat split; try congruence;
    unfold allSelected_current in *; congruence.
Qed.

Lemma new_fields a l i t d :
  current (new a l i t d) /\
  dispatcher (new a l i t d) = d /\ dispatcherEvents (new a l i t d) = None.
Proof.
  unfold constructor, allSelected_current, updateAllSelectedAreas, focusName.
  simpl. repeat split. destruct (negb _); reflexivity.
Qed.

(** Every method leaves [allSelectedAreas] up to date. *)
Lemma step_current op s :
  current s -> current (fst (step' op s)).
Proof.
  intros H. destruct op as [n|n|r c|i|lo hi|r c i lo hi|d ev]; cbn [step fst snd].
  - apply (add_cases n s).
  - apply (remove_fields n s), H.
  - apply (setArea_fields r c s).
  - destruct (setIndicator_fields i s) as (Ha & Hl & Hal & _).
    unfold allSelected_current in *. cbn zeta in *. congruence.
  - destruct (setTimeInterval_fields lo hi s) as (Ha & Hl & Hal & _).
    unfold allSelected_current in *. cbn zeta in *. congruence.
  - apply (setItems_fields r c i lo hi s).
  - exact H.
Qed.

Lemma run_current ops s :
  current s -> current (fst (run' ops s)).
Proof.
  revert s. induction ops as [|op rest IH]; intros s H; simpl; [exact H|].
  pose proof (step_current op s H) as H1.
  destruct (step' op s) as [s1 calls1]. simpl in H1.
  specialize (IH s1 H1).
  destruct (run' rest s1) as [s2 calls2]. exact IH.
Qed.

Lemma add_ok n s : comparison_ok s -> comparison_ok (fst (add n s)).
Proof.
  intros (Hlen & Hnd & Hc & Hr).
  destruct (add_cases n s) as (Ha & _ & _ & _ & Hcases).
  unfold comparison_ok. cbn zeta in Ha, Hcases. rewrite Ha.
  destruct Hcases as [(Er & Ec & Hl & Hin & -> & _)
                     |[(_ & _ & -> & _)|(_ & -> & _)]];
    try (repeat split; assumption).
  repeat split.
  - rewrite length_app. simpl. lia.
  - apply NoDup_app; [assumption | repeat constructor; intros [] | ].
    intros x Hx [<-|[]]. contradiction.
  - rewrite in_app_iff. intros [H|[H|[]]]; [exact (Hc H) | congruence].
  - rewrite in_app_iff. intros [H|[H|[]]]; [exact (Hr H) | congruence].
Qed.

Lemma step_unregistered op s :
  registered s = false -> registers_both op = false ->
  snd (step' op s) = [] /\ registered (fst (step' op s)) = false.
Proof.
  unfold registered. intros Hs Hop.
  destruct op as [n|n|r c|i|lo hi|r c i lo hi|d ev]; cbn [step fst snd].
  - destruct (add_cases n s) as (_ & -> & -> & _ & Hcases). cbn zeta in Hcases.
    split; [|exact Hs].
    destruct Hcases as [(_ & _ & _ & _ & _ & ->)
                       |[(_ & _ & _ & ->)|(_ & _ & ->)]]; try reflexivity.
    unfold overflow_calls.
    destruct (dispatcher s); [destruct (dispatcherEvents s)|];
      [discriminate | reflexivity | reflexivity].
  - destruct (remove_fields n s) as (_ & -> & -> & _). auto.
  - destruct (setArea_fields r c s) as (-> & -> & _). auto.
  - destruct (setIndicator_fields i s) as (_ & _ & _ & -> & ->). auto.
  - destruct (setTimeInterval_fields lo hi s) as (_ & _ & _ & -> & ->). auto.
  - destruct (setItems_fields r c i lo hi s) as (-> & -> & _). auto.
  - split; [reflexivity|]. destruct d, ev; simpl in *; congruence.
Qed.

Lemma run_unregistered ops s :
  registered s = false -> existsb registers_both ops = false ->
  snd (run' ops s) = [].
Proof.
  revert s. induction ops as [|op rest IH]; intros s Hs Hops; simpl; [reflexivity|].
  simpl in Hops. apply orb_false_iff in Hops as [Hop Hrest].
  destruct (step_unregistered op s Hs Hop) as [Hc Hs1].
  destruct (step' op s) as [s1 calls1]. simpl in Hc, Hs1. subst calls1.
  specialize (IH s1 Hs1 Hrest).
  destruct (run' rest s1) as [s2 calls2]. simpl in IH. subst. reflexivity.
Qed.

Lemma run_reachable ops s :
  reachable fmt getCountriesOfRegion isSameCountryName POPULATION_TOTAL s ->
  reachable fmt getCountriesOfRegion isSameCountryName POPULATION_TOTAL
            (fst (run' ops s)).
Proof.
  revert s. induction ops as [|op rest IH]; intros s H; simpl; [exact H|].
  pose proof (reachable_step fmt getCountriesOfRegion isSameCountryName
                             POPULATION_TOTAL op s H) as H1.
  destruct (step' op s) as [s1 calls1]. simpl in H1.
  specialize (IH s1 H1).
  destruct (run' rest s1) as [s2 calls2]. exact IH.
Qed.

Lemma run_app ops1 ops2 s :
  run' (ops1 ++ ops2) s =
  (fst (run' ops2 (fst (run' ops1 s))),
   snd (run' ops1 s) ++ snd (run' ops2 (fst (run' ops1 s)))).
Proof.
  revert s. induction ops1 as [|op rest IH]; intros s; cbn [app run].
  - cbn [fst snd app]. destruct (run' ops2 s); reflexivity.
  - destruct (step' op s) as [s1 calls1]. rewrite IH.
    destruct (run' rest s1) as [s2 calls2]. cbn [fst snd].
    rewrite app_assoc. reflexivity.
Qed.

(** An object built without an area and without comparison areas meets the
    three conditions on the comparison list. *)
Lemma new_default_comparison_ok i t d : comparison_ok (new None None i t d).
Proof.
  unfold comparison_ok. cbn. repeat split; [lia | constructor | auto | auto].
Qed.

(** *** C1 *)

(** C1 (as amended): an object built with the defaults has a comparison list
    with at most 4 entries, no duplicate and neither the focus country nor the
    focus region; and for every sequence of [addComparisonArea] calls that
    starts from a state whose list has these three properties, the list
    afterwards has them again (and the focus area is the one before the
    calls). *)
Theorem addComparisonArea_sequence_keeps_comparison_ok :
  (forall i t d, comparison_ok (new None None i t d)) /\
  (forall (names : list string) (s : Selected),
      comparison_ok s ->
      let s' := fst (run' (map AddComparisonArea names) s) in
      area s' = area s /\ comparison_ok s').
Proof.
  split; [exact new_default_comparison_ok|].
  induction names as [|n rest IH]; intros s Hok; simpl; [split; auto|].
  pose proof (add_ok n s Hok) as Hok1.
  destruct (add_cases n s) as (Ha & _).
  cbn zeta in Ha. destruct (add n s) as [s1 calls1]. simpl in Hok1, Ha.
  specialize (IH s1 Hok1). cbn zeta in IH.
  destruct (run' (map AddComparisonArea rest) s1) as [s2 calls2].
  simpl in IH |- *. destruct IH as [IHa IHok]. split; congruence.
Qed.

(** *** C2 *)

(** When the sanitizer leaves the stored focus names as they are, the name
    in front is the stored focus of the design document. *)
Lemma focusName_stored (a : Area) :
  fmt (country a) = country a -> fmt (region a) = region a ->
  focus a = storedFocus a.
Proof.
  unfold focusName, storedFocus. intros -> ->. reflexivity.
Qed.

(** C2 (as amended): after construction and after any sequence of calls of
    the methods, [allSelectedAreas] is one longer than [comparisonAreas];
    it is [comparisonAreas] with one name put in front, which is the
    sanitized focus country when that is not empty, and otherwise the
    sanitized focus region. When the sanitizer leaves the stored focus
    country and region as they are, the name in front is the focus country
    if that is not empty, and otherwise the focus region. *)
Theorem allSelectedAreas_after_every_call :
  forall a l i t d (ops : list Op),
    let s := fst (run' ops (new a l i t d)) in
    List.length (allSelectedAreas s) = List.length (comparisonAreas s) + 1 /\
    tl (allSelectedAreas s) = comparisonAreas s /\
    hd_error (allSelectedAreas s) =
      Some (if negb (String.eqb (fmt (country (area s))) "")
            then fmt (country (area s))
            else fmt (region (area s))) /\
    (fmt (country (area s)) = country (area s) ->
     fmt (region (area s)) = region (area s) ->
     hd_error (allSelectedAreas s) =
       Some (if negb (String.eqb (country (area s)) "")
             then country (area s) else region (area s))).
Proof.
  intros a l i t d ops s.
  assert (H : current s).
  { apply run_current. apply new_fields. }
  unfold allSelected_current in H. rewrite H. cbn [List.length tl hd_error].
  repeat split; [lia|].
  intros Hc Hr. f_equal. apply (focusName_stored _ Hc Hr).
Qed.

(** *** C3 *)

(** C3 (as amended): when the comparison list already has 4 entries (or
    more), [addComparisonArea] leaves the list as it is, and it calls the
    dispatcher with [ERROR_TOO_MANY_COMPARISONS] exactly when both a
    dispatcher and a table of events are set; with either missing nothing is
    emitted. *)
Theorem addComparisonArea_on_full_list :
  forall (n : string) (s : Selected),
    4 <= List.length (comparisonAreas s) ->
    comparisonAreas (fst (add n s)) = comparisonAreas s /\
    snd (add n s) =
      match dispatcher s, dispatcherEvents s with
      | Some d, Some ev => [mkCall d (ERROR_TOO_MANY_COMPARISONS ev)]
      | _, _ => []
      end.
Proof.
  intros n s Hfull.
  destruct (add_cases n s) as (_ & _ & _ & _ & Hcases). cbn zeta in Hcases.
  destruct Hcases as [(_ & _ & Hl & _)|[(_ & Hl & _)|(_ & Hc & He)]];
    [lia | lia | split; assumption].
Qed.

(** *** C4 *)

(** C4 (as amended): when the sanitized name is the focus country or the
    focus region, or is already in the comparison list, [addComparisonArea]
    leaves the list as it is; below 4 entries nothing is emitted, and on a
    list of 4 entries or more the call is an overflow like any other:
    [ERROR_TOO_MANY_COMPARISONS] is emitted when a dispatcher and a table of
    events are set. *)
Theorem addComparisonArea_rejects_focus_and_duplicates :
  forall (n : string) (s : Selected),
    region (area s) = fmt n \/ country (area s) = fmt n \/
    In (fmt n) (comparisonAreas s) ->
    comparisonAreas (fst (add n s)) = comparisonAreas s /\
    snd (add n s) =
      if (4 <=? List.length (comparisonAreas s))%nat
      then match dispatcher s, dispatcherEvents s with
           | Some d, Some ev => [mkCall d (ERROR_TOO_MANY_COMPARISONS ev)]
           | _, _ => []
           end
      else [].
Proof.
  intros n s Hrej.
  destruct (add_cases n s) as (_ & _ & _ & _ & Hcases). cbn zeta in Hcases.
  destruct (Nat.leb_spec 4 (List.length (comparisonAreas s))) as [Hl|Hl];
    destruct Hcases as [(Er & Ec & Hl' & Hin & _)|[(_ & Hl' & Hc & He)|(Hl' & Hc & He)]];
    try lia; try (split; assumption);
    destruct Hrej as [H|[H|H]]; [elim (Er H) | elim (Ec H) | elim (Hin H)].
Qed.

(** *** C10 *)

(** C10: [addComparisonArea] emits only in a state where both [dispatcher]
    and [dispatcherEvents] are set; the constructor sets [dispatcher] to its
    argument and leaves [dispatcherEvents] unset; hence a sequence of calls
    on a new object in which no [setDispatcher] registers both a dispatcher
    and a table of events emits nothing, whatever dispatcher the constructor
    was given; and what a longer sequence emits, it emits after the first
    such [setDispatcher]. *)
Theorem no_event_without_setDispatcher :
  forall a l i t (d : option Dispatcher),
    dispatcher (new a l i t d) = d /\
    dispatcherEvents (new a l i t d) = None /\
    (forall n s, snd (add n s) <> [] -> registered s = true) /\
    (forall ops, existsb registers_both ops = false ->
                 snd (run' ops (new a l i t d)) = []) /\
    (forall ops1 ops2,
        existsb registers_both ops1 = false ->
        snd (run' (ops1 ++ ops2) (new a l i t d)) =
        snd (run' ops2 (fst (run' ops1 (new a l i t d))))).
Proof.
  intros a l i t d.
  destruct (new_fields a l i t d) as (_ & Hd & He).
  assert (Hrun : forall ops, existsb registers_both ops = false ->
                             snd (run' ops (new a l i t d)) = []).
  { intros ops Hops. apply run_unregistered; [|exact Hops].
    unfold registered. rewrite He. destruct (dispatcher _); reflexivity. }
  repeat split; try assumption;
    [|intros ops1 ops2 Hops; rewrite run_app; cbn [snd];
      rewrite (Hrun ops1 Hops); reflexivity].
  - intros n s Hemit.
    destruct (add_cases n s) as (_ & _ & _ & _ & Hcases). cbn zeta in Hcases.
    destruct Hcases as [(_ & _ & _ & _ & _ & E)|[(_ & _ & _ & E)|(_ & _ & E)]];
      try congruence.
    unfold registered. rewrite E in Hemit. unfold overflow_calls in Hemit.
    destruct (dispatcher s); [destruct (dispatcherEvents s)|]; congruence.
Qed.

(** *** C5 and C6: [setArea] *)

Lemma setArea_area r c s :
  area (setArea' r c s) =
  area (setCountry' c (with_area (mkArea (active r s) (country (area s))) s)).
Proof.
  unfold setArea. cbn zeta.
  match goal with
  | |- area (updateAll _ _ ?x) = _ =>
      destruct (updateAll_fields (area x) (comparisonAreas x) x) as (-> & _)
  end.
  match goal with
  | |- area (updateComparison r c ?x) = _ =>
      destruct (updateComparison_fields r c x) as (-> & _)
  end.
  unfold activeRegion. destruct r; reflexivity.
Qed.

Lemma setArea_region r c s :
  region (area (setArea' r c s)) = active r s.
Proof.
  rewrite setArea_area.
  match goal with
  | |- region (area (setCountry' c ?x)) = _ =>
      destruct (setCountry_fields c x) as (-> & _)
  end.
  reflexivity.
Qed.

Lemma setArea_comparisonAreas r c s :
  comparisonAreas (setArea' r c s) =
  comparisonAreas (updateComparison r c s).
Proof.
  unfold setArea. cbn zeta.
  match goal with
  | |- comparisonAreas (updateAll _ _ ?x) = _ =>
      destruct (updateAll_fields (area x) (comparisonAreas x) x) as (_ & -> & _)
  end.
  match goal with
  | |- context [setCountry' c ?x] =>
      destruct (setCountry_fields c x) as (_ & H1 & _);
      set (s1 := setCountry' c x) in *
  end.
  cbn [comparisonAreas with_area] in H1.
  unfold updateComparisonArea, isFocusCountryInList. rewrite H1.
  destruct c as [c|]; [destruct (truthy_str (Some c)); [destruct (existsb _ _)|]|];
    cbn [comparisonAreas with_comparisonAreas]; try reflexivity;
    (destruct r as [r|]; [destruct (includes _ _)|]);
    cbn [comparisonAreas with_comparisonAreas]; rewrite ?H1; reflexivity.
Qed.

(** C6: the country-setter that [setArea] invokes works on the region that
    is active once [setArea] has set the region. A country name that is not
    among the countries of that region leaves the focus country at its prior
    value; a country name (a non-empty string) that is among them becomes
    the focus country. *)
Theorem setArea_adopts_country_of_active_region_only :
  forall (r : option string) (c : string) (s : Selected),
    let s' := setArea' r (Some c) s in
    region (area s') = active r s /\
    (~ In c (getCountriesOfRegion (active r s)) ->
     country (area s') = country (area s)) /\
    (c <> "" -> In c (getCountriesOfRegion (active r s)) ->
     country (area s') = c).
Proof.
  intros r c s s'. subst s'.
  split; [apply setArea_region|].
  rewrite setArea_area. unfold setCountry.
  cbn [area region country with_area truthy_str].
  destruct (String.eqb_spec c "") as [->|Hne]; cbn [negb].
  - split; [reflexivity | intros H; contradiction H; reflexivity].
  - destruct (includes_spec (getCountriesOfRegion (active r s)) c) as [Hin|Hin];
      cbn [area region country with_area]; split; intros; auto; contradiction.
Qed.

(** What [setArea] does to the comparison list when it is given a country
    that is in the list (and that [isSameCountryName] relates to itself):
    the first occurrence of that country is removed, whether or not the
    country-setter accepted it, and nothing else is. *)
Lemma setArea_removes_given_country r c s :
  c <> "" -> In c (comparisonAreas s) -> isSameCountryName c c = true ->
  exists pre post,
    comparisonAreas s = pre ++ c :: post /\ ~ In c pre /\
    comparisonAreas (setArea' r (Some c) s) = pre ++ post.
Proof.
  intros Hne Hin Hsame.
  rewrite setArea_comparisonAreas.
  unfold updateComparisonArea, isFocusCountryInList. cbn [truthy_str].
  destruct (String.eqb_spec c "") as [->|_]; [contradiction Hne; reflexivity|].
  cbn [negb].
  assert (E : existsb (fun comparisonArea => isSameCountryName comparisonArea c)
                      (comparisonAreas s) = true).
  { apply existsb_exists. exists c. split; assumption. }
  rewrite E. cbn [comparisonAreas with_comparisonAreas].
  apply splice1_indexOf. exact Hin.
Qed.

End SelectedFacts.

(** ** [GeoMap]: aggregation *)

Lemma includes_year_In (years : list Z) (y : Z) :
  includes_year years y = true <-> In y years.
Proof.
  unfold includes_year. rewrite existsb_exists. split.
  - intros (y' & Hin & E). apply Z.eqb_eq in E. now subst.
  - intros Hin. exists y. split; [exact Hin | apply Z.eqb_refl].
Qed.

(** The filter of [updateData] keeps exactly the matching records. *)
Lemma filteredData_In data years ind d :
  In d (filteredData data years ind) <-> In d data /\ matching years ind d.
Proof.
  unfold filteredData, matching. rewrite filter_In, andb_true_iff.
  rewrite includes_year_In, String.eqb_eq. reflexivity.
Qed.

Section Rollup.

Context {A : Type}.
Variable key : A -> string.

Lemma group_insert_lookup (k : string) (x : A) (groups : JsMap (list A))
      (k' : string) :
  Map_lookup (group_insert k x groups) k' =
  if String.eqb k k'
  then Some (match Map_lookup groups k with
             | Some xs => xs ++ [x]
             | None => [x]
             end)
  else Map_lookup groups k'.
Proof.
  induction groups as [|[k1 xs] rest IH]; simpl.
  - destruct (String.eqb k k'); reflexivity.
  - destruct (String.eqb_spec k1 k) as [->|Hne]; simpl.
    + destruct (String.eqb k k'); reflexivity.
    + rewrite IH. destruct (String.eqb_spec k k') as [->|Hne'].
      * destruct (String.eqb_spec k1 k'); [contradiction | reflexivity].
      * reflexivity.
Qed.

Lemma group_fold_lookup (values : list A) (acc : JsMap (list A)) (k : string) :
  Map_lookup (fold_left (fun groups x => group_insert (key x) x groups)
                        values acc) k =
  match Map_lookup acc k with
  | Some xs => Some (xs ++ filter (fun x => String.eqb (key x) k) values)
  | None => match filter (fun x => String.eqb (key x) k) values with
            | [] => None
            | group => Some group
            end
  end.
Proof.
  revert acc. induction values as [|x rest IH]; intros acc; simpl.
  - destruct (Map_lookup acc k); [rewrite app_nil_r|]; reflexivity.
  - rewrite IH, group_insert_lookup.
    destruct (String.eqb_spec (key x) k) as [->|Hne].
    + destruct (Map_lookup acc k) as [xs|].
      * rewrite <- app_assoc. reflexivity.
      * reflexivity.
    + reflexivity.
Qed.

(** The group of a key is the sub-list of the elements with that key, in
    their order; a key that no element has opens no group. *)
Lemma d3_group_lookup (values : list A) (k : string) :
  Map_lookup (d3_group values key) k =
  match filter (fun x => String.eqb (key x) k) values with
  | [] => None
  | group => Some group
  end.
Proof. unfold d3_group. rewrite group_fold_lookup. reflexivity. Qed.

Lemma d3_rollup_lookup {V} (reduce : list A -> V) (values : list A) (k : string) :
  Map_lookup (d3_rollup values reduce key) k =
  match filter (fun x => String.eqb (key x) k) values with
  | [] => None
  | group => Some (reduce group)
  end.
Proof.
  unfold d3_rollup.
  transitivity (option_map reduce (Map_lookup (d3_group values key) k)).
  - induction (d3_group values key) as [|[k1 xs] rest IH]; simpl; [reflexivity|].
    destruct (String.eqb k1 k); [reflexivity | exact IH].
  - rewrite d3_group_lookup. destruct (filter _ values); reflexivity.
Qed.

End Rollup.

Lemma Map_has_lookup {V} (m : JsMap V) (k : string) :
  Map_has m k = match Map_lookup m k with Some _ => true | None => false end.
Proof.
  induction m as [|[k1 v] rest IH]; simpl; [reflexivity|].
  destruct (String.eqb k1 k); [reflexivity | exact IH].
Qed.

Lemma Map_lookup_delete {V} (m : JsMap V) (k k' : string) :
  Map_lookup (Map_delete m k) k' =
  if String.eqb k k' then None else Map_lookup m k'.
Proof.
  unfold Map_delete. induction m as [|[k1 v] rest IH]; simpl.
  - destruct (String.eqb k k'); reflexivity.
  - destruct (String.eqb_spec k1 k) as [->|Hne]; simpl.
    + rewrite IH. destruct (String.eqb k k'); reflexivity.
    + rewrite IH. destruct (String.eqb_spec k1 k') as [->|Hne'].
      * destruct (String.eqb_spec k k'); [congruence | reflexivity].
      * reflexivity.
Qed.

(** The loop that deletes ["WLD"] leaves every other key as it was. *)
Lemma delete_WLD_lookup {V} (keys : list string) (m : JsMap V) (k : string) :
  Map_lookup (fold_left (fun grouped countryCode =>
                           if String.eqb countryCode "WLD"
                           then Map_delete grouped countryCode
                           else grouped) keys m) k =
  if String.eqb k "WLD" && includes keys "WLD" then None else Map_lookup m k.
Proof.
  revert m. induction keys as [|k1 rest IH]; intros m; cbn [fold_left includes].
  - rewrite andb_false_r. reflexivity.
  - rewrite IH. destruct (String.eqb_spec k1 "WLD") as [->|Hne].
    + rewrite Map_lookup_delete, (String.eqb_sym "WLD" k).
      destruct (String.eqb k "WLD"); cbn [andb]; [|reflexivity].
      destruct (includes rest "WLD"); reflexivity.
    + reflexivity.
Qed.

Lemma Map_lookup_keys {V} (m : JsMap V) (k : string) :
  includes (Map_keys m) k = false -> Map_lookup m k = None.
Proof.
  induction m as [|[k1 v] rest IH]; simpl; [reflexivity|].
  destruct (String.eqb k1 k); [discriminate | exact IH].
Qed.

Lemma updateData_lookup data years ind c :
  Map_lookup (updateData data years ind) c = aggregate_spec data years ind c.
Proof.
  unfold updateData, aggregate_spec. rewrite delete_WLD_lookup.
  destruct (String.eqb_spec c "WLD") as [->|Hne]; cbn [andb].
  - destruct (includes _ _) eqn:E; [reflexivity|].
    apply Map_lookup_keys. exact E.
  - apply d3_rollup_lookup.
Qed.

Lemma SFcompare_refl (x : spec_float) :
  SFcompare x x = Some Eq \/ SFcompare x x = None.
Proof.
  destruct x as [[]|[]| |[] m e]; simpl; auto;
    rewrite Z.compare_refl, Pos.compare_cont_refl; auto.
Qed.

(** The test [value >= value] of [d3.mean] singles out NaN. *)
Lemma leb_refl_is_number (v : float) : (v <=? v)%float = negb (is_nan v).
Proof.
  unfold is_nan.
  rewrite negb_involutive, FloatAxioms.leb_spec, FloatAxioms.eqb_spec.
  unfold SFleb, SFeqb.
  destruct (SFcompare_refl (Prim2SF v)) as [-> | ->]; reflexivity.
Qed.

(** On numbers, the loop of [d3.mean] counts every value and sums them all. *)
Lemma mean_fold_numbers (values : list float) (count : nat) (sum : float) :
  Forall (fun v => is_nan v = false) values ->
  fold_left mean_step values (count, sum) =
  (count + List.length values,
   fold_left (fun sum value => (sum + value)%float) values sum).
Proof.
  intros H. revert count sum.
  induction H as [|v rest Hv _ IH]; intros count sum; cbn [fold_left List.length].
  - rewrite Nat.add_0_r. reflexivity.
  - unfold mean_step at 2. rewrite leb_refl_is_number, Hv. cbn [negb].
    rewrite IH. f_equal. lia.
Qed.

(** On a non-empty array of numbers, [d3.mean] is the arithmetic mean. *)
Lemma d3_mean_numbers (values : list float) :
  values <> [] ->
  Forall (fun v => is_nan v = false) values ->
  d3_mean values = Some (arithmetic_mean values).
Proof.
  intros Hne H. unfold d3_mean. rewrite (mean_fold_numbers values _ _ H).
  cbn [Nat.add]. destruct values as [|v rest]; [contradiction Hne; reflexivity|].
  reflexivity.
Qed.

(** C7: [updateData] keeps exactly the records whose year is among the
    selected years and whose indicator is the selected one, groups them by
    country code and maps each country to the mean of the values of its group
    ([d3.mean]; the arithmetic mean, sum over count, when the values are
    numbers); a country without such a record has no entry; ["WLD"] has no
    entry after the aggregation; and the two records of the example give 15
    for ["USA"]. *)
Theorem updateData_aggregates :
  forall (data : list Observation) (years : list Z) (ind : string),
    (forall d, In d (filteredData data years ind) <->
               In d data /\ matching years ind d) /\
    (forall c, Map_lookup (updateData data years ind) c =
               aggregate_spec data years ind c) /\
    (forall c, Map_has (updateData data years ind) c = true <->
               c <> "WLD" /\
               exists d, In d data /\ matching years ind d /\ CountryCode d = c) /\
    (forall c,
        let values :=
          map Value (filter (fun d => String.eqb (CountryCode d) c)
                            (filteredData data years ind)) in
        c <> "WLD" -> values <> [] ->
        Forall (fun v => is_nan v = false) values ->
        Map_get (updateData data years ind) (Some c)
        = Some (arithmetic_mean values)) /\
    Map_has (updateData data years ind) "WLD" = false /\
    Map_get (updateData Sample.observations [2010; 2011]%Z "X") (Some "USA")
    = Some 15%float.
Proof.
  intros data years ind.
  split; [intros d; apply filteredData_In|].
  split; [intros c; apply updateData_lookup|].
  split; [|split; [|split]].
  - intros c. rewrite Map_has_lookup, updateData_lookup. unfold aggregate_spec.
    destruct (String.eqb_spec c "WLD") as [->|Hne].
    + split; [discriminate | intros [H _]; contradiction H; reflexivity].
    + destruct (filter _ _) as [|d0 group] eqn:E.
      * split; [discriminate|]. intros (_ & d & Hd & Hm & Hc).
        assert (Hin : In d (filter (fun d => String.eqb (CountryCode d) c)
                                   (filteredData data years ind))).
        { apply filter_In. split; [apply filteredData_In; auto|].
          apply String.eqb_eq. exact Hc. }
        rewrite E in Hin. destruct Hin.
      * split; [|reflexivity]. intros _. split; [exact Hne|].
        assert (Hin : In d0 (filter (fun d => String.eqb (CountryCode d) c)
                                    (filteredData data years ind)))
          by (rewrite E; left; reflexivity).
        apply filter_In in Hin as [Hin Hc]. apply filteredData_In in Hin as [Hin Hm].
        exists d0. repeat split; try assumption; try apply Hm.
        apply String.eqb_eq. exact Hc.
  - intros c values Hc Hne Hnum. subst values. unfold Map_get.
    rewrite updateData_lookup. unfold aggregate_spec.
    destruct (String.eqb_spec c "WLD") as [->|_]; [contradiction Hc; reflexivity|].
    destruct (filter _ _) as [|d0 group] eqn:E; [contradiction Hne; reflexivity|].
    apply d3_mean_numbers; assumption.
  - rewrite Map_has_lookup, updateData_lookup. reflexivity.
  - vm_compute. reflexivity.
Qed.

(** C7 (witness): the example of the design document, through the theorem:
    the two values of ["USA"] are numbers, and their mean is 15. *)
Lemma updateData_aggregates_witness :
  let values :=
    map Value (filter (fun d => String.eqb (CountryCode d) "USA")
                      (filteredData Sample.observations [2010; 2011]%Z "X")) in
  ("USA" <> "WLD" /\ values <> [] /\ Forall (fun v => is_nan v = false) values) /\
  arithmetic_mean values = 15%float /\
  Map_get (updateData Sample.observations [2010; 2011]%Z "X") (Some "USA")
  = Some (arithmetic_mean values).
Proof.
  cbn zeta.
  assert (H1 : "USA" <> "WLD") by discriminate.
  assert (H2 : map Value (filter (fun d => String.eqb (CountryCode d) "USA")
                                 (filteredData Sample.observations [2010; 2011]%Z "X"))
               <> []) by (vm_compute; discriminate).
  assert (H3 : Forall (fun v => is_nan v = false)
                      (map Value (filter (fun d => String.eqb (CountryCode d) "USA")
                                 (filteredData Sample.observations [2010; 2011]%Z "X"))))
    by (vm_compute; repeat constructor).
  split; [repeat split; assumption|]. split; [vm_compute; reflexivity|].
  apply (proj1 (proj2 (proj2 (proj2
           (updateData_aggregates Sample.observations [2010; 2011]%Z "X"))))
           "USA" H1 H2 H3).
Defined.

(** ** [GeoMap]: the tooltip *)

Section TooltipFacts.

Variable Math_round : float -> float.
Variable toFixed2 : float -> string.
Variable d3_format_comma : Formatted -> string.
Variable Number_toString : float -> string.

Abbreviation average :=
  (tooltipAverage Math_round toFixed2 d3_format_comma Number_toString).

(** The average reads "N/A" for every falsy aggregate: a missing one, and
    also 0, -0 and NaN. *)
Lemma tooltipAverage_falsy (groupedData : JsMap JsNumber) (alpha_3 : option string) :
  truthy_num (Map_get groupedData alpha_3) = false ->
  average groupedData alpha_3 = "N/A".
Proof. unfold tooltipAverage. intros ->. reflexivity. Qed.

Lemma tooltipAverage_truthy (groupedData : JsMap JsNumber) (alpha_3 : option string) :
  truthy_num (Map_get groupedData alpha_3) = true ->
  average groupedData alpha_3 =
  Formatted_toString Number_toString
    (format Math_round toFixed2 d3_format_comma
            (ToNumber (Map_get groupedData alpha_3))).
Proof. unfold tooltipAverage. intros ->. reflexivity. Qed.

(** C8 (the code at the failing input): the only record of ["USA"] for the
    selected year has the value 0, so the aggregate of ["USA"] exists and is
    0; the tooltip reads "N/A" all the same, as it does for ["FRA"], which
    has no aggregate. *)
Theorem tooltip_of_zero_mean_reads_NA :
  let groupedData := updateData Sample.zero_observations [2010%Z] "X" in
  Map_has groupedData "USA" = true /\
  Map_get groupedData (Some "USA") = Some 0%float /\
  average groupedData (Some "USA") = "N/A" /\
  Map_has groupedData "FRA" = false /\
  average groupedData (Some "FRA") = "N/A" /\
  showTooltip Math_round toFixed2 d3_format_comma Number_toString
              Sample.fresh [] groupedData 120 80 840
              (Some "USA") (Some "United States")
  = Some (mkTooltip 80 120 "United States" None
                    "Average Population, total:" "   N/A").
Proof.
  cbn zeta.
  assert (E : updateData Sample.zero_observations [2010%Z] "X"
              = [("USA", Some 0%float)]) by (vm_compute; reflexivity).
  rewrite E. repeat split.
Qed.

End TooltipFacts.

(** ** [GeoMap]: the colour bins *)

Lemma SFcompare_antisym (a b : spec_float) :
  SFcompare b a = option_map CompOpp (SFcompare a b).
Proof.
  destruct a as [sa|sa| |sa ma ea], b as [sb|sb| |sb mb eb]; simpl;
    try reflexivity;
    try (destruct sa; reflexivity); try (destruct sb; reflexivity);
    try (destruct sa, sb; reflexivity).
  destruct sa, sb; simpl; try reflexivity;
    rewrite (Z.compare_antisym ea eb);
    destruct (ea ?= eb)%Z; simpl; try reflexivity;
    rewrite (Pos.compare_cont_antisym ma mb Eq); simpl;
    rewrite ?CompOpp_involutive; reflexivity.
Qed.

Lemma is_nan_Prim2SF (d : float) : is_nan d = true <-> Prim2SF d = S754_nan.
Proof.
  split.
  - unfold Prim2SF. intros ->. reflexivity.
  - intros H. unfold is_nan. rewrite FloatAxioms.eqb_spec, H. reflexivity.
Qed.

(** [a <= b] excludes [b < a]. *)
Lemma leb_not_ltb (a b : float) : (a <=? b)%float = true -> (b <? a)%float = false.
Proof.
  rewrite FloatAxioms.leb_spec, FloatAxioms.ltb_spec. unfold SFleb, SFltb.
  rewrite (SFcompare_antisym (Prim2SF a) (Prim2SF b)).
  destruct (SFcompare (Prim2SF a) (Prim2SF b)) as [[]|]; simpl; congruence.
Qed.

(** NaN is above nothing. *)
Lemma nan_not_above (c d : float) : is_nan d = true -> (c <? d)%float = false.
Proof.
  intros H. apply is_nan_Prim2SF in H.
  rewrite FloatAxioms.ltb_spec, H. unfold SFltb.
  destruct (Prim2SF c); reflexivity.
Qed.

Lemma leb_is_number (d c : float) : (d <=? c)%float = true -> is_nan d = false.
Proof.
  intros H. destruct (is_nan d) eqn:E; [|reflexivity].
  apply is_nan_Prim2SF in E. rewrite FloatAxioms.leb_spec, E in H. discriminate.
Qed.

(** Two numbers are comparable. *)
Lemma not_ltb_leb (c d : float) :
  is_nan c = false -> is_nan d = false ->
  (c <? d)%float = false -> (d <=? c)%float = true.
Proof.
  intros Hc Hd. rewrite FloatAxioms.leb_spec, FloatAxioms.ltb_spec.
  unfold SFleb, SFltb.
  rewrite (SFcompare_antisym (Prim2SF c) (Prim2SF d)).
  destruct (SFcompare (Prim2SF c) (Prim2SF d)) as [[]|] eqn:E; simpl; try congruence.
  intros _. exfalso.
  assert (Prim2SF c <> S754_nan) by (rewrite <- is_nan_Prim2SF; congruence).
  assert (Prim2SF d <> S754_nan) by (rewrite <- is_nan_Prim2SF; congruence).
  destruct (Prim2SF c), (Prim2SF d); simpl in E; congruence.
Qed.

Lemma SFcompare_Lt_trans (a b c : spec_float) :
  SFcompare a b = Some Lt -> SFcompare b c = Some Lt -> SFcompare a c = Some Lt.
Proof.
  destruct a as [[]|[]| |[] ma ea], b as [[]|[]| |[] mb eb],
           c as [[]|[]| |[] mc ec]; simpl;
    try congruence; try reflexivity;
    rewrite !Pos.compare_cont_spec; unfold Pos.switch_Eq;
    destruct (Z.compare_spec ea eb), (Z.compare_spec eb ec),
             (Z.compare_spec ea ec);
    try lia; simpl; try congruence;
    destruct (Pos.compare_spec ma mb), (Pos.compare_spec mb mc),
             (Pos.compare_spec ma mc);
    try lia; simpl; congruence.
Qed.

Lemma ltb_trans (a b c : float) :
  (a <? b)%float = true -> (b <? c)%float = true -> (a <? c)%float = true.
Proof.
  rewrite !FloatAxioms.ltb_spec. unfold SFltb.
  destruct (SFcompare (Prim2SF a) (Prim2SF b)) as [[]|] eqn:Eab; try discriminate.
  destruct (SFcompare (Prim2SF b) (Prim2SF c)) as [[]|] eqn:Ebc; try discriminate.
  rewrite (SFcompare_Lt_trans _ _ _ Eab Ebc). reflexivity.
Qed.

(** A value that is not above a threshold is not above a higher one. *)
Lemma not_above_higher (lo hi d : float) :
  (lo <? hi)%float = true -> (lo <? d)%float = false -> (hi <? d)%float = false.
Proof.
  intros Hlh Hlo. destruct (hi <? d)%float eqn:E; [|reflexivity].
  rewrite (ltb_trans _ _ _ Hlh E) in Hlo. discriminate.
Qed.

(** C9: the bins of [getTileColor]. A value above 0.8 is in the darkest bin;
    a value above 0.6 and at most 0.8 in the next one, 0.8 itself included;
    above 0.4 and at most 0.6, and above 0.2 and at most 0.4, in the two
    middle bins; every other number, that is every number at most 0.2, in the
    lightest bin; NaN, and [undefined], in the gray bin, which is none of the
    five colours. Every value is in one of these six cases. *)
Theorem getTileColor_bins :
  forall d : float,
    ((0.8 <? d)%float = true -> getTileColor (Some d) = "#08519c") /\
    ((0.6 <? d)%float = true -> (d <=? 0.8)%float = true ->
     getTileColor (Some d) = "#3182bd") /\
    ((0.4 <? d)%float = true -> (d <=? 0.6)%float = true ->
     getTileColor (Some d) = "#6baed6") /\
    ((0.2 <? d)%float = true -> (d <=? 0.4)%float = true ->
     getTileColor (Some d) = "#bdd7e7") /\
    ((d <=? 0.2)%float = true -> getTileColor (Some d) = "#eff3ff") /\
    (is_nan d = true -> getTileColor (Some d) = "#808080") /\
    ((0.8 <? d)%float = true \/
     ((0.6 <? d)%float = true /\ (d <=? 0.8)%float = true) \/
     ((0.4 <? d)%float = true /\ (d <=? 0.6)%float = true) \/
     ((0.2 <? d)%float = true /\ (d <=? 0.4)%float = true) \/
     (d <=? 0.2)%float = true \/ is_nan d = true) /\
    getTileColor (Some 0.8%float) = "#3182bd" /\
    getTileColor None = "#808080".
Proof.
  intros d. unfold getTileColor. cbn [ToNumber].
  assert (H68 : (0.6 <? 0.8)%float = true) by reflexivity.
  assert (H46 : (0.4 <? 0.6)%float = true) by reflexivity.
  assert (H24 : (0.2 <? 0.4)%float = true) by reflexivity.
  repeat match goal with |- _ /\ _ => split end.
  - intros ->. reflexivity.
  - intros H6 H8. rewrite (leb_not_ltb _ _ H8), H6. reflexivity.
  - intros H4 H6. apply leb_not_ltb in H6.
    rewrite (not_above_higher 0.6 0.8 d H68 H6), H6, H4. reflexivity.
  - intros H2 H4. apply leb_not_ltb in H4.
    pose proof (not_above_higher 0.4 0.6 d H46 H4) as H6.
    rewrite (not_above_higher 0.6 0.8 d H68 H6), H6, H4, H2. reflexivity.
  - intros H2. pose proof (leb_is_number _ _ H2) as Hn. apply leb_not_ltb in H2.
    pose proof (not_above_higher 0.2 0.4 d H24 H2) as H4.
    pose proof (not_above_higher 0.4 0.6 d H46 H4) as H6.
    rewrite (not_above_higher 0.6 0.8 d H68 H6), H6, H4, H2, Hn. reflexivity.
  - intros Hn. rewrite !(nan_not_above _ d Hn), Hn. reflexivity.
  - destruct (is_nan d) eqn:Hn; [tauto|].
    destruct (0.8 <? d)%float eqn:H8; [tauto|].
    apply (not_ltb_leb 0.8 d eq_refl Hn) in H8.
    destruct (0.6 <? d)%float eqn:H6; [tauto|].
    apply (not_ltb_leb 0.6 d eq_refl Hn) in H6.
    destruct (0.4 <? d)%float eqn:H4; [tauto|].
    apply (not_ltb_leb 0.4 d eq_refl Hn) in H4.
    destruct (0.2 <? d)%float eqn:H2; [tauto|].
    apply (not_ltb_leb 0.2 d eq_refl Hn) in H2. tauto.
  - vm_compute. reflexivity.
  - vm_compute. reflexivity.
Qed.

(** ** The Selection Model on the sample collaborators *)

(** C1 (counterexample): the constructor takes the comparison list as it is
    given; an object built with five comparison areas has five after any
    calls of [addComparisonArea]. *)
Lemma five_comparison_areas_stay_five :
  let s0 := Sample.new None
              (Some ["France"; "Germany"; "Japan"; "China"; "Brazil"])
              None None None in
  let s := fst (Sample.exec (map AddComparisonArea ["Europe"; "Asia"]) s0) in
  Sample.reachable s /\ ~ List.length (comparisonAreas s) <= 4.
Proof.
  cbn zeta. split.
  - apply run_reachable. apply reachable_new.
  - vm_compute. lia.
Qed.

(** A second way out of the three conditions, through the methods alone:
    [setArea] removes the given country from the comparison list and then
    leaves the given region in it, so the focus region stays a comparison
    area through the calls of [addComparisonArea] that follow. *)
Lemma focus_region_left_in_comparison_list :
  let s := fst (Sample.exec [AddComparisonArea "Europe";
                             AddComparisonArea "France";
                             SetArea (Some "Europe") (Some "France");
                             AddComparisonArea "Asia"] Sample.fresh) in
  area s = mkArea "Europe" "France" /\
  comparisonAreas s = ["Europe"; "Asia"] /\
  In (region (area s)) (comparisonAreas s).
Proof. vm_compute. repeat split. left. reflexivity. Qed.

(** C1 (witness): seven calls on a new object. *)
Lemma addComparisonArea_sequence_witness :
  let names := ["Europe"; "france"; "Europe"; "World"; "Asia"; "Japan"; "China"] in
  comparison_ok Sample.fresh /\
  let s' := fst (Sample.exec (map AddComparisonArea names) Sample.fresh) in
  area s' = area Sample.fresh /\ comparison_ok s'.
Proof.
  pose proof (addComparisonArea_sequence_keeps_comparison_ok
                Sample.formatCountryOrRegionNames Sample.getCountriesOfRegion
                Sample.isSameCountryName Sample.POPULATION_TOTAL) as [Hnew Hseq].
  split; [apply Hnew|].
  apply (Hseq _ Sample.fresh). apply Hnew.
Defined.

(** C2 (counterexample): an object built on the focus region ["world"] has
    ["World"], the sanitized name, in front of [allSelectedAreas]; the focus
    region itself is ["world"]. *)
Lemma sanitized_focus_is_in_front :
  let s := Sample.new (Some (mkArea "world" "")) None None None None in
  country (area s) = "" /\ region (area s) = "world" /\
  hd_error (allSelectedAreas s) = Some "World" /\
  hd_error (allSelectedAreas s) <> Some (storedFocus (area s)).
Proof. vm_compute. repeat split. discriminate. Qed.

(** C2 (witness): after [setArea] has adopted ["Europe"] and ["France"],
    names that the sanitizer leaves as they are, ["France"] is in front. *)
Lemma allSelectedAreas_witness :
  let s := fst (Sample.exec [AddComparisonArea "Japan";
                             SetArea (Some "Europe") (Some "France")]
                            Sample.fresh) in
  (Sample.formatCountryOrRegionNames (country (area s)) = country (area s) /\
   Sample.formatCountryOrRegionNames (region (area s)) = region (area s)) /\
  area s = mkArea "Europe" "France" /\
  hd_error (allSelectedAreas s) =
    Some (if negb (String.eqb (country (area s)) "")
          then country (area s) else region (area s)).
Proof.
  cbn zeta. split; [split; reflexivity|]. split; [reflexivity|].
  apply (proj2 (proj2 (proj2
           (allSelectedAreas_after_every_call
              Sample.formatCountryOrRegionNames Sample.getCountriesOfRegion
              Sample.isSameCountryName Sample.POPULATION_TOTAL
              None None None None None
              [AddComparisonArea "Japan";
               SetArea (Some "Europe") (Some "France")]))));
    reflexivity.
Defined.

(** C3 (counterexample): a dispatcher given to the constructor, four
    comparison areas, and a fifth name that is new: nothing is emitted. *)
Lemma overflow_without_events_is_silent :
  let s := Sample.new None (Some ["France"; "Germany"; "Japan"; "China"])
                      None None (Some Sample.d0) in
  List.length (comparisonAreas s) = 4 /\
  Sample.formatCountryOrRegionNames "Brazil" = "Brazil" /\
  ~ In "Brazil" (comparisonAreas s) /\
  region (area s) <> "Brazil" /\ country (area s) <> "Brazil" /\
  dispatcher s = Some Sample.d0 /\
  snd (Sample.add "Brazil" s) = [].
Proof.
  vm_compute. repeat split; try discriminate.
  intros [H|[H|[H|[H|[]]]]]; discriminate.
Qed.

(** C3 (witness): the same call once [setDispatcher] has registered a
    dispatcher and the table of events. *)
Lemma addComparisonArea_on_full_list_witness :
  let s := setDispatcher (Some Sample.d0) (Some Sample.events) Sample.full in
  4 <= List.length (comparisonAreas s) /\
  comparisonAreas (fst (Sample.add "Brazil" s)) = comparisonAreas s /\
  snd (Sample.add "Brazil" s)
  = [mkCall Sample.d0 "error_too_many_comparisons"].
Proof.
  cbn zeta. split; [vm_compute; lia|].
  apply (addComparisonArea_on_full_list Sample.formatCountryOrRegionNames "Brazil"
           (setDispatcher (Some Sample.d0) (Some Sample.events) Sample.full)).
  vm_compute. lia.
Defined.

(** C4 (counterexample): on a list of four, with dispatcher and events
    registered, a name that is already in the list, and the name of the focus
    region, are answered with [ERROR_TOO_MANY_COMPARISONS]. *)
Lemma duplicate_on_full_list_emits :
  let s := fst (Sample.exec [SetDispatcher (Some Sample.d0) (Some Sample.events)]
                            Sample.full) in
  List.length (comparisonAreas s) = 4 /\
  In (Sample.formatCountryOrRegionNames "France") (comparisonAreas s) /\
  snd (Sample.add "France" s) = [mkCall Sample.d0 "error_too_many_comparisons"] /\
  region (area s) = Sample.formatCountryOrRegionNames "world" /\
  snd (Sample.add "world" s) = [mkCall Sample.d0 "error_too_many_comparisons"].
Proof. vm_compute. repeat split. left. reflexivity. Qed.

(** C4 (witness): a duplicate on a list of two, then on a list of four. *)
Lemma addComparisonArea_rejects_witness :
  let s2 := fst (Sample.exec [AddComparisonArea "France"; AddComparisonArea "Japan"]
                             Sample.fresh) in
  let s4 := setDispatcher (Some Sample.d0) (Some Sample.events) Sample.full in
  In (Sample.formatCountryOrRegionNames "france") (comparisonAreas s2) /\
  (comparisonAreas (fst (Sample.add "france" s2)) = ["France"; "Japan"] /\
   snd (Sample.add "france" s2) = []) /\
  (comparisonAreas (fst (Sample.add "france" s4)) = comparisonAreas s4 /\
   snd (Sample.add "france" s4) = [mkCall Sample.d0 "error_too_many_comparisons"]).
Proof.
  cbn zeta.
  assert (H2 : In (Sample.formatCountryOrRegionNames "france")
                  (comparisonAreas
                     (fst (Sample.exec [AddComparisonArea "France";
                                        AddComparisonArea "Japan"] Sample.fresh))))
    by (vm_compute; left; reflexivity).
  assert (H4 : In (Sample.formatCountryOrRegionNames "france")
                  (comparisonAreas
                     (setDispatcher (Some Sample.d0) (Some Sample.events) Sample.full)))
    by (vm_compute; left; reflexivity).
  split; [exact H2|]. split.
  - apply (addComparisonArea_rejects_focus_and_duplicates
             Sample.formatCountryOrRegionNames "france" _ (or_intror (or_intror H2))).
  - apply (addComparisonArea_rejects_focus_and_duplicates
             Sample.formatCountryOrRegionNames "france" _ (or_intror (or_intror H4))).
Defined.

(** C5 (the code at the failing input): ["Asia"] and ["France"] are
    comparison areas; [setArea] is given the region ["Asia"] and the country
    ["France"]. The country-setter rejects ["France"], which is no country of
    ["Asia"], so the new focus is the region ["Asia"]. Afterwards ["France"],
    which never was the focus, is gone from the comparison list, and
    ["Asia"], the focus, is still in it. *)
Theorem setArea_removes_rejected_country :
  let s0 := fst (Sample.exec [AddComparisonArea "Asia"; AddComparisonArea "France"]
                             Sample.fresh) in
  let s1 := fst (Sample.exec [SetArea (Some "Asia") (Some "France")] s0) in
  comparisonAreas s0 = ["Asia"; "France"] /\
  ~ In "France" (Sample.getCountriesOfRegion "Asia") /\
  area s1 = mkArea "Asia" "" /\
  comparisonAreas s1 = ["Asia"].
Proof.
  vm_compute. repeat split. intros [H|[H|[]]]; discriminate.
Qed.

(** A third effect of the same lines: a country that [isSameCountryName]
    finds in the list under another spelling has [indexOf] -1, and
    [splice(-1, 1)] removes the last comparison area instead. *)
Lemma setArea_removes_last_on_other_spelling :
  let s0 := fst (Sample.exec [AddComparisonArea "USA"; AddComparisonArea "Japan"]
                             Sample.fresh) in
  let s1 := fst (Sample.exec [SetArea None (Some "United States")] s0) in
  comparisonAreas s0 = ["USA"; "Japan"] /\ comparisonAreas s1 = ["USA"].
Proof. vm_compute. split; reflexivity. Qed.

(** And the region is looked up in the list as it was given, not as it is
    stored. *)
Lemma setArea_keeps_region_given_unsanitized :
  let s := fst (Sample.exec [AddComparisonArea "Asia"; SetArea (Some "asia") None]
                            Sample.fresh) in
  area s = mkArea "Asia" "" /\ comparisonAreas s = ["Asia"].
Proof. vm_compute. split; reflexivity. Qed.

(** C6 (witness): with the region ["Europe"], ["Japan"] is ignored and
    ["France"] is adopted. *)
Lemma setArea_country_witness :
  let rejected := fst (Sample.exec [SetArea (Some "Europe") (Some "Japan")]
                                   Sample.fresh) in
  let adopted := fst (Sample.exec [SetArea (Some "Europe") (Some "France")]
                                  Sample.fresh) in
  (~ In "Japan" (Sample.getCountriesOfRegion "Europe") /\
   country (area rejected) = country (area Sample.fresh)) /\
  ("France" <> "" /\ In "France" (Sample.getCountriesOfRegion "Europe") /\
   country (area adopted) = "France").
Proof.
  cbn zeta.
  assert (HJ : ~ In "Japan" (Sample.getCountriesOfRegion "Europe"))
    by (vm_compute; intros [H|[H|[]]]; discriminate).
  assert (HF : In "France" (Sample.getCountriesOfRegion "Europe"))
    by (vm_compute; left; reflexivity).
  assert (HN : "France" <> "") by discriminate.
  split.
  - split; [exact HJ|].
    apply (proj1 (proj2 (setArea_adopts_country_of_active_region_only
                           Sample.formatCountryOrRegionNames
                           Sample.getCountriesOfRegion Sample.isSameCountryName
                           (Some "Europe") "Japan" Sample.fresh))).
    exact HJ.
  - split; [exact HN|]. split; [exact HF|].
    apply (proj2 (proj2 (setArea_adopts_country_of_active_region_only
                           Sample.formatCountryOrRegionNames
                           Sample.getCountriesOfRegion Sample.isSameCountryName
                           (Some "Europe") "France" Sample.fresh)));
      [exact HN | exact HF].
Defined.

(** C10 (witness): a dispatcher given to the constructor, four areas, three
    more calls of [addComparisonArea]: nothing is emitted. The same calls
    after [setDispatcher] emit three times. *)
Lemma no_event_without_setDispatcher_witness :
  let ops := [AddComparisonArea "Brazil"; SetIndicator (Some "GDP");
              AddComparisonArea "France"; AddComparisonArea "World"] in
  let s := Sample.new None (Some ["France"; "Germany"; "Japan"; "China"])
                      None None (Some Sample.d0) in
  existsb registers_both ops = false /\
  snd (Sample.exec ops s) = [] /\
  List.length
    (snd (Sample.exec (SetDispatcher (Some Sample.d0) (Some Sample.events) :: ops) s))
  = 3.
Proof.
  cbn zeta. split; [reflexivity|]. split; [|vm_compute; reflexivity].
  apply (proj1 (proj2 (proj2 (proj2 (no_event_without_setDispatcher
           Sample.formatCountryOrRegionNames Sample.getCountriesOfRegion
           Sample.isSameCountryName Sample.POPULATION_TOTAL
           None (Some ["France"; "Germany"; "Japan"; "China"]) None None
           (Some Sample.d0)))))).
  reflexivity.
Defined.

(** C9 (witness): one value in each bin. *)
Lemma getTileColor_bins_witness :
  ((0.8 <? 0.9)%float = true /\ getTileColor (Some 0.9%float) = "#08519c") /\
  (((0.6 <? 0.7)%float = true /\ (0.7 <=? 0.8)%float = true) /\
   getTileColor (Some 0.7%float) = "#3182bd") /\
  (((0.4 <? 0.6)%float = true /\ (0.6 <=? 0.6)%float = true) /\
   getTileColor (Some 0.6%float) = "#6baed6") /\
  (((0.2 <? 0.3)%float = true /\ (0.3 <=? 0.4)%float = true) /\
   getTileColor (Some 0.3%float) = "#bdd7e7") /\
  ((0 <=? 0.2)%float = true /\ getTileColor (Some 0%float) = "#eff3ff") /\
  (is_nan nan = true /\ getTileColor (Some nan) = "#808080").
Proof.
  split; [split; [reflexivity|]|].
  { apply (proj1 (getTileColor_bins 0.9)). reflexivity. }
  split; [split; [split; reflexivity|]|].
  { apply (proj1 (proj2 (getTileColor_bins 0.7))); reflexivity. }
  split; [split; [split; reflexivity|]|].
  { apply (proj1 (proj2 (proj2 (getTileColor_bins 0.6)))); reflexivity. }
  split; [split; [split; reflexivity|]|].
  { apply (proj1 (proj2 (proj2 (proj2 (getTileColor_bins 0.3))))); reflexivity. }
  split; [split; [reflexivity|]|].
  { apply (proj1 (proj2 (proj2 (proj2 (proj2 (getTileColor_bins 0)))))); reflexivity. }
  split; [reflexivity|].
  apply (proj1 (proj2 (proj2 (proj2 (proj2 (proj2 (getTileColor_bins nan))))))).
  reflexivity.
Defined.

(** * Further properties of [Selected] *)

(** [splice(index, 1)] removes at most one element, and none but at [index]. *)
Lemma splice1_cases (index : Z) (arr : list string) :
  splice1 index arr = arr \/
  exists pre x post, arr = pre ++ x :: post /\ splice1 index arr = pre ++ post.
Proof.
  unfold splice1.
  set (start := Z.to_nat (if (index <? 0)%Z
                          then Z.max (Z.of_nat (List.length arr) + index) 0
                          else Z.min index (Z.of_nat (List.length arr)))).
  destruct (Nat.lt_ge_cases start (List.length arr)) as [Hlt|Hge].
  - right.
    destruct (skipn start arr) as [|x post] eqn:E.
    + apply (f_equal (@List.length string)) in E. rewrite length_skipn in E.
      simpl in E. lia.
    + exists (firstn start arr), x, post. split.
      * rewrite <- E. symmetry. apply firstn_skipn.
      * f_equal. change (S start) with (1 + start)%nat.
        rewrite <- skipn_skipn, E. reflexivity.
  - left. rewrite firstn_all2 by lia. rewrite skipn_all2 by lia. apply app_nil_r.
Qed.

Lemma splice1_length (index : Z) (arr : list string) :
  List.length (splice1 index arr) <= List.length arr.
Proof.
  destruct (splice1_cases index arr) as [->|(pre & x & post & E & ->)]; [lia|].
  rewrite E, !length_app. simpl. lia.
Qed.

Lemma splice1_NoDup (index : Z) (arr : list string) :
  NoDup arr -> NoDup (splice1 index arr).
Proof.
  destruct (splice1_cases index arr) as [->|(pre & x & post & E & ->)]; [auto|].
  rewrite E. apply NoDup_remove_1.
Qed.

Lemma splice1_incl (index : Z) (arr : list string) :
  incl (splice1 index arr) arr.
Proof.
  destruct (splice1_cases index arr) as [->|(pre & x & post & E & ->)];
    [apply incl_refl|].
  rewrite E. intros y Hy. apply in_app_iff in Hy. apply in_app_iff.
  destruct Hy; [left | right; right]; assumption.
Qed.

(** [splice(-1, 1)] is the removal of the last element. *)
Lemma splice1_removelast (arr : list string) :
  splice1 (-1) arr = removelast arr.
Proof.
  destruct arr as [|x rest] using rev_ind; [reflexivity|].
  rewrite splice1_minus_one, removelast_last. reflexivity.
Qed.

(** An element that is appended to a list that does not have it is found
    nowhere but at the end. *)
Lemma app_last_unique (l pre post : list string) (x : string) :
  l ++ [x] = pre ++ x :: post -> ~ In x l -> pre = l /\ post = [].
Proof.
  revert pre. induction l as [|y l IH]; intros pre E Hin.
  - destruct pre as [|p pre]; simpl in E.
    + injection E as E. subst post. auto.
    + injection E as _ E. destruct pre; discriminate.
  - destruct pre as [|p pre]; simpl in E.
    + injection E as Ey _. elim Hin. left. exact Ey.
    + injection E as Ey E. subst p.
      destruct (IH pre E (fun H => Hin (or_intror H))) as [-> ->]. auto.
Qed.

Section SelectedMore.

Local Set Default Proof Using "Type".

Variable formatCountryOrRegionNames : string -> string.
Variable getCountriesOfRegion : string -> list string.
Variable isSameCountryName : string -> string -> bool.

Abbreviation fmt := formatCountryOrRegionNames.
Abbreviation add := (addComparisonArea formatCountryOrRegionNames).
Abbreviation remove := (removeComparisonArea formatCountryOrRegionNames).
Abbreviation updateComparison := (updateComparisonArea isSameCountryName).
Abbreviation inList := (isFocusCountryInList isSameCountryName).
Abbreviation setArea' :=
  (setArea formatCountryOrRegionNames getCountriesOfRegion isSameCountryName).
Abbreviation setItems' :=
  (setItems formatCountryOrRegionNames getCountriesOfRegion isSameCountryName).
Abbreviation step' :=
  (step formatCountryOrRegionNames getCountriesOfRegion isSameCountryName).
Abbreviation run' :=
  (run formatCountryOrRegionNames getCountriesOfRegion isSameCountryName).
Abbreviation focus := (focusName formatCountryOrRegionNames).

Lemma remove_absent n s :
  ~ In n (comparisonAreas s) -> remove n s = s.
Proof.
  intros H. unfold removeComparisonArea, indexOf.
  rewrite (indexOf_from_absent _ _ 0 H). reflexivity.
Qed.

Lemma remove_present n s :
  In n (comparisonAreas s) ->
  exists pre post,
    comparisonAreas s = pre ++ n :: post /\ ~ In n pre /\
    comparisonAreas (remove n s) = pre ++ post /\
    allSelectedAreas (remove n s) = focus (area s) :: pre ++ post.
Proof.
  intros H.
  destruct (indexOf_from_present _ _ 0 H) as (pre & post & E & Hpre & Hidx).
  exists pre, post. split; [exact E|]. split; [exact Hpre|].
  unfold removeComparisonArea, indexOf. rewrite Hidx.
  assert (Hpos : (-1 <? 0 + Z.of_nat (List.length pre))%Z = true)
    by (apply Z.ltb_lt; lia).
  rewrite Hpos. cbn zeta.
  unfold updateAllSelectedAreas, focusName.
  cbn [comparisonAreas allSelectedAreas area with_comparisonAreas
       with_allSelectedAreas].
  rewrite E. cbn [Z.add]. rewrite splice1_at.
  split; [reflexivity|]. destruct (negb _); reflexivity.
Qed.

(** X1: [removeComparisonArea] removes the first entry equal to the given
    name and keeps every other entry in its order, putting the shortened list
    behind the focus in [allSelectedAreas]; a name that is not in the list
    leaves the whole object as it is; and on a list without duplicates the
    name is absent afterwards. The focus area is never touched. *)
Theorem removeComparisonArea_removes_first_occurrence :
  forall (n : string) (s : Selected),
    (~ In n (comparisonAreas s) -> remove n s = s) /\
    (In n (comparisonAreas s) ->
     exists pre post,
       comparisonAreas s = pre ++ n :: post /\ ~ In n pre /\
       comparisonAreas (remove n s) = pre ++ post /\
       allSelectedAreas (remove n s) = focus (area s) :: pre ++ post) /\
    (NoDup (comparisonAreas s) -> ~ In n (comparisonAreas (remove n s))) /\
    area (remove n s) = area s.
Proof.
  intros n s. split; [apply remove_absent|]. split; [apply remove_present|].
  split.
  - intros Hnd. destruct (includes_spec (comparisonAreas s) n) as [Hin|Hin].
    + destruct (remove_present n s Hin) as (pre & post & E & _ & -> & _).
      rewrite E in Hnd. apply NoDup_remove_2 in Hnd. exact Hnd.
    + rewrite (remove_absent n s Hin). exact Hin.
  - unfold removeComparisonArea. destruct (_ <? _)%Z; reflexivity.
Qed.

(** X2: a name that [addComparisonArea] has appended is taken out again by
    [removeComparisonArea] on the sanitized name, which gives back the
    comparison list and [allSelectedAreas] of before. [removeComparisonArea]
    does not sanitize: given the name as it was typed, when that differs from
    the sanitized one, it removes nothing. *)
Theorem add_then_remove_restores :
  forall (n : string) (s : Selected),
    region (area s) <> fmt n -> country (area s) <> fmt n ->
    List.length (comparisonAreas s) < 4 -> ~ In (fmt n) (comparisonAreas s) ->
    let s1 := fst (add n s) in
    comparisonAreas s1 = comparisonAreas s ++ [fmt n] /\
    comparisonAreas (remove (fmt n) s1) = comparisonAreas s /\
    allSelectedAreas (remove (fmt n) s1) = focus (area s) :: comparisonAreas s /\
    (fmt n <> n -> ~ In n (comparisonAreas s) -> remove n s1 = s1).
Proof.
  intros n s Hr Hc Hlen Hin s1. subst s1.
  destruct (add_cases fmt n s) as (Ha & _ & _ & _ & Hcases). cbn zeta in Ha, Hcases.
  destruct Hcases as [(_ & _ & _ & _ & E & _)|[(Hrej & _)|(Hfull & _)]];
    [| destruct Hrej as [H|[H|H]]; [elim (Hr H) | elim (Hc H) | elim (Hin H)]
     | lia].
  split; [exact E|].
  assert (Hin1 : In (fmt n) (comparisonAreas (fst (add n s)))).
  { rewrite E. apply in_app_iff. right. left. reflexivity. }
  destruct (remove_present (fmt n) _ Hin1) as (pre & post & E1 & Hpre & E2 & E3).
  assert (Hpp : pre = comparisonAreas s /\ post = []).
  { rewrite E in E1. apply (app_last_unique _ _ _ _ E1 Hin). }
  destruct Hpp as [-> ->]. rewrite app_nil_r in E2, E3. rewrite Ha in E3.
  split; [exact E2|]. split; [exact E3|].
  intros Hne Hn. apply remove_absent. rewrite E. intros H.
  apply in_app_iff in H as [H|[H|[]]]; [exact (Hn H) | exact (Hne H)].
Qed.

Lemma updateComparison_list r c s :
  comparisonAreas (updateComparison r c s) = comparisonAreas s \/
  exists index,
    comparisonAreas (updateComparison r c s) = splice1 index (comparisonAreas s).
Proof.
  unfold updateComparisonArea.
  destruct (inList c s); [destruct c as [c|]; [right; eexists; reflexivity | left; reflexivity]|].
  destruct r as [r|]; [|left; reflexivity].
  destruct (includes _ _); [right; eexists; reflexivity | left; reflexivity].
Qed.

Lemma setArea_list r c s :
  comparisonAreas (setArea' r c s) = comparisonAreas s \/
  exists index,
    comparisonAreas (setArea' r c s) = splice1 index (comparisonAreas s).
Proof.
  rewrite (setArea_comparisonAreas fmt getCountriesOfRegion isSameCountryName).
  apply updateComparison_list.
Qed.

Lemma setArea_keeps_indicator_and_interval r c s :
  indicator (setArea' r c s) = indicator s /\
  timeInterval (setArea' r c s) = timeInterval s.
Proof.
  unfold setArea, updateAllSelectedAreas, updateComparisonArea, setCountry.
  cbn zeta.
  repeat match goal with
         | |- context [match ?x with _ => _ end] => destruct x
         end; split; reflexivity.
Qed.

(** What each method does to the comparison list: it is left as it is, or
    one name is appended to fewer than four that do not have it, or one entry
    is spliced out. *)
Lemma step_list op s :
  let l := comparisonAreas s in
  let l' := comparisonAreas (fst (step' op s)) in
  l' = l \/ (exists x, List.length l < 4 /\ ~ In x l /\ l' = l ++ [x]) \/
  (exists index, l' = splice1 index l).
Proof.
  cbn zeta. destruct op as [n|n|r c|i|lo hi|r c i lo hi|d ev]; cbn [step fst].
  - destruct (add_cases fmt n s) as (_ & _ & _ & _ & Hcases). cbn zeta in Hcases.
    destruct Hcases as [(_ & _ & Hl & Hin & E & _)|[(_ & _ & E & _)|(_ & E & _)]];
      [right; left; exists (fmt n); auto | left; exact E | left; exact E].
  - unfold removeComparisonArea. destruct (_ <? _)%Z; [|left; reflexivity].
    right. right. eexists. reflexivity.
  - destruct (setArea_list r c s) as [E|[idx E]]; [left | right; right; exists idx]; exact E.
  - left. apply (setIndicator_fields i s).
  - left. apply (setTimeInterval_fields lo hi s).
  - unfold setItems. cbn zeta.
    destruct (setTimeInterval_fields lo hi (setIndicator i (setArea' r c s)))
      as (_ & -> & _).
    destruct (setIndicator_fields i (setArea' r c s)) as (_ & -> & _).
    destruct (setArea_list r c s) as [E|[idx E]]; [left | right; right; exists idx]; exact E.
  - left. reflexivity.
Qed.

(** X3: whatever methods are called, in whatever order, a comparison list
    that has at most 4 entries and no duplicate keeps both properties: only
    [addComparisonArea] lengthens the list, by a name it does not have and
    only below four entries, and every other change is the removal of one
    entry. *)
Theorem comparison_list_stays_short_and_duplicate_free :
  forall (ops : list Op) (s : Selected),
    List.length (comparisonAreas s) <= 4 -> NoDup (comparisonAreas s) ->
    let s' := fst (run' ops s) in
    List.length (comparisonAreas s') <= 4 /\ NoDup (comparisonAreas s').
Proof.
  induction ops as [|op rest IH]; intros s Hlen Hnd; cbn [run]; [split; assumption|].
  pose proof (step_list op s) as Hstep. cbn zeta in Hstep.
  destruct (step' op s) as [s1 calls1]. cbn [fst] in Hstep.
  assert (H1 : List.length (comparisonAreas s1) <= 4 /\ NoDup (comparisonAreas s1)).
  { destruct Hstep as [->|[(x & Hl & Hin & ->)|(idx & ->)]].
    - split; assumption.
    - split; [rewrite length_app; simpl; lia|].
      apply NoDup_app; [assumption | repeat constructor; intros [] |].
      intros y Hy [<-|[]]. exact (Hin Hy).
    - split; [pose proof (splice1_length idx (comparisonAreas s)); lia|].
      apply splice1_NoDup. exact Hnd. }
  destruct H1 as [Hlen1 Hnd1]. specialize (IH s1 Hlen1 Hnd1). cbn zeta in IH.
  destruct (run' rest s1) as [s2 calls2]. exact IH.
Qed.

(** X4: [setItems] is [setArea], then [setIndicator], then [setTimeInterval],
    and the three do not interfere: the focus, the comparison list and
    [allSelectedAreas] are those [setArea] leaves; the indicator is replaced
    exactly when the given one is a non-empty string; the interval is replaced
    exactly when both years are given and neither is 0, and is otherwise kept
    whole, also when one of the two years was usable. *)
Theorem setItems_composes :
  forall (r c i : option string) (lo hi : option Z) (s : Selected),
    let s' := setItems' r c i lo hi s in
    area s' = area (setArea' r c s) /\
    comparisonAreas s' = comparisonAreas (setArea' r c s) /\
    allSelectedAreas s' = allSelectedAreas (setArea' r c s) /\
    indicator s' = (match i with
                    | Some x => if String.eqb x "" then indicator s else x
                    | None => indicator s
                    end) /\
    timeInterval s' = (match lo, hi with
                       | Some a, Some b =>
                           if ((a =? 0) || (b =? 0))%Z then timeInterval s
                           else Some (mkTimeInterval a b)
                       | _, _ => timeInterval s
                       end).
Proof.
  intros r c i lo hi s s'. subst s'. unfold setItems. cbn zeta.
  destruct (setArea_keeps_indicator_and_interval r c s) as [Hi Ht].
  set (s1 := setArea' r c s) in *.
  destruct (setIndicator_fields i s1) as (Ha1 & Hl1 & Hal1 & _ & _).
  cbn zeta in Ha1, Hl1, Hal1.
  assert (Hi2 : indicator (setIndicator i s1)
                = match i with
                  | Some x => if String.eqb x "" then indicator s else x
                  | None => indicator s
                  end).
  { unfold setIndicator, truthy_str. destruct i as [x|]; [|exact Hi].
    destruct (String.eqb x ""); [exact Hi | reflexivity]. }
  assert (Ht2 : timeInterval (setIndicator i s1) = timeInterval s).
  { unfold setIndicator. destruct i as [x|]; [|exact Ht].
    destruct (truthy_str _); exact Ht. }
  set (s2 := setIndicator i s1) in *.
  destruct (setTimeInterval_fields lo hi s2) as (Ha2 & Hl2 & Hal2 & _ & _).
  cbn zeta in Ha2, Hl2, Hal2.
  repeat split; try congruence.
  - unfold setTimeInterval.
    destruct lo as [a|], hi as [b|]; try (rewrite Hi2; reflexivity).
    destruct (truthy_year (Some a) && truthy_year (Some b)); exact Hi2.
  - unfold setTimeInterval, truthy_year.
    destruct lo as [a|], hi as [b|]; try exact Ht2.
    destruct (a =? 0)%Z, (b =? 0)%Z; cbn [negb andb orb]; try exact Ht2; reflexivity.
Qed.

(** X5: [setArea] never adds to the comparison list and removes at most one
    entry. With no entry that is the same country as the given country, it
    looks for the region as given (not as sanitized): a region that is absent
    leaves the list as it is, and a region that is present loses its first
    occurrence and nothing else. *)
Theorem setArea_removes_at_most_one_entry :
  forall (r c : option string) (s : Selected),
    (comparisonAreas (setArea' r c s) = comparisonAreas s \/
     exists pre x post,
       comparisonAreas s = pre ++ x :: post /\
       comparisonAreas (setArea' r c s) = pre ++ post) /\
    (inList c s = false ->
     (forall x, r = Some x -> ~ In x (comparisonAreas s)) ->
     comparisonAreas (setArea' r c s) = comparisonAreas s) /\
    (inList c s = false ->
     forall x, r = Some x -> In x (comparisonAreas s) ->
     exists pre post,
       comparisonAreas s = pre ++ x :: post /\ ~ In x pre /\
       comparisonAreas (setArea' r c s) = pre ++ post).
Proof.
  intros r c s. split; [|split].
  - destruct (setArea_list r c s) as [E|[idx E]]; [left; exact E|].
    rewrite E. destruct (splice1_cases idx (comparisonAreas s)) as [E'|H];
      [left; exact E' | right; exact H].
  - intros Hc Hr.
    rewrite (setArea_comparisonAreas fmt getCountriesOfRegion isSameCountryName).
    unfold updateComparisonArea. rewrite Hc.
    destruct r as [x|]; [|reflexivity].
    destruct (includes_spec (comparisonAreas s) x) as [Hin|_]; [|reflexivity].
    elim (Hr x eq_refl Hin).
  - intros Hc x -> Hin.
    rewrite (setArea_comparisonAreas fmt getCountriesOfRegion isSameCountryName).
    unfold updateComparisonArea. rewrite Hc.
    destruct (includes_spec (comparisonAreas s) x) as [_|Hn]; [|elim (Hn Hin)].
    cbn [comparisonAreas with_comparisonAreas].
    apply splice1_indexOf. exact Hin.
Qed.

(** X6: when an entry of the comparison list is the same country as the
    given country under [isSameCountryName], but the given name itself is not
    in the list, [indexOf] answers -1 and [splice(-1, 1)] takes out the last
    entry of the list, whichever it is. *)
Theorem setArea_other_spelling_removes_last_entry :
  forall (r : option string) (c : string) (s : Selected),
    inList (Some c) s = true -> ~ In c (comparisonAreas s) ->
    comparisonAreas (setArea' r (Some c) s) = removelast (comparisonAreas s).
Proof.
  intros r c s Hsame Hin.
  rewrite (setArea_comparisonAreas fmt getCountriesOfRegion isSameCountryName).
  unfold updateComparisonArea. rewrite Hsame.
  cbn [comparisonAreas with_comparisonAreas].
  unfold indexOf. rewrite (indexOf_from_absent _ _ 0 Hin).
  apply splice1_removelast.
Qed.

End SelectedMore.

(** * Further properties of [GeoMap] *)

(** Splits the conjunctions of the goal, and nothing under a binder. *)
Ltac split_ands := repeat match goal with |- _ /\ _ => split end.

(** ** The order of binary64 numbers *)

Lemma SFcompare_le_trans (a b c : spec_float) :
  SFcompare a b = Some Lt \/ SFcompare a b = Some Eq ->
  SFcompare b c = Some Lt \/ SFcompare b c = Some Eq ->
  SFcompare a c = Some Lt \/ SFcompare a c = Some Eq.
Proof.
  destruct a as [[]|[]| |[] ma ea], b as [[]|[]| |[] mb eb],
           c as [[]|[]| |[] mc ec]; simpl;
    intros [H1|H1] [H2|H2]; try discriminate; auto;
    revert H1 H2;
    rewrite !Pos.compare_cont_spec; unfold Pos.switch_Eq;
    destruct (Z.compare_spec ea eb), (Z.compare_spec eb ec),
             (Z.compare_spec ea ec);
    try lia; simpl; try discriminate; auto;
    destruct (Pos.compare_spec ma mb), (Pos.compare_spec mb mc),
             (Pos.compare_spec ma mc);
    try lia; simpl; try discriminate; auto.
Qed.

Lemma leb_SFcompare (a b : float) :
  (a <=? b)%float = true <->
  (SFcompare (Prim2SF a) (Prim2SF b) = Some Lt \/
   SFcompare (Prim2SF a) (Prim2SF b) = Some Eq).
Proof.
  rewrite FloatAxioms.leb_spec. unfold SFleb.
  destruct (SFcompare _ _) as [[]|]; split; auto;
    try discriminate; intros [H|H]; discriminate.
Qed.

Lemma leb_trans (a b c : float) :
  (a <=? b)%float = true -> (b <=? c)%float = true -> (a <=? c)%float = true.
Proof.
  rewrite !leb_SFcompare. apply SFcompare_le_trans.
Qed.

Lemma ltb_leb (a b : float) : (a <? b)%float = true -> (a <=? b)%float = true.
Proof.
  rewrite FloatAxioms.ltb_spec, FloatAxioms.leb_spec. unfold SFltb, SFleb.
  destruct (SFcompare _ _) as [[]|]; auto.
Qed.

Lemma leb_refl_number (v : float) : is_nan v = false -> (v <=? v)%float = true.
Proof. intros H. rewrite leb_refl_is_number, H. reflexivity. Qed.

Lemma ltb_irrefl (v : float) : (v <? v)%float = false.
Proof.
  rewrite FloatAxioms.ltb_spec. unfold SFltb.
  destruct (SFcompare_refl (Prim2SF v)) as [-> | ->]; reflexivity.
Qed.

(** NaN is below nothing. *)
Lemma nan_not_below (d c : float) : is_nan d = true -> (d <? c)%float = false.
Proof.
  intros H. apply is_nan_Prim2SF in H.
  rewrite FloatAxioms.ltb_spec, H. reflexivity.
Qed.

Lemma ltb_is_number (a b : float) :
  (a <? b)%float = true -> is_nan a = false /\ is_nan b = false.
Proof.
  intros H. split.
  - destruct (is_nan a) eqn:E; [|reflexivity].
    rewrite (nan_not_below a b E) in H. discriminate.
  - destruct (is_nan b) eqn:E; [|reflexivity].
    rewrite (nan_not_above a b E) in H. discriminate.
Qed.

(** The numbers that are [===] to 0 are the two zeros. *)
Lemma eqb_zero_Prim2SF (v : float) :
  (v =? 0)%float = true -> exists s, Prim2SF v = S754_zero s.
Proof.
  rewrite FloatAxioms.eqb_spec.
  change (Prim2SF 0) with (S754_zero false). unfold SFeqb.
  destruct (Prim2SF v) as [s|[]| |[] m e]; simpl; try discriminate.
  intros _. exists s. reflexivity.
Qed.

Lemma zeros_not_below (a b : float) :
  (a =? 0)%float = true -> (b =? 0)%float = true -> (a <? b)%float = false.
Proof.
  intros Ha Hb. destruct (eqb_zero_Prim2SF a Ha) as [sa Ea].
  destruct (eqb_zero_Prim2SF b Hb) as [sb Eb].
  rewrite FloatAxioms.ltb_spec, Ea, Eb. reflexivity.
Qed.

Lemma zero_is_number (v : float) : (v =? 0)%float = true -> is_nan v = false.
Proof.
  intros H. destruct (eqb_zero_Prim2SF v H) as [s E].
  destruct (is_nan v) eqn:N; [|reflexivity].
  apply is_nan_Prim2SF in N. congruence.
Qed.

Lemma zero_leb_one (v : float) : (v =? 0)%float = true -> (v <=? 1)%float = true.
Proof.
  intros H. destruct (eqb_zero_Prim2SF v H) as [s E].
  rewrite FloatAxioms.leb_spec, E. reflexivity.
Qed.

Lemma eqb_refl_number (v : float) : is_nan v = false -> (v =? v)%float = true.
Proof. unfold is_nan. intros H. apply negb_false_iff in H. exact H. Qed.

(** ** [d3.extent] and [updateDomain] *)

(** Values that are neither below the minimum nor above the maximum leave
    the two bounds as they are. *)
Lemma extent_fold_inside (values : list JsNumber) (mn mx : float) :
  (forall v, In (Some v) values ->
             (v <? mn)%float = false /\ (mx <? v)%float = false) ->
  fold_left extent_step values (Some mn, Some mx) = (Some mn, Some mx).
Proof.
  induction values as [|[v|] rest IH]; intros H; cbn [fold_left extent_step].
  - reflexivity.
  - destruct (H v (or_introl eq_refl)) as [-> Hmx]. cbn [ToNumber]. rewrite Hmx.
    apply IH. intros w Hw. apply H. right. exact Hw.
  - apply IH. intros w Hw. apply H. right. exact Hw.
Qed.

(** Once the bounds are set, they are numbers, they enclose the numbers that
    follow, and they only move outwards. *)
Lemma extent_fold_bounds (values : list JsNumber) :
  forall mn mx : float,
    is_nan mn = false -> is_nan mx = false -> (mn <=? mx)%float = true ->
    exists mn' mx',
      fold_left extent_step values (Some mn, Some mx) = (Some mn', Some mx') /\
      is_nan mn' = false /\ is_nan mx' = false /\
      (mn' <=? mn)%float = true /\ (mx <=? mx')%float = true /\
      (forall v, In (Some v) values -> is_nan v = false ->
                 (mn' <=? v)%float = true /\ (v <=? mx')%float = true).
Proof.
  induction values as [|[v|] rest IH]; intros mn mx Hmn Hmx Hle;
    cbn [fold_left extent_step ToNumber].
  - exists mn, mx. split_ands; try assumption; try reflexivity;
      try (apply leb_refl_number; assumption). intros v [].
  - set (mn1 := if (v <? mn)%float then v else mn).
    set (mx1 := if (mx <? v)%float then v else mx).
    assert (Hmx1 : (if (mx <? v)%float then Some v else Some mx) = Some mx1)
      by (unfold mx1; destruct (mx <? v)%float; reflexivity).
    rewrite Hmx1.
    assert (N1 : is_nan mn1 = false).
    { unfold mn1. destruct (v <? mn)%float eqn:E; [|exact Hmn].
      apply (ltb_is_number _ _ E). }
    assert (N2 : is_nan mx1 = false).
    { unfold mx1. destruct (mx <? v)%float eqn:E; [|exact Hmx].
      apply (ltb_is_number _ _ E). }
    assert (L1 : (mn1 <=? mn)%float = true).
    { unfold mn1. destruct (v <? mn)%float eqn:E;
        [apply ltb_leb; exact E | apply leb_refl_number; exact Hmn]. }
    assert (L2 : (mx <=? mx1)%float = true).
    { unfold mx1. destruct (mx <? v)%float eqn:E;
        [apply ltb_leb; exact E | apply leb_refl_number; exact Hmx]. }
    assert (Hle1 : (mn1 <=? mx1)%float = true)
      by (apply (leb_trans _ mn); [exact L1 | apply (leb_trans _ mx); assumption]).
    destruct (IH mn1 mx1 N1 N2 Hle1) as (mn' & mx' & E & N1' & N2' & L1' & L2' & Hall).
    exists mn', mx'. split; [exact E|].
    split_ands; try assumption.
    + apply (leb_trans _ mn1); assumption.
    + apply (leb_trans _ mx1); assumption.
    + intros w [H|H] Hw; [|apply (Hall _ H Hw)].
      injection H as <-. split.
      * apply (leb_trans _ mn1); [exact L1'|].
        unfold mn1. destruct (v <? mn)%float eqn:E';
          [apply leb_refl_number; exact Hw | apply not_ltb_leb; assumption].
      * apply (leb_trans _ mx1); [|exact L2'].
        unfold mx1. destruct (mx <? v)%float eqn:E';
          [apply leb_refl_number; exact Hw | apply not_ltb_leb; assumption].
  - destruct (IH mn mx Hmn Hmx Hle) as (mn' & mx' & E & N1' & N2' & L1' & L2' & Hall).
    exists mn', mx'. split_ands; try assumption.
    intros w [H|H] Hw; [discriminate | apply (Hall _ H Hw)].
Qed.

(** Until the first number, the bounds stay unset. *)
Lemma extent_first_number (values : list JsNumber) :
  ((forall v, In (Some v) values -> is_nan v = true) /\
   d3_extent values = (None, None)) \/
  (exists pre v0 post,
      values = pre ++ Some v0 :: post /\ is_nan v0 = false /\
      (forall v, In (Some v) pre -> is_nan v = true) /\
      d3_extent values = fold_left extent_step post (Some v0, Some v0)).
Proof.
  unfold d3_extent.
  induction values as [|[v|] rest IH]; cbn [fold_left extent_step].
  - left. split; [intros v []|reflexivity].
  - rewrite leb_refl_is_number. destruct (is_nan v) eqn:N; cbn [negb].
    + destruct IH as [[Hall E]|(pre & v0 & post & E & N0 & Hpre & Ef)].
      * left. split; [|exact E]. intros w [H|H]; [congruence | apply Hall, H].
      * right. exists (Some v :: pre), v0, post.
        split; [rewrite E; reflexivity|]. split; [exact N0|].
        split; [|exact Ef].
        intros w [H|H]; [congruence | apply Hpre, H].
    + right. exists [], v, rest.
      split; [reflexivity|]. split; [exact N|]. split; [intros w []|reflexivity].
  - destruct IH as [[Hall E]|(pre & v0 & post & E & N0 & Hpre & Ef)].
    + left. split; [|exact E]. intros w [H|H]; [discriminate | apply Hall, H].
    + right. exists (None :: pre), v0, post.
      split; [rewrite E; reflexivity|]. split; [exact N0|].
      split; [|exact Ef].
      intros w [H|H]; [discriminate | apply Hpre, H].
Qed.

Lemma in_values (g : JsMap JsNumber) (v : JsNumber) :
  In v (map snd g) <-> exists k, In (k, v) g.
Proof.
  rewrite in_map_iff. split.
  - intros ([k w] & E & H). simpl in E. subst w. exists k. exact H.
  - intros (k & H). exists (k, v). split; [reflexivity | exact H].
Qed.

(** X9: when there is no aggregate that is a number, the domain is
    [undefined, undefined]; otherwise both ends of the domain are numbers, the
    lower is at most the upper, and every aggregate that is a number lies
    between them, the two ends included. *)
Theorem updateDomain_encloses_the_aggregates :
  forall g : JsMap JsNumber,
    ((forall k v, In (k, Some v) g -> is_nan v = true) ->
     updateDomain g = (None, None)) /\
    (forall k0 v0, In (k0, Some v0) g -> is_nan v0 = false ->
     exists lo hi,
       updateDomain g = (Some lo, Some hi) /\
       is_nan lo = false /\ is_nan hi = false /\ (lo <=? hi)%float = true /\
       forall k v, In (k, Some v) g -> is_nan v = false ->
                   (lo <=? v)%float = true /\ (v <=? hi)%float = true).
Proof.
  intros g. unfold updateDomain.
  destruct (extent_first_number (map snd g))
    as [[Hall E]|(pre & v0 & post & Eg & N0 & Hpre & E)].
  - split.
    + intros _. rewrite E. reflexivity.
    + intros k0 w0 Hin Hn. rewrite (Hall w0) in Hn; [discriminate|].
      apply in_values. exists k0. exact Hin.
  - assert (Hin0 : exists k, In (k, Some v0) g).
    { apply in_values. rewrite Eg. apply in_app_iff. right. left. reflexivity. }
    split.
    + intros Hall. destruct Hin0 as [k Hk]. rewrite (Hall k v0 Hk) in N0.
      discriminate.
    + intros _ _ _ _.
      destruct (extent_fold_bounds post v0 v0 N0 N0 (leb_refl_number v0 N0))
        as (mn & mx & Ef & Nmn & Nmx & Lmn & Lmx & Hpost).
      rewrite E, Ef. cbn [strict_eq].
      assert (Hlohi : (mn <=? mx)%float = true)
        by (apply (leb_trans _ v0); assumption).
      assert (Hall : forall k v, In (k, Some v) g -> is_nan v = false ->
                                 (mn <=? v)%float = true /\ (v <=? mx)%float = true).
      { intros k v Hin Hn.
        assert (Hv : In (Some v) (map snd g)) by (apply in_values; exists k; exact Hin).
        rewrite Eg in Hv. apply in_app_iff in Hv as [Hv|[Hv|Hv]].
        - rewrite (Hpre v Hv) in Hn. discriminate.
        - injection Hv as <-. split; assumption.
        - apply (Hpost v Hv Hn). }
      destruct ((mx =? 0)%float && (mx =? mn)%float) eqn:Z.
      * apply andb_true_iff in Z as [Z0 _].
        exists mn, 1%float. split_ands; try assumption; try reflexivity.
        -- apply (leb_trans _ mx); [exact Hlohi | apply zero_leb_one; exact Z0].
        -- intros k v Hin Hn. destruct (Hall k v Hin Hn) as [H1 H2].
           split; [exact H1|].
           apply (leb_trans _ mx); [exact H2 | apply zero_leb_one; exact Z0].
      * exists mn, mx. split_ands; try assumption; reflexivity.
Qed.

(** X10: the rule for a degenerate domain. When every aggregate is 0 (or
    -0), the domain is from that 0 to 1. When every aggregate is one and the
    same number other than 0, nothing is widened: the domain is from that
    number to itself. *)
Theorem updateDomain_of_equal_aggregates :
  forall g : JsMap JsNumber,
    g <> [] ->
    ((forall k v, In (k, v) g -> exists z, v = Some z /\ (z =? 0)%float = true) ->
     exists lo, updateDomain g = (Some lo, Some 1%float) /\
                (lo =? 0)%float = true) /\
    (forall x, is_nan x = false -> (x =? 0)%float = false ->
               (forall k v, In (k, v) g -> v = Some x) ->
               updateDomain g = (Some x, Some x)).
Proof.
  intros [|[k0 w0] rest] Hne; [contradiction Hne; reflexivity|]. split.
  - intros Hall.
    destruct (Hall k0 w0 (or_introl eq_refl)) as (z0 & -> & Z0).
    exists z0. split; [|exact Z0].
    unfold updateDomain, d3_extent. cbn [map snd fold_left extent_step].
    rewrite (leb_refl_number z0 (zero_is_number z0 Z0)).
    rewrite extent_fold_inside.
    + cbn [strict_eq]. rewrite Z0, (eqb_refl_number z0 (zero_is_number z0 Z0)).
      reflexivity.
    + intros v Hv. apply in_values in Hv as [k Hk].
      destruct (Hall k (Some v) (or_intror Hk)) as (z & E & Z). injection E as <-.
      split; apply zeros_not_below; assumption.
  - intros x Nx Zx Hall.
    rewrite (Hall k0 w0 (or_introl eq_refl)).
    unfold updateDomain, d3_extent. cbn [map snd fold_left extent_step].
    rewrite (leb_refl_number x Nx).
    rewrite extent_fold_inside.
    + cbn [strict_eq]. rewrite Zx. reflexivity.
    + intros v Hv. apply in_values in Hv as [k Hk].
      pose proof (Hall k (Some v) (or_intror Hk)) as E. injection E as ->.
      split; apply ltb_irrefl.
Qed.

(** ** The keys of [groupedData] *)

Lemma group_insert_keys {A} (k : string) (x : A) (groups : JsMap (list A)) :
  Map_keys (group_insert k x groups) =
  if includes (Map_keys groups) k then Map_keys groups
  else Map_keys groups ++ [k].
Proof.
  unfold Map_keys. induction groups as [|[k1 xs] rest IH]; cbn [group_insert map fst includes app].
  - reflexivity.
  - destruct (String.eqb_spec k1 k) as [->|Hne]; cbn [map fst].
    + reflexivity.
    + rewrite IH. destruct (includes (map fst rest) k); reflexivity.
Qed.

Lemma filter_filter {A} (f g : A -> bool) (l : list A) :
  filter f (filter g l) = filter (fun x => g x && f x) l.
Proof.
  induction l as [|x l IH]; simpl; [reflexivity|].
  destruct (g x); simpl; [destruct (f x)|]; rewrite IH; reflexivity.
Qed.

Lemma first_occurrences_In (l : list string) (x : string) :
  In x (first_occurrences l) <-> In x l.
Proof.
  induction l as [|y l IH]; cbn [first_occurrences]; [reflexivity|].
  split.
  - intros [->|H]; [left; reflexivity|].
    apply filter_In in H as [H _]. right. apply IH, H.
  - intros [->|H]; [left; reflexivity|].
    destruct (String.eqb_spec x y) as [->|Hne]; [left; reflexivity|].
    right. apply filter_In. split; [apply IH, H|].
    apply negb_true_iff, String.eqb_neq. exact Hne.
Qed.

Lemma first_occurrences_NoDup (l : list string) : NoDup (first_occurrences l).
Proof.
  induction l as [|y l IH]; cbn [first_occurrences]; constructor.
  - intros H. apply filter_In in H as [_ H].
    rewrite String.eqb_refl in H. discriminate.
  - apply NoDup_filter. exact IH.
Qed.

Section GroupKeys.

Context {A : Type}.
Variable key : A -> string.

Lemma group_fold_keys (values : list A) (acc : JsMap (list A)) :
  Map_keys (fold_left (fun groups x => group_insert (key x) x groups) values acc)
  = Map_keys acc
    ++ filter (fun k => negb (includes (Map_keys acc) k))
              (first_occurrences (map key values)).
Proof.
  revert acc. induction values as [|x rest IH]; intros acc;
    cbn [fold_left map first_occurrences filter].
  - rewrite app_nil_r. reflexivity.
  - rewrite IH, group_insert_keys.
    destruct (includes_spec (Map_keys acc) (key x)) as [Hin|Hin]; cbn [negb].
    + f_equal. rewrite filter_filter. apply filter_ext_in. intros k _.
      destruct (includes_spec (Map_keys acc) k) as [Hk|Hk];
        destruct (String.eqb_spec k (key x)) as [E|E]; cbn [negb andb];
        try reflexivity.
      subst k. elim (Hk Hin).
    + rewrite <- app_assoc. cbn [app]. f_equal. f_equal.
      rewrite filter_filter. apply filter_ext_in. intros k _.
      destruct (includes_spec (Map_keys acc ++ [key x]) k) as [Hk|Hk];
        destruct (includes_spec (Map_keys acc) k) as [Hk'|Hk'];
        destruct (String.eqb_spec k (key x)) as [E|E]; cbn [negb andb];
        try reflexivity; exfalso.
      * apply Hk'. apply in_app_iff in Hk as [Hk|[Hk|[]]]; [exact Hk|].
        elim E. symmetry. exact Hk.
      * apply Hk. apply in_app_iff. left. exact Hk'.
      * apply Hk. apply in_app_iff. left. exact Hk'.
      * apply Hk. apply in_app_iff. right. left. symmetry. exact E.
Qed.

Lemma d3_rollup_keys {V} (reduce : list A -> V) (values : list A) :
  Map_keys (d3_rollup values reduce key) = first_occurrences (map key values).
Proof.
  unfold d3_rollup, Map_keys. rewrite map_map. cbn [fst].
  change (map (fun kv : string * list A => fst kv)) with (@Map_keys (list A)).
  unfold d3_group. rewrite group_fold_keys. cbn [Map_keys map app includes negb].
  induction (first_occurrences (map key values)) as [|k l IH];
    cbn [filter]; [reflexivity|]. rewrite IH. reflexivity.
Qed.

End GroupKeys.

(** The loop over the keys of [updateData] is one [delete]. *)
Lemma delete_WLD_loop {V} (keys : list string) (m : JsMap V) :
  fold_left (fun grouped countryCode =>
               if String.eqb countryCode "WLD"
               then Map_delete grouped countryCode
               else grouped) keys m
  = if includes keys "WLD" then Map_delete m "WLD" else m.
Proof.
  revert m. induction keys as [|k rest IH]; intros m; cbn [fold_left includes].
  - reflexivity.
  - rewrite IH. destruct (String.eqb_spec k "WLD") as [->|Hne]; [|reflexivity].
    destruct (includes rest "WLD"); [|reflexivity].
    unfold Map_delete. rewrite filter_filter. apply filter_ext.
    intros kv. apply andb_diag.
Qed.

Lemma Map_delete_absent {V} (m : JsMap V) (k : string) :
  includes (Map_keys m) k = false -> Map_delete m k = m.
Proof.
  unfold Map_delete, Map_keys.
  induction m as [|[k1 v] rest IH]; cbn [map fst includes filter]; [reflexivity|].
  destruct (String.eqb_spec k1 k) as [->|Hne]; [discriminate|].
  intros H. cbn [negb]. rewrite (IH H). reflexivity.
Qed.

Lemma updateData_delete data years ind :
  updateData data years ind
  = Map_delete (d3_rollup (filteredData data years ind)
                          (fun v => d3_mean (map Value v)) CountryCode) "WLD".
Proof.
  unfold updateData. rewrite delete_WLD_loop.
  destruct (includes _ _) eqn:E; [reflexivity|].
  symmetry. apply Map_delete_absent. exact E.
Qed.

Lemma Map_delete_keys {V} (m : JsMap V) (k : string) :
  Map_keys (Map_delete m k)
  = filter (fun k' => negb (String.eqb k' k)) (Map_keys m).
Proof.
  unfold Map_delete, Map_keys.
  induction m as [|[k1 v] rest IH]; cbn [map fst filter]; [reflexivity|].
  destruct (String.eqb k1 k); cbn [negb map fst]; rewrite IH; reflexivity.
Qed.

(** X7: the keys of [groupedData] are the country codes of the records that
    pass the filter, each once, in the order in which the codes first occur in
    the data, without ["WLD"]. *)
Theorem updateData_keys_in_order_of_first_record :
  forall (data : list Observation) (years : list Z) (ind : string),
    Map_keys (updateData data years ind)
    = filter (fun k => negb (String.eqb k "WLD"))
             (first_occurrences (map CountryCode (filteredData data years ind))) /\
    NoDup (Map_keys (updateData data years ind)).
Proof.
  intros data years ind.
  rewrite updateData_delete, Map_delete_keys, d3_rollup_keys.
  split; [reflexivity|]. apply NoDup_filter, first_occurrences_NoDup.
Qed.

(** X8: when no record passes the filter (no data, no selected year, an
    indicator without records), [groupedData] is empty, and so the domain of
    the scale is [undefined, undefined]. *)
Theorem updateData_without_matching_record :
  forall (data : list Observation) (years : list Z) (ind : string),
    (forall d, In d data -> ~ matching years ind d) ->
    updateData data years ind = [] /\
    updateDomain (updateData data years ind) = (None, None).
Proof.
  intros data years ind Hnone.
  assert (E : filteredData data years ind = []).
  { destruct (filteredData data years ind) as [|d l] eqn:E; [reflexivity|].
    assert (H : In d (filteredData data years ind)) by (rewrite E; left; reflexivity).
    apply filteredData_In in H as [H M]. elim (Hnone d H M). }
  assert (E' : updateData data years ind = []).
  { rewrite updateData_delete, E. reflexivity. }
  rewrite E'. split; reflexivity.
Qed.

(** ** Class names and [parseInt] *)

Lemma digits_prefix_uint (u : Decimal.uint) :
  digits_prefix (NilEmpty.string_of_uint u) = NilEmpty.string_of_uint u.
Proof.
  induction u; cbn [NilEmpty.string_of_uint digits_prefix]; [reflexivity|..];
    (match goal with
     | |- (if ?b then _ else _) = _ => change b with true
     end; cbn iota; rewrite IHu; reflexivity).
Qed.

Lemma string_of_uint_nonempty (u : Decimal.uint) :
  u <> Decimal.Nil ->
  exists c rest, NilEmpty.string_of_uint u = String c rest /\ is_digit c = true.
Proof.
  destruct u; intros H; [contradiction H; reflexivity|..];
    cbn [NilEmpty.string_of_uint]; eexists; eexists; split; reflexivity.
Qed.

Lemma parse_decimal_uint (u : Decimal.uint) :
  u <> Decimal.Nil ->
  parse_decimal (NilEmpty.string_of_uint u) = Some (Z.of_N (N.of_uint u)).
Proof.
  intros H. unfold parse_decimal. rewrite digits_prefix_uint.
  destruct (string_of_uint_nonempty u H) as (c & rest & E & _).
  rewrite E, <- E, NilEmpty.usu. reflexivity.
Qed.

(** A string that starts with a decimal digit, and not with [0x], is read in
    base 10 from its first character. *)
Lemma parseInt_digit_start (c : ascii) (rest : string) :
  is_digit c = true ->
  (forall x r, c = "0"%char -> rest = String x r -> is_digit x = true) ->
  parseInt (String c rest) = option_map (Z.mul 1) (parse_decimal (String c rest)).
Proof.
  intros Hd H0.
  destruct c as [[] [] [] [] [] [] [] []]; try discriminate Hd; try reflexivity.
  destruct rest as [|x r]; [reflexivity|].
  specialize (H0 x r eq_refl eq_refl).
  destruct x as [[] [] [] [] [] [] [] []]; try discriminate H0; reflexivity.
Qed.

Lemma parseInt_uint (u : Decimal.uint) :
  u <> Decimal.Nil ->
  parseInt (NilEmpty.string_of_uint u) = Some (Z.of_N (N.of_uint u)).
Proof.
  intros H. destruct (string_of_uint_nonempty u H) as (c & rest & E & Hc).
  rewrite E, parseInt_digit_start, <- E, parse_decimal_uint by
      first [assumption
            | intros x r -> Er;
              destruct u as [|u|u|u|u|u|u|u|u|u|u]; try discriminate E;
              injection E as <-;
              destruct u; try discriminate Er; injection Er as <- _; reflexivity].
  cbn [option_map]. f_equal. apply Z.mul_1_l.
Qed.

Lemma Z_toString_pos (p : positive) :
  Z_toString (Zpos p) = NilEmpty.string_of_uint (Pos.to_uint p).
Proof.
  unfold Z_toString. cbn [Z.to_int NilZero.string_of_int].
  unfold NilZero.string_of_uint.
  pose proof (DecimalPos.Unsigned.to_uint_nonnil p) as H.
  destruct (Pos.to_uint p); [contradiction H; reflexivity|..]; reflexivity.
Qed.

Lemma Z_toString_neg (p : positive) :
  Z_toString (Zneg p) = String "-" (NilEmpty.string_of_uint (Pos.to_uint p)).
Proof.
  unfold Z_toString. cbn [Z.to_int NilZero.string_of_int].
  unfold NilZero.string_of_uint.
  pose proof (DecimalPos.Unsigned.to_uint_nonnil p) as H.
  destruct (Pos.to_uint p); [contradiction H; reflexivity|..]; reflexivity.
Qed.

(** [parseInt] reads back what a positive whole number is written as. *)
Lemma parseInt_Z_toString (z : Z) :
  (0 < z)%Z -> parseInt (Z_toString z) = Some z.
Proof.
  destruct z as [|p|p]; try lia. intros _.
  rewrite Z_toString_pos, parseInt_uint by apply DecimalPos.Unsigned.to_uint_nonnil.
  f_equal. unfold N.of_uint. rewrite DecimalPos.Unsigned.of_to. reflexivity.
Qed.

(** A part that has no separator is one part; and the parts of a string are
    those before and those after a separator. *)
Lemma split_on_app (sep : ascii) (s1 s2 : string) :
  split_on sep s1 = [s1] ->
  split_on sep (s1 ++ String sep s2) = s1 :: split_on sep s2.
Proof.
  induction s1 as [|c r IH]; cbn [split_on String.append]; intros H.
  - rewrite Ascii.eqb_refl. reflexivity.
  - destruct (Ascii.eqb c sep); [discriminate|].
    destruct (split_on sep r) as [|part parts] eqn:E.
    + injection H as H. subst r. cbn in E. discriminate.
    + injection H as -> ->. rewrite (IH eq_refl). reflexivity.
Qed.

Lemma Z_toString_first (z : Z) :
  exists c rest,
    Z_toString z = String c rest /\ (is_digit c = true \/ c = "-"%char).
Proof.
  destruct z as [|p|p].
  - exists "0"%char, EmptyString. split; [reflexivity | left; reflexivity].
  - rewrite Z_toString_pos.
    destruct (string_of_uint_nonempty _ (DecimalPos.Unsigned.to_uint_nonnil p))
      as (c & rest & E & Hc).
    exists c, rest. split; [exact E | left; exact Hc].
  - rewrite Z_toString_neg. eexists; eexists. split; [reflexivity | right; reflexivity].
Qed.

Lemma Z_toString_inj (a b : Z) : Z_toString a = Z_toString b -> a = b.
Proof.
  unfold Z_toString. intros H.
  assert (Hnn : forall z, Z.to_int z <> Decimal.Pos Decimal.Nil /\
                          Z.to_int z <> Decimal.Neg Decimal.Nil).
  { intros [|p|p]; cbn [Z.to_int]; split; try discriminate; intros E;
      injection E as E; exact (DecimalPos.Unsigned.to_uint_nonnil p E). }
  apply (f_equal NilZero.int_of_string) in H.
  rewrite !NilZero.isi in H by apply Hnn.
  injection H as H. apply DecimalZ.to_int_inj. exact H.
Qed.

(** What is written for a number is written for no other identifier. *)
Lemma JsId_toString_num (code : JsId) (z : Z) :
  JsId_toString code = Z_toString z -> code = IdNum z.
Proof.
  destruct (Z_toString_first z) as (c & rest & E & Hc).
  destruct code as [| | | |z']; cbn [JsId_toString]; intros H;
    try (rewrite E in H; injection H as <- _;
         destruct Hc as [Hc|Hc]; discriminate Hc).
  f_equal. apply Z_toString_inj. exact H.
Qed.

Lemma hoveredCode_base_positive (d : Feature) (noClass : JsId) :
  (0 < id d)%Z ->
  hoveredCode noClass (layerClasses "map-country" d) = IdNum (id d).
Proof.
  unfold hoveredCode, layerClasses.
  intros Hpos. destruct (Z.eqb_spec (id d) 0) as [E|_]; [lia|].
    cbn [negb nth_error]. cbn [truthy_str String.append String.eqb negb].
    unfold parse_class.
    change (String "m" (String "a" (String "p" (String "-"
              (String "c" (String "o" (String "u" (String "n" (String "t"
                (String "r" (String "y" (String "-" (Z_toString (id d))))))))))))))
      with ("map" ++ String "-" ("country" ++ String "-" (Z_toString (id d))))%string.
    rewrite !split_on_app by reflexivity. cbn [nth].
    destruct (id d) as [|p|p]; try lia.
    rewrite Z_toString_pos.
    assert (Hs : split_on "-" (NilEmpty.string_of_uint (Pos.to_uint p))
                 = [NilEmpty.string_of_uint (Pos.to_uint p)]).
    { pose proof (digits_prefix_uint (Pos.to_uint p)) as Hd.
      induction (NilEmpty.string_of_uint (Pos.to_uint p)) as [|c r IH];
        [reflexivity|].
      cbn [digits_prefix] in Hd. destruct (is_digit c) eqn:Hc; [|discriminate].
      injection Hd as Hd. cbn [split_on].
      destruct (Ascii.eqb_spec c "-") as [->|_]; [discriminate Hc|].
      rewrite (IH Hd). reflexivity. }
    rewrite Hs. cbn [nth].
    rewrite <- Z_toString_pos, parseInt_Z_toString by lia. reflexivity.
Qed.

Lemma hoveredCode_base_negative (d : Feature) (noClass : JsId) :
  (id d < 0)%Z ->
  hoveredCode noClass (layerClasses "map-country" d) = IdNaN.
Proof.
  unfold hoveredCode, layerClasses.
  intros Hneg. destruct (Z.eqb_spec (id d) 0) as [E|_]; [lia|].
    cbn [negb nth_error]. cbn [truthy_str String.append String.eqb negb].
    destruct (id d) as [|p|p]; try lia. rewrite Z_toString_neg.
    unfold parse_class.
    change (String "m" (String "a" (String "p" (String "-"
              (String "c" (String "o" (String "u" (String "n" (String "t"
                (String "r" (String "y" (String "-" (String "-" ?s)))))))))))))
      with ("map" ++ String "-" ("country" ++ String "-"
              ("" ++ String "-" s)))%string.
    rewrite !split_on_app by reflexivity. reflexivity.
Qed.

Lemma hoveredCode_selected_layer (d : Feature) (noClass : JsId) :
  id d <> 0%Z ->
  hoveredCode noClass (layerClasses "map-selected-country" d) = IdNaN.
Proof.
  unfold hoveredCode, layerClasses.
  intros Hnz. destruct (Z.eqb_spec (id d) 0) as [E|_]; [contradiction|].
    cbn [negb nth_error]. cbn [truthy_str String.append String.eqb negb].
    unfold parse_class.
    change (String "m" (String "a" (String "p" (String "-" ?s))))
      with ("map" ++ String "-" s)%string.
    rewrite split_on_app by reflexivity.
    change (String "s" (String "e" (String "l" (String "e" (String "c"
              (String "t" (String "e" (String "d" (String "-" ?s)))))))))
      with ("selected" ++ String "-" s)%string.
    rewrite split_on_app by reflexivity.
    change (String "c" (String "o" (String "u" (String "n" (String "t"
              (String "r" (String "y" (String "-" ?s))))))))
      with ("country" ++ String "-" s)%string.
    rewrite split_on_app by reflexivity. reflexivity.
Qed.

(** X11: the code read off a hovered element. A path of the base layer
    whose feature has a positive [id] gives that [id]. A path of the selected
    layer never does: its class has one part more, so the part that is read
    is the word "country", and the code is NaN. A negative [id] reads as NaN
    too, and an element without a second class gives [false] on [mouseenter]
    and [null] on [mouseleave]. *)
Theorem hoveredCode_of_layer_classes :
  forall (d : Feature) (noClass : JsId),
    ((0 < id d < 2 ^ 53)%Z ->
     hoveredCode noClass (layerClasses "map-country" d) = IdNum (id d)) /\
    ((id d < 0)%Z ->
     hoveredCode noClass (layerClasses "map-country" d) = IdNaN) /\
    (id d <> 0%Z ->
     hoveredCode noClass (layerClasses "map-selected-country" d) = IdNaN) /\
    (id d = 0%Z ->
     forall layer, hoveredCode noClass (layerClasses layer d) = noClass).
Proof.
  intros d noClass. split_ands.
  - intros [Hpos _]. apply hoveredCode_base_positive. exact Hpos.
  - apply hoveredCode_base_negative.
  - apply hoveredCode_selected_layer.
  - intros E layer. unfold hoveredCode, layerClasses. rewrite E. reflexivity.
Qed.

(** ** The legend *)

Lemma getTileColor_nan (v : JsNumber) :
  is_nan (ToNumber v) = true -> getTileColor v = "#808080".
Proof.
  intros H. unfold getTileColor. rewrite !(nan_not_above _ _ H), H. reflexivity.
Qed.

(** X12: the six boxes of the legend have six different colours, and the
    colour of a box is the colour of the tiles whose scaled value is at most
    the bin of the box and above the bin of the next box (the box above the
    gray one takes everything up to its bin); the first box also takes what
    is above its bin, and the box of the NaN bin has the colour of the tiles
    without a value. So the value a box is labelled with is the upper end of
    its range, the end included. *)
Theorem legend_boxes_agree_with_tile_colours :
  NoDup (map box_fill legendColourBoxes) /\
  (forall (d : float) (i : nat) (b1 b2 : LegendBox),
      nth_error legendColourBoxes i = Some b1 ->
      nth_error legendColourBoxes (S i) = Some b2 ->
      (d <=? box_bin b1)%float = true ->
      (if is_nan (box_bin b2) then true else (box_bin b2 <? d)%float) = true ->
      getTileColor (Some d) = box_fill b1) /\
  (forall (d : float) (b : LegendBox),
      hd_error legendColourBoxes = Some b -> (box_bin b <? d)%float = true ->
      getTileColor (Some d) = box_fill b) /\
  (forall (v : JsNumber) (b : LegendBox),
      is_nan (ToNumber v) = true ->
      In b legendColourBoxes -> is_nan (box_bin b) = true ->
      getTileColor v = box_fill b).
Proof.
  assert (H68 : (0.6 <? 0.8)%float = true) by reflexivity.
  assert (H46 : (0.4 <? 0.6)%float = true) by reflexivity.
  assert (H24 : (0.2 <? 0.4)%float = true) by reflexivity.
  assert (H81 : (0.8 <? 1)%float = true) by reflexivity.
  split_ands.
  - cbv. repeat constructor; cbn; intuition discriminate.
  - intros d i b1 b2 E1 E2 Hle Hgt.
    destruct i as [|[|[|[|[|[|i]]]]]];
      try (destruct i; discriminate E2); try discriminate E2;
      injection E1 as <-; injection E2 as <-;
      cbn [box_bin] in Hle, Hgt; cbn [box_fill]; unfold getTileColor; cbn [ToNumber].
    + change (is_nan 0.8) with false in Hgt. cbn iota in Hgt. rewrite Hgt. reflexivity.
    + change (is_nan 0.6) with false in Hgt. cbn iota in Hgt.
      rewrite (leb_not_ltb _ _ Hle), Hgt. reflexivity.
    + change (is_nan 0.4) with false in Hgt. cbn iota in Hgt.
      apply leb_not_ltb in Hle.
      rewrite (not_above_higher 0.6 0.8 d H68 Hle), Hle, Hgt. reflexivity.
    + change (is_nan 0.2) with false in Hgt. cbn iota in Hgt.
      apply leb_not_ltb in Hle.
      pose proof (not_above_higher 0.4 0.6 d H46 Hle) as H6.
      rewrite (not_above_higher 0.6 0.8 d H68 H6), H6, Hle, Hgt. reflexivity.
    + pose proof (leb_is_number _ _ Hle) as Hn. apply leb_not_ltb in Hle.
      pose proof (not_above_higher 0.2 0.4 d H24 Hle) as H4.
      pose proof (not_above_higher 0.4 0.6 d H46 H4) as H6.
      rewrite (not_above_higher 0.6 0.8 d H68 H6), H6, H4, Hle, Hn. reflexivity.
  - intros d b E Hgt. injection E as <-. cbn [box_bin] in Hgt. cbn [box_fill].
    unfold getTileColor. cbn [ToNumber].
    rewrite (ltb_trans 0.8 1 d H81 Hgt). reflexivity.
  - intros v b Hv Hin Hb. rewrite (getTileColor_nan v Hv).
    cbv [legendColourBoxes renderLegendColourBoxes legendBoxes_from legendBins] in Hin.
    repeat (destruct Hin as [<-|Hin]; [try discriminate Hb; try reflexivity|]).
    destruct Hin.
Qed.

(** ** The two layers and the pointer *)

Lemma set_stroke_twice (cls c1 c2 : string) (paths : list Path) :
  set_stroke cls c2 (set_stroke cls c1 paths) = set_stroke cls c2 paths.
Proof.
  unfold set_stroke. rewrite map_map. apply map_ext. intros p.
  destruct (includes (path_classes p) cls) eqn:E; cbn [path_classes];
    rewrite E; reflexivity.
Qed.

Lemma set_stroke_same (cls colour : string) (paths : list Path) :
  (forall p, In p paths -> includes (path_classes p) cls = true ->
             path_stroke p = colour) ->
  set_stroke cls colour paths = paths.
Proof.
  intros H. unfold set_stroke. rewrite <- (map_id paths) at 2.
  apply map_ext_in. intros p Hp.
  destruct (includes (path_classes p) cls) eqn:E; [|reflexivity].
  rewrite <- (H p Hp E). destruct p; reflexivity.
Qed.

(** Which paths carry the class of a country in a layer. *)
Lemma selected_class_of_selected_path (d : Feature) (t : string) :
  includes (layerClasses "map-selected-country" d)
           ("map-selected-country-" ++ t) = true ->
  t = Z_toString (id d).
Proof.
  unfold layerClasses. destruct (negb (id d =? 0)%Z); cbn; [|discriminate].
  destruct (String.eqb_spec (Z_toString (id d)) t) as [E|_];
    [auto | discriminate].
Qed.

Lemma base_class_of_base_path (d : Feature) (t : string) :
  includes (layerClasses "map-country" d) ("map-country-" ++ t) = true ->
  t = Z_toString (id d).
Proof.
  unfold layerClasses. destruct (negb (id d =? 0)%Z); cbn; [|discriminate].
  destruct (String.eqb_spec (Z_toString (id d)) t) as [E|_];
    [auto | discriminate].
Qed.

Lemma selected_class_not_on_base_path (d : Feature) (t : string) :
  includes (layerClasses "map-country" d) ("map-selected-country-" ++ t) = false.
Proof. unfold layerClasses. destruct (negb (id d =? 0)%Z); reflexivity. Qed.

Lemma base_class_not_on_selected_path (d : Feature) (t : string) :
  includes (layerClasses "map-selected-country" d) ("map-country-" ++ t) = false.
Proof. unfold layerClasses. destruct (negb (id d =? 0)%Z); reflexivity. Qed.

Section LayerFacts.

Local Set Default Proof Using "Type".

Variable getCountryNumCode : string -> JsId.
Variable getCountryNumCodes : list string -> list JsId.
Variable convertToAlpha3 : JsId -> option string.
Variable getAllInfoOfCountry : JsId -> option string * option string.
Variable focusedAreaColour : string.
Variable comparisonAreaColour : string.
Variable indicatorScale : JsNumber -> JsNumber.
Variable Math_round : float -> float.
Variable toFixed2 : float -> string.
Variable d3_format_comma : Formatted -> string.
Variable Number_toString : float -> string.
Variable mapDispatcher : Dispatcher.
Variable globalEvents : DispatcherEvents.
Variable selected : Selected.
Variable features : list Feature.
Variable groupedData : JsMap JsNumber.

Abbreviation codes := (countryCodesOfSelected getCountryNumCodes selected).
Abbreviation border :=
  (getBorderColour getCountryNumCode getCountryNumCodes focusedAreaColour
                   comparisonAreaColour selected).
Abbreviation width := (getStrokeWidth getCountryNumCodes selected).
Abbreviation fill := (getFillColour convertToAlpha3 indicatorScale).
Abbreviation baseLayer :=
  (renderAllCountriesWithWhiteBorder convertToAlpha3 indicatorScale features
                                     groupedData).
Abbreviation selectedLayer :=
  (renderSelectedCountries getCountryNumCode getCountryNumCodes
                           focusedAreaColour comparisonAreaColour selected
                           features).
Abbreviation paths :=
  (renderedPaths getCountryNumCode getCountryNumCodes convertToAlpha3
                 focusedAreaColour comparisonAreaColour indicatorScale
                 selected features groupedData).
Abbreviation interest := (classOfInterest getCountryNumCodes selected).
Abbreviation setBorder :=
  (setBorderColourOfCountry getCountryNumCode getCountryNumCodes
                            focusedAreaColour comparisonAreaColour selected).
Abbreviation emphasize := (emphasizeCountry getCountryNumCode).
Abbreviation deEmphasize :=
  (deEmphasizeCountry getCountryNumCode getCountryNumCodes focusedAreaColour
                      comparisonAreaColour selected).
Abbreviation enter :=
  (handleMouseEnter getCountryNumCode getCountryNumCodes getAllInfoOfCountry
                    focusedAreaColour comparisonAreaColour Math_round toFixed2
                    d3_format_comma Number_toString mapDispatcher globalEvents
                    selected features groupedData).
Abbreviation leave :=
  (handleMouseLeave getCountryNumCode getCountryNumCodes getAllInfoOfCountry
                    focusedAreaColour comparisonAreaColour mapDispatcher
                    globalEvents selected).
Abbreviation calls := (pointerCalls mapDispatcher selected).

(** X13: a country without an aggregate is filled gray, whatever the
    domain of the scale: when the directory has no 3-letter code for the
    feature, when the code is ["WLD"], and when no record of that code passes
    the filter of [updateData]. This holds for a scale that, like the linear
    scale of d3, has no number for [undefined]. *)
Theorem getFillColour_without_aggregate :
  forall (data : list Observation) (years : list Z) (ind : string) (dataId : JsId),
    is_nan (ToNumber (indicatorScale None)) = true ->
    match convertToAlpha3 dataId with
    | Some alpha3 =>
        alpha3 = "WLD" \/
        forall d, In d data -> matching years ind d -> CountryCode d <> alpha3
    | None => True
    end ->
    fill (updateData data years ind) dataId = "#808080".
Proof.
  intros data years ind dataId Hscale Hnone. unfold getFillColour.
  assert (E : Map_get (updateData data years ind) (convertToAlpha3 dataId) = None).
  { unfold Map_get. destruct (convertToAlpha3 dataId) as [a|]; [|reflexivity].
    rewrite updateData_lookup. unfold aggregate_spec.
    destruct Hnone as [->|Hnone]; [reflexivity|].
    destruct (String.eqb a "WLD"); [reflexivity|].
    destruct (filter _ _) as [|d l] eqn:F; [reflexivity|].
    assert (Hd : In d (filter (fun d => String.eqb (CountryCode d) a)
                              (filteredData data years ind)))
      by (rewrite F; left; reflexivity).
    apply filter_In in Hd as [Hd Hc]. apply filteredData_In in Hd as [Hd Hm].
    apply String.eqb_eq in Hc. elim (Hnone d Hd Hm Hc). }
  rewrite E. apply getTileColor_nan. exact Hscale.
Qed.

(** X14: the two passes. Every feature is drawn once in the base layer,
    with a white border and no width of its own. The selected layer draws
    the features whose [id] is a code of a selected area, and only those,
    in their order: without fill, twice the default width, and in the focus
    or the comparison colour, never the white of the base layer by default. *)
Theorem layers_of_the_map :
  map path_classes baseLayer = map (layerClasses "map-country") features /\
  (forall p, In p baseLayer ->
             path_stroke p = "white" /\ path_stroke_width p = None) /\
  map path_classes selectedLayer
  = map (layerClasses "map-selected-country")
        (filter (fun d => includes_id codes (IdNum (id d))) features) /\
  (forall p, In p selectedLayer ->
             path_fill p = "none" /\ path_stroke_width p = Some 2%Z /\
             (path_stroke p = focusedAreaColour \/
              path_stroke p = comparisonAreaColour)).
Proof.
  unfold renderAllCountriesWithWhiteBorder, renderSelectedCountries,
    selectedCountries. split_ands.
  - rewrite map_map. reflexivity.
  - intros p Hp. apply in_map_iff in Hp as (d & <- & _). split; reflexivity.
  - rewrite map_map. reflexivity.
  - intros p Hp. apply in_map_iff in Hp as (d & <- & Hd).
    apply filter_In in Hd as [_ Hd]. cbn [path_fill path_stroke path_stroke_width].
    unfold getStrokeWidth, getBorderColour. rewrite Hd. split_ands; try reflexivity.
    destruct (strict_eq_id _ _); [left | right]; reflexivity.
Qed.

(** The stroke a rendered path has is the border colour of the code that its
    class names. *)
Lemma rendered_stroke_of_selected_class (code : JsId) (p : Path) :
  In p paths ->
  includes (path_classes p) ("map-selected-country-" ++ JsId_toString code) = true ->
  path_stroke p = border code.
Proof.
  unfold renderedPaths, renderAllCountriesWithWhiteBorder, renderSelectedCountries.
  intros Hp Hc. apply in_app_iff in Hp as [Hp|Hp];
    apply in_map_iff in Hp as (d & <- & _); cbn [path_classes path_stroke] in *.
  - rewrite selected_class_not_on_base_path in Hc. discriminate.
  - apply selected_class_of_selected_path in Hc.
    apply JsId_toString_num in Hc. rewrite Hc. reflexivity.
Qed.

Lemma rendered_stroke_of_base_class (code : JsId) (p : Path) :
  In p paths ->
  includes (path_classes p) ("map-country-" ++ JsId_toString code) = true ->
  path_stroke p = "white".
Proof.
  unfold renderedPaths, renderAllCountriesWithWhiteBorder, renderSelectedCountries.
  intros Hp Hc. apply in_app_iff in Hp as [Hp|Hp];
    apply in_map_iff in Hp as (d & <- & _); cbn [path_classes path_stroke] in *.
  - reflexivity.
  - rewrite base_class_not_on_selected_path in Hc. discriminate.
Qed.

(** X15: emphasis is undone. On the paths as rendered, [deEmphasizeCountry]
    after [emphasizeCountry] of the same country gives every path its
    rendered stroke again; so does the stroke the [mouseleave] handler sets
    after the black of [mouseenter], for a code of a selected area always,
    and for any other code as long as it is not the code of the focus
    country (which the directory puts among the selected codes). *)
Theorem emphasis_is_undone :
  (forall countryName : string,
      deEmphasize countryName (emphasize countryName paths) = paths) /\
  (forall code : JsId,
      (strict_eq_id code (getCountryNumCode (country (area selected))) = true ->
       includes_id codes code = true) ->
      setBorder code true (setBorder code false paths) = paths).
Proof.
  split.
  - intros countryName. unfold deEmphasizeCountry, emphasizeCountry.
    rewrite set_stroke_twice. apply set_stroke_same.
    intros p Hp Hc. apply (rendered_stroke_of_selected_class _ p Hp Hc).
  - intros code Hfocus. unfold setBorderColourOfCountry, borderColourOfCountry.
    rewrite set_stroke_twice. apply set_stroke_same. intros p Hp.
    unfold classOfInterest.
    destruct (includes_id codes code) eqn:Hsel.
    + intros Hc. apply (rendered_stroke_of_selected_class _ p Hp Hc).
    + intros Hc. rewrite (rendered_stroke_of_base_class _ p Hp Hc).
      unfold getBorderColour. fold codes. rewrite Hsel.
      destruct (strict_eq_id code _) eqn:Hf; [|reflexivity].
      discriminate (Hfocus eq_refl).
Qed.

Lemma hoveredCode_num (noClass noClass' : JsId) (classes : list string) (z : Z) :
  hoveredCode noClass classes = IdNum z ->
  (forall x, noClass <> IdNum x) ->
  hoveredCode noClass' classes = IdNum z.
Proof.
  unfold hoveredCode. destruct (nth_error classes 1) as [cls|];
    [destruct (truthy_str (Some cls))|]; auto;
    intros H Hn; elim (Hn z H).
Qed.


End LayerFacts.

(** * The further properties on the sample collaborators *)

(** X1 (witness): ["Germany"] is taken out of four areas, ["Brazil"] is not
    among them. *)
Lemma removeComparisonArea_witness :
  let remove := removeComparisonArea Sample.formatCountryOrRegionNames in
  (~ In "Brazil" (comparisonAreas Sample.full) /\
   remove "Brazil" Sample.full = Sample.full) /\
  (In "Germany" (comparisonAreas Sample.full) /\
   exists pre post,
     comparisonAreas Sample.full = pre ++ "Germany" :: post /\
     ~ In "Germany" pre /\
     comparisonAreas (remove "Germany" Sample.full) = pre ++ post /\
     allSelectedAreas (remove "Germany" Sample.full)
     = focusName Sample.formatCountryOrRegionNames (area Sample.full)
         :: pre ++ post) /\
  (NoDup (comparisonAreas Sample.full) /\
   ~ In "Germany" (comparisonAreas (remove "Germany" Sample.full))).
Proof.
  cbn zeta.
  pose proof (removeComparisonArea_removes_first_occurrence
                Sample.formatCountryOrRegionNames "Brazil" Sample.full)
    as (Habsent & _).
  pose proof (removeComparisonArea_removes_first_occurrence
                Sample.formatCountryOrRegionNames "Germany" Sample.full)
    as (_ & Hpresent & Hnodup & _).
  assert (H1 : ~ In "Brazil" (comparisonAreas Sample.full))
    by (vm_compute; intros [H|[H|[H|[H|[]]]]]; discriminate).
  assert (H2 : In "Germany" (comparisonAreas Sample.full))
    by (vm_compute; right; left; reflexivity).
  assert (H3 : NoDup (comparisonAreas Sample.full)).
  { apply (NoDup_count_occ' string_dec). vm_compute.
    intros x [<-|[<-|[<-|[<-|[]]]]]; reflexivity. }
  split; [split; [exact H1 | exact (Habsent H1)]|].
  split; [split; [exact H2 | exact (Hpresent H2)]|].
  split; [exact H3 | exact (Hnodup H3)].
Defined.

(** X2 (witness): ["france"] is added as ["France"]; removing ["France"]
    restores the empty list, removing ["france"] does nothing. *)
Lemma add_then_remove_witness :
  let n := "france" in
  let fmt := Sample.formatCountryOrRegionNames in
  let s1 := fst (Sample.add n Sample.fresh) in
  (region (area Sample.fresh) <> fmt n /\ country (area Sample.fresh) <> fmt n /\
   List.length (comparisonAreas Sample.fresh) < 4 /\
   ~ In (fmt n) (comparisonAreas Sample.fresh) /\
   fmt n <> n /\ ~ In n (comparisonAreas Sample.fresh)) /\
  comparisonAreas s1 = ["France"] /\
  comparisonAreas (removeComparisonArea fmt (fmt n) s1) = [] /\
  removeComparisonArea fmt n s1 = s1.
Proof.
  cbn zeta.
  assert (H1 : region (area Sample.fresh)
               <> Sample.formatCountryOrRegionNames "france") by discriminate.
  assert (H2 : country (area Sample.fresh)
               <> Sample.formatCountryOrRegionNames "france") by discriminate.
  assert (H3 : List.length (comparisonAreas Sample.fresh) < 4) by (vm_compute; lia).
  assert (H4 : ~ In (Sample.formatCountryOrRegionNames "france")
                    (comparisonAreas Sample.fresh)) by (intros []).
  assert (H5 : Sample.formatCountryOrRegionNames "france" <> "france") by discriminate.
  assert (H6 : ~ In "france" (comparisonAreas Sample.fresh)) by (intros []).
  pose proof (add_then_remove_restores Sample.formatCountryOrRegionNames
                "france" Sample.fresh H1 H2 H3 H4) as (E1 & E2 & _ & E4).
  split; [split_ands; assumption|].
  split; [exact E1|]. split; [exact E2 | exact (E4 H5 H6)].
Defined.

(** X3 (witness): eight calls on a new object. *)
Lemma comparison_list_invariant_witness :
  let ops := [AddComparisonArea "Asia"; AddComparisonArea "France";
              SetArea (Some "Asia") (Some "France"); AddComparisonArea "USA";
              AddComparisonArea "Japan"; SetArea None (Some "United States");
              RemoveComparisonArea "Asia"; AddComparisonArea "Japan"] in
  (List.length (comparisonAreas Sample.fresh) <= 4 /\
   NoDup (comparisonAreas Sample.fresh)) /\
  let s' := fst (Sample.exec ops Sample.fresh) in
  List.length (comparisonAreas s') <= 4 /\ NoDup (comparisonAreas s').
Proof.
  cbn zeta.
  assert (H1 : List.length (comparisonAreas Sample.fresh) <= 4) by (vm_compute; lia).
  assert (H2 : NoDup (comparisonAreas Sample.fresh)) by constructor.
  split; [split; assumption|].
  apply (comparison_list_stays_short_and_duplicate_free
           Sample.formatCountryOrRegionNames Sample.getCountriesOfRegion
           Sample.isSameCountryName _ Sample.fresh H1 H2).
Defined.

(** X5 (witness): among four areas, the region ["Japan"] is removed, the
    region ["japan"] is not found. *)
Lemma setArea_list_witness :
  let setArea' := setArea Sample.formatCountryOrRegionNames
                          Sample.getCountriesOfRegion Sample.isSameCountryName in
  isFocusCountryInList Sample.isSameCountryName None Sample.full = false /\
  ((forall x, Some "japan" = Some x -> ~ In x (comparisonAreas Sample.full)) /\
   comparisonAreas (setArea' (Some "japan") None Sample.full)
   = comparisonAreas Sample.full) /\
  (In "Japan" (comparisonAreas Sample.full) /\
   exists pre post,
     comparisonAreas Sample.full = pre ++ "Japan" :: post /\ ~ In "Japan" pre /\
     comparisonAreas (setArea' (Some "Japan") None Sample.full) = pre ++ post).
Proof.
  cbn zeta.
  assert (H0 : isFocusCountryInList Sample.isSameCountryName None Sample.full = false)
    by reflexivity.
  assert (H1 : forall x, Some "japan" = Some x -> ~ In x (comparisonAreas Sample.full)).
  { intros x E. injection E as <-. vm_compute.
    intros [H|[H|[H|[H|[]]]]]; discriminate. }
  assert (H2 : In "Japan" (comparisonAreas Sample.full))
    by (vm_compute; right; right; left; reflexivity).
  split; [exact H0|]. split.
  - split; [exact H1|].
    apply (proj1 (proj2 (setArea_removes_at_most_one_entry
                           Sample.formatCountryOrRegionNames
                           Sample.getCountriesOfRegion Sample.isSameCountryName
                           (Some "japan") None Sample.full)) H0 H1).
  - split; [exact H2|].
    apply (proj2 (proj2 (setArea_removes_at_most_one_entry
                           Sample.formatCountryOrRegionNames
                           Sample.getCountriesOfRegion Sample.isSameCountryName
                           (Some "Japan") None Sample.full))
                 H0 "Japan" eq_refl H2).
Defined.

(** X6 (witness): ["USA"] and ["Japan"] are comparison areas; the country
    ["United States"] takes out ["Japan"]. *)
Lemma setArea_other_spelling_witness :
  let s := fst (Sample.exec [AddComparisonArea "USA"; AddComparisonArea "Japan"]
                            Sample.fresh) in
  (isFocusCountryInList Sample.isSameCountryName (Some "United States") s = true /\
   ~ In "United States" (comparisonAreas s)) /\
  comparisonAreas (setArea Sample.formatCountryOrRegionNames
                           Sample.getCountriesOfRegion Sample.isSameCountryName
                           None (Some "United States") s)
  = ["USA"].
Proof.
  cbn zeta.
  assert (H1 : isFocusCountryInList Sample.isSameCountryName (Some "United States")
                 (fst (Sample.exec [AddComparisonArea "USA"; AddComparisonArea "Japan"]
                                   Sample.fresh)) = true) by reflexivity.
  assert (H2 : ~ In "United States"
                    (comparisonAreas
                       (fst (Sample.exec [AddComparisonArea "USA";
                                          AddComparisonArea "Japan"] Sample.fresh))))
    by (vm_compute; intros [H|[H|[]]]; discriminate).
  split; [split; assumption|].
  rewrite (setArea_other_spelling_removes_last_entry
             Sample.formatCountryOrRegionNames Sample.getCountriesOfRegion
             Sample.isSameCountryName None "United States" _ H1 H2).
  reflexivity.
Defined.

(** X8 (witness): no selected year. *)
Lemma updateData_without_years_witness :
  (forall d, In d SampleMap.data -> ~ matching [] "X" d) /\
  updateData SampleMap.data [] "X" = [] /\
  updateDomain (updateData SampleMap.data [] "X") = (None, None).
Proof.
  assert (H : forall d, In d SampleMap.data -> ~ matching [] "X" d)
    by (intros d _ [[] _]).
  split; [exact H|].
  apply (updateData_without_matching_record SampleMap.data [] "X" H).
Defined.

(** X9 (witness): the aggregates 15 and 0 of the sample, and a map whose one
    aggregate is [undefined]. *)
Lemma updateDomain_bounds_witness :
  ((forall k v, In (k, Some v) [("ATA", None)] -> is_nan v = true) /\
   updateDomain [("ATA", None)] = (None, None)) /\
  ((In ("USA", Some 15%float) SampleMap.groupedData /\ is_nan 15 = false) /\
   exists lo hi,
     updateDomain SampleMap.groupedData = (Some lo, Some hi) /\
     is_nan lo = false /\ is_nan hi = false /\ (lo <=? hi)%float = true /\
     forall k v, In (k, Some v) SampleMap.groupedData -> is_nan v = false ->
                 (lo <=? v)%float = true /\ (v <=? hi)%float = true).
Proof.
  assert (H1 : forall k v, In (k, Some v) [("ATA", @None float)] -> is_nan v = true)
    by (intros k v [H|[]]; discriminate).
  assert (H2 : In ("USA", Some 15%float) SampleMap.groupedData)
    by (vm_compute; left; reflexivity).
  assert (H3 : is_nan 15 = false) by reflexivity.
  split.
  - split; [exact H1|].
    apply (proj1 (updateDomain_encloses_the_aggregates [("ATA", None)]) H1).
  - split; [split; assumption|].
    apply (proj2 (updateDomain_encloses_the_aggregates SampleMap.groupedData)
                 "USA" 15%float H2 H3).
Defined.

(** X10 (witness): aggregates 0 and -0, and aggregates 5 and 5. *)
Lemma updateDomain_equal_witness :
  let zeros : JsMap JsNumber := [("FRA", Some 0%float); ("JPN", Some (-0)%float)] in
  let fives : JsMap JsNumber := [("FRA", Some 5%float); ("JPN", Some 5%float)] in
  (zeros <> [] /\
   (forall k v, In (k, v) zeros -> exists z, v = Some z /\ (z =? 0)%float = true)) /\
  (exists lo, updateDomain zeros = (Some lo, Some 1%float) /\
              (lo =? 0)%float = true) /\
  (fives <> [] /\ is_nan 5 = false /\ (5 =? 0)%float = false /\
   (forall k v, In (k, v) fives -> v = Some 5%float)) /\
  updateDomain fives = (Some 5%float, Some 5%float).
Proof.
  cbn zeta.
  assert (Z1 : [("FRA", Some 0%float); ("JPN", Some (-0)%float)] <> [])
    by discriminate.
  assert (Z2 : forall k v,
             In (k, v) [("FRA", Some 0%float); ("JPN", Some (-0)%float)] ->
             exists z, v = Some z /\ (z =? 0)%float = true).
  { intros k v [H|[H|[]]]; injection H as _ <-; eexists; split; reflexivity. }
  assert (F1 : [("FRA", Some 5%float); ("JPN", Some 5%float)] <> [])
    by discriminate.
  assert (F2 : forall k v,
             In (k, v) [("FRA", Some 5%float); ("JPN", Some 5%float)] ->
             v = Some 5%float).
  { intros k v [H|[H|[]]]; injection H as _ <-; reflexivity. }
  split; [split; assumption|].
  split; [apply (proj1 (updateDomain_of_equal_aggregates _ Z1) Z2)|].
  split; [split_ands; try assumption; reflexivity|].
  apply (proj2 (updateDomain_of_equal_aggregates _ F1) 5%float eq_refl eq_refl F2).
Defined.

(** X11 (witness): the feature 840 in both layers, a feature with a
    negative [id], and the feature without one. *)
Lemma hoveredCode_witness :
  let usa := mkFeature 840 "United States of America" in
  ((0 < id usa < 2 ^ 53)%Z /\
   hoveredCode IdFalse ["map-country"; "map-country-840"] = IdNum 840) /\
  ((id (mkFeature (-5) "") < 0)%Z /\
   hoveredCode IdFalse ["map-country"; "map-country--5"] = IdNaN) /\
  (id usa <> 0%Z /\
   hoveredCode IdFalse ["map-selected-country"; "map-selected-country-840"]
   = IdNaN) /\
  (id (mkFeature 0 "Nowhere") = 0%Z /\
   hoveredCode IdNull ["map-country"] = IdNull).
Proof.
  cbn zeta.
  assert (H1 : (0 < id (mkFeature 840 "United States of America") < 2 ^ 53)%Z)
    by (cbn; lia).
  assert (H2 : (id (mkFeature (-5) "") < 0)%Z) by (cbn; lia).
  assert (H3 : id (mkFeature 840 "United States of America") <> 0%Z)
    by (cbn; lia).
  split; [split; [exact H1|]|].
  { apply (proj1 (hoveredCode_of_layer_classes
                    (mkFeature 840 "United States of America") IdFalse) H1). }
  split; [split; [exact H2|]|].
  { apply (proj1 (proj2 (hoveredCode_of_layer_classes
                           (mkFeature (-5) "") IdFalse)) H2). }
  split; [split; [exact H3|]|].
  { apply (proj1 (proj2 (proj2 (hoveredCode_of_layer_classes
                                  (mkFeature 840 "United States of America")
                                  IdFalse))) H3). }
  split; [reflexivity|].
  apply (proj2 (proj2 (proj2 (hoveredCode_of_layer_classes
                                (mkFeature 0 "Nowhere") IdNull)))
               eq_refl "map-country").
Defined.

(** X12 (witness): 0.7 is in the range of the box of 0.8, 0.1 in that of
    the box of 0.2, 1.5 goes with the first box, NaN with the last. *)
Lemma legend_witness :
  let box (i : nat) := nth i legendColourBoxes (mkLegendBox 0 0 0 0 "") in
  (((0.7 <=? box_bin (box 1%nat))%float = true /\
    (box_bin (box 2%nat) <? 0.7)%float = true) /\
   getTileColor (Some 0.7%float) = box_fill (box 1%nat)) /\
  (((0.1 <=? box_bin (box 4%nat))%float = true /\ is_nan (box_bin (box 5%nat)) = true) /\
   getTileColor (Some 0.1%float) = box_fill (box 4%nat)) /\
  ((box_bin (box 0%nat) <? 1.5)%float = true /\
   getTileColor (Some 1.5%float) = box_fill (box 0%nat)) /\
  ((is_nan nan = true /\ In (box 5%nat) legendColourBoxes) /\
   getTileColor (Some nan) = box_fill (box 5%nat)).
Proof.
  cbn zeta.
  pose proof legend_boxes_agree_with_tile_colours as (_ & Hmid & Htop & Hnan).
  split; [split; [split; reflexivity|]|].
  { apply (Hmid 0.7%float 1 _ _ eq_refl eq_refl); reflexivity. }
  split; [split; [split; reflexivity|]|].
  { apply (Hmid 0.1%float 4 _ _ eq_refl eq_refl); reflexivity. }
  split; [split; [reflexivity|]|].
  { apply (Htop 1.5%float _ eq_refl). reflexivity. }
  assert (Hin : In (nth 5 legendColourBoxes (mkLegendBox 0 0 0 0 "")) legendColourBoxes)
    by (vm_compute; do 5 right; left; reflexivity).
  split; [split; [reflexivity | exact Hin]|].
  apply (Hnan (Some nan) _ eq_refl Hin). reflexivity.
Defined.

(** X13 (witness): Japan has a record of another indicator only, and
    Antarctica no 3-letter code in the directory. *)
Lemma getFillColour_witness :
  let fill :=
    getFillColour SampleMap.convertToAlpha3 SampleMap.indicatorScale
                  (updateData SampleMap.data [2010; 2011]%Z "X") in
  (is_nan (ToNumber (SampleMap.indicatorScale None)) = true /\
   SampleMap.convertToAlpha3 (IdNum 392) = Some "JPN" /\
   (forall d, In d SampleMap.data -> matching [2010; 2011]%Z "X" d ->
              CountryCode d <> "JPN") /\
   SampleMap.convertToAlpha3 (IdNum 10) = None) /\
  fill (IdNum 392) = "#808080" /\ fill (IdNum 10) = "#808080".
Proof.
  cbn zeta.
  assert (H1 : is_nan (ToNumber (SampleMap.indicatorScale None)) = true)
    by reflexivity.
  assert (H2 : forall d, In d SampleMap.data -> matching [2010; 2011]%Z "X" d ->
                         CountryCode d <> "JPN").
  { intros d Hd [_ Hi].
    repeat (destruct Hd as [<-|Hd]; [try discriminate; discriminate Hi|]).
    destruct Hd. }
  split; [split_ands; try assumption; reflexivity|]. split.
  - apply (getFillColour_without_aggregate SampleMap.convertToAlpha3
             SampleMap.indicatorScale SampleMap.data [2010; 2011]%Z "X"
             (IdNum 392) H1).
    right. exact H2.
  - apply (getFillColour_without_aggregate SampleMap.convertToAlpha3
             SampleMap.indicatorScale SampleMap.data [2010; 2011]%Z "X"
             (IdNum 10) H1).
    exact I.
Defined.

(** X14 (witness): the first path of each layer of the sample. *)
Lemma layers_witness :
  let baseLayer :=
    renderAllCountriesWithWhiteBorder SampleMap.convertToAlpha3
      SampleMap.indicatorScale SampleMap.features SampleMap.groupedData in
  let selectedLayer :=
    renderSelectedCountries SampleMap.getCountryNumCode
      SampleMap.getCountryNumCodes SampleMap.focusedAreaColour
      SampleMap.comparisonAreaColour SampleMap.selected SampleMap.features in
  let p1 := mkPath ["map-country"; "map-country-840"] "#eff3ff" "white" None in
  let p2 := mkPath ["map-selected-country"; "map-selected-country-250"] "none"
                   SampleMap.focusedAreaColour (Some 2%Z) in
  (In p1 baseLayer /\ path_stroke p1 = "white" /\ path_stroke_width p1 = None) /\
  (In p2 selectedLayer /\
   path_fill p2 = "none" /\ path_stroke_width p2 = Some 2%Z /\
   (path_stroke p2 = SampleMap.focusedAreaColour \/
    path_stroke p2 = SampleMap.comparisonAreaColour)).
Proof.
  cbn zeta.
  pose proof (layers_of_the_map SampleMap.getCountryNumCode
                SampleMap.getCountryNumCodes SampleMap.convertToAlpha3
                SampleMap.focusedAreaColour SampleMap.comparisonAreaColour
                SampleMap.indicatorScale SampleMap.selected SampleMap.features
                SampleMap.groupedData) as (_ & Hbase & _ & Hsel).
  assert (H1 : In (mkPath ["map-country"; "map-country-840"] "#eff3ff" "white" None)
                  (renderAllCountriesWithWhiteBorder SampleMap.convertToAlpha3
                     SampleMap.indicatorScale SampleMap.features
                     SampleMap.groupedData))
    by (vm_compute; left; reflexivity).
  assert (H2 : In (mkPath ["map-selected-country"; "map-selected-country-250"]
                          "none" SampleMap.focusedAreaColour (Some 2%Z))
                  (renderSelectedCountries SampleMap.getCountryNumCode
                     SampleMap.getCountryNumCodes SampleMap.focusedAreaColour
                     SampleMap.comparisonAreaColour SampleMap.selected
                     SampleMap.features))
    by (vm_compute; left; reflexivity).
  split; [split; [exact H1 | exact (Hbase _ H1)]|].
  split; [exact H2 | exact (Hsel _ H2)].
Defined.

(** X15 (witness): the pointer over France, the focus, and over the United
    States, which is not selected. *)
Lemma emphasis_witness :
  let setBorder :=
    setBorderColourOfCountry SampleMap.getCountryNumCode
      SampleMap.getCountryNumCodes SampleMap.focusedAreaColour
      SampleMap.comparisonAreaColour SampleMap.selected in
  let codes := countryCodesOfSelected SampleMap.getCountryNumCodes
                                      SampleMap.selected in
  let focusCode := SampleMap.getCountryNumCode (country (area SampleMap.selected)) in
  ((strict_eq_id (IdNum 250) focusCode = true ->
    includes_id codes (IdNum 250) = true) /\
   setBorder (IdNum 250) true (setBorder (IdNum 250) false SampleMap.paths)
   = SampleMap.paths) /\
  ((strict_eq_id (IdNum 840) focusCode = true ->
    includes_id codes (IdNum 840) = true) /\
   setBorder (IdNum 840) true (setBorder (IdNum 840) false SampleMap.paths)
   = SampleMap.paths) /\
  setBorder (IdNum 250) false SampleMap.paths <> SampleMap.paths.
Proof.
  cbn zeta.
  pose proof (proj2 (emphasis_is_undone SampleMap.getCountryNumCode
                       SampleMap.getCountryNumCodes SampleMap.convertToAlpha3
                       SampleMap.focusedAreaColour SampleMap.comparisonAreaColour
                       SampleMap.indicatorScale SampleMap.selected
                       SampleMap.features SampleMap.groupedData)) as Hundo.
  assert (H1 : strict_eq_id (IdNum 250)
                 (SampleMap.getCountryNumCode (country (area SampleMap.selected)))
               = true ->
               includes_id (countryCodesOfSelected SampleMap.getCountryNumCodes
                                                   SampleMap.selected)
                           (IdNum 250) = true)
    by (intros _; reflexivity).
  assert (H2 : strict_eq_id (IdNum 840)
                 (SampleMap.getCountryNumCode (country (area SampleMap.selected)))
               = true ->
               includes_id (countryCodesOfSelected SampleMap.getCountryNumCodes
                                                   SampleMap.selected)
                           (IdNum 840) = true)
    by (intros H; discriminate H).
  split; [split; [exact H1 | exact (Hundo (IdNum 250) H1)]|].
  split; [split; [exact H2 | exact (Hundo (IdNum 840) H2)]|].
  vm_compute. discriminate.
Defined.


(** * Values that are not numbers, and names that are missing *)

Lemma mean_fold_skips_nan (values : list float) (acc : nat * float) :
  fold_left mean_step values acc
  = fold_left mean_step (filter (fun v => negb (is_nan v)) values) acc.
Proof.
  revert acc. induction values as [|v rest IH]; intros [count sum];
    cbn [fold_left filter]; [reflexivity|].
  destruct (is_nan v) eqn:N; cbn [negb fold_left].
  - unfold mean_step at 2. rewrite leb_refl_is_number, N. cbn [negb]. apply IH.
  - apply IH.
Qed.

Lemma filter_numbers_are_numbers (values : list float) :
  Forall (fun v => is_nan v = false) (filter (fun v => negb (is_nan v)) values).
Proof.
  apply Forall_forall. intros v H. apply filter_In in H as [_ H].
  apply negb_true_iff in H. exact H.
Qed.

(** X17: a value that is NaN does not count. The aggregate of a country is
    the arithmetic mean of those values of its records that are numbers; a
    country whose records have no number at all still has an entry in
    [groupedData], but one without a value. *)
Theorem updateData_skips_values_that_are_not_numbers :
  forall (data : list Observation) (years : list Z) (ind c : string),
    let values :=
      map Value (filter (fun d => String.eqb (CountryCode d) c)
                        (filteredData data years ind)) in
    let numbers := filter (fun v => negb (is_nan v)) values in
    c <> "WLD" -> values <> [] ->
    Map_has (updateData data years ind) c = true /\
    Map_get (updateData data years ind) (Some c)
    = match numbers with
      | [] => None
      | _ => Some (arithmetic_mean numbers)
      end.
Proof.
  intros data years ind c values numbers Hc Hne. subst values numbers.
  rewrite Map_has_lookup. unfold Map_get. rewrite updateData_lookup.
  unfold aggregate_spec.
  destruct (String.eqb_spec c "WLD") as [E|_]; [contradiction|].
  destruct (filter _ (filteredData data years ind)) as [|d0 group] eqn:E;
    [contradiction Hne; reflexivity|].
  split; [reflexivity|].
  set (values := map Value (d0 :: group)).
  unfold d3_mean. rewrite mean_fold_skips_nan.
  destruct (filter (fun v => negb (is_nan v)) values) as [|v numbers] eqn:F.
  - reflexivity.
  - pose proof (filter_numbers_are_numbers values) as Hnum. rewrite F in Hnum.
    change (d3_mean (v :: numbers) = Some (arithmetic_mean (v :: numbers))).
    apply d3_mean_numbers; [discriminate | exact Hnum].
Qed.

(** X17 (witness): a record without a number next to one with 8, and a
    country whose only record has none. *)
Lemma updateData_nan_witness :
  let data := [mkObservation "USA" "X" 2010 nan; mkObservation "USA" "X" 2010 8;
               mkObservation "FRA" "X" 2010 nan] in
  let values c :=
    map Value (filter (fun d => String.eqb (CountryCode d) c)
                      (filteredData data [2010%Z] "X")) in
  ("USA" <> "WLD" /\ values "USA" <> [] /\ values "FRA" <> []) /\
  (Map_has (updateData data [2010%Z] "X") "USA" = true /\
   Map_get (updateData data [2010%Z] "X") (Some "USA") = Some 8%float) /\
  (Map_has (updateData data [2010%Z] "X") "FRA" = true /\
   Map_get (updateData data [2010%Z] "X") (Some "FRA") = None).
Proof.
  cbn zeta.
  assert (H1 : "USA" <> "WLD") by discriminate.
  assert (H1' : "FRA" <> "WLD") by discriminate.
  split; [split_ands; try assumption; vm_compute; discriminate|].
  split.
  - apply (updateData_skips_values_that_are_not_numbers
             [mkObservation "USA" "X" 2010 nan; mkObservation "USA" "X" 2010 8;
              mkObservation "FRA" "X" 2010 nan] [2010%Z] "X" "USA" H1).
    vm_compute. discriminate.
  - apply (updateData_skips_values_that_are_not_numbers
             [mkObservation "USA" "X" 2010 nan; mkObservation "USA" "X" 2010 8;
              mkObservation "FRA" "X" 2010 nan] [2010%Z] "X" "FRA" H1').
    vm_compute. discriminate.
Defined.

Section TooltipNames.

Local Set Default Proof Using "Type".

Variable Math_round : float -> float.
Variable toFixed2 : float -> string.
Variable d3_format_comma : Formatted -> string.
Variable Number_toString : float -> string.

Abbreviation tooltip :=
  (showTooltip Math_round toFixed2 d3_format_comma Number_toString).

(** X18: the name on the tooltip. The name of the directory is shown when
    it is not empty; failing that, the name of the first feature of the
    geoJson that has the code; and when neither gives a name, no tooltip is
    shown at all. A tooltip that is shown stands at the place of the pointer
    and carries the interval and the indicator of the selection. *)
Theorem showTooltip_name :
  forall (selected : Selected) (features : list Feature) (g : JsMap JsNumber)
         (x y code : Z) (alpha_3 countryName : option string),
    let fromGeoJson :=
      option_map name (find (fun d => (id d =? code)%Z) features) in
    let shown := tooltip selected features g x y code alpha_3 countryName in
    (truthy_str countryName = false -> truthy_str fromGeoJson = false ->
     shown = None) /\
    (forall n, countryName = Some n -> n <> "" ->
               option_map tooltip_name shown = Some n) /\
    (truthy_str countryName = false ->
     forall n, fromGeoJson = Some n -> n <> "" ->
               option_map tooltip_name shown = Some n) /\
    (forall t, shown = Some t ->
               tooltip_top t = y /\ tooltip_left t = x /\
               tooltip_interval t = timeInterval selected /\
               tooltip_indicator t = ("Average " ++ indicator selected ++ ":")%string).
Proof.
  intros selected features g x y code alpha_3 countryName fromGeoJson shown.
  assert (Hfind : match filter (fun d => (id d =? code)%Z) features with
                  | d :: _ => Some (name d)
                  | [] => None
                  end = fromGeoJson).
  { subst fromGeoJson. induction features as [|d l IH]; cbn [filter find];
      [reflexivity|]. destruct (id d =? code)%Z; [reflexivity | exact IH]. }
  subst shown. unfold showTooltip. rewrite Hfind. clear Hfind.
  split_ands.
  - intros -> ->. reflexivity.
  - intros n -> Hn. cbn [truthy_str].
    destruct (String.eqb_spec n "") as [E|_]; [contradiction|]. reflexivity.
  - intros Hc n -> Hn. rewrite Hc.
    assert (Hg : truthy_str (Some n) = true).
    { cbn [truthy_str]. destruct (String.eqb_spec n "") as [E|_];
        [contradiction | reflexivity]. }
    rewrite Hg. cbn [orb option_map tooltip_name].
    destruct countryName as [m|]; reflexivity.
  - intros t. destruct (truthy_str countryName || truthy_str fromGeoJson);
      [|discriminate].
    intros E. injection E as <-. split_ands; reflexivity.
Qed.

End TooltipNames.

(** X18 (witness): France by its name in the directory, Antarctica by its
    name in the geoJson, and a code that nobody knows. *)
Lemma showTooltip_name_witness :
  let tooltip :=
    showTooltip SampleMap.Math_round SampleMap.toFixed2 SampleMap.d3_format_comma
                SampleMap.Number_toString SampleMap.selected SampleMap.features
                SampleMap.groupedData 5 6 in
  let fromGeoJson code :=
    option_map name (find (fun d => (id d =? code)%Z) SampleMap.features) in
  ((truthy_str None = false /\ truthy_str (fromGeoJson 999%Z) = false) /\
   tooltip 999%Z None None = None) /\
  ("France" <> "" /\
   option_map tooltip_name (tooltip 250%Z (Some "FRA") (Some "France"))
   = Some "France") /\
  ((fromGeoJson 10%Z = Some "Antarctica" /\ "Antarctica" <> "") /\
   option_map tooltip_name (tooltip 10%Z None None) = Some "Antarctica") /\
  (tooltip 10%Z None None <> None /\
   option_map tooltip_top (tooltip 10%Z None None) = Some 6%Z).
Proof.
  cbn zeta.
  pose proof (fun code a n =>
                showTooltip_name SampleMap.Math_round SampleMap.toFixed2
                  SampleMap.d3_format_comma SampleMap.Number_toString
                  SampleMap.selected SampleMap.features SampleMap.groupedData
                  5%Z 6%Z code a n) as Hall.
  assert (HF : "France" <> "") by discriminate.
  assert (HA : "Antarctica" <> "") by discriminate.
  split; [split; [split; reflexivity|]|].
  { apply (proj1 (Hall 999%Z None None)); reflexivity. }
  split; [split; [exact HF|]|].
  { apply (proj1 (proj2 (Hall 250%Z (Some "FRA") (Some "France"))) "France" eq_refl HF). }
  split; [split; [split; [reflexivity | exact HA]|]|].
  { apply (proj1 (proj2 (proj2 (Hall 10%Z None None))) eq_refl "Antarctica" eq_refl HA). }
  split; [vm_compute; discriminate|].
  destruct (showTooltip SampleMap.Math_round SampleMap.toFixed2
              SampleMap.d3_format_comma SampleMap.Number_toString
              SampleMap.selected SampleMap.features SampleMap.groupedData
              5 6 10 None None) as [t|] eqn:E; [|vm_compute in E; discriminate E].
  cbn [option_map]. f_equal.
  apply (proj2 (proj2 (proj2 (Hall 10%Z None None))) t E).
Defined.
